(** * SmartCommit: evaluation engine, safety classifier and agent loop

    A shallow embedding of the Python sources

    - [api/evaluate_simple.py] and [Phase3_Submission/code/api/evaluate.py]
      (metrics and grounding check),
    - [Phase3_Submission/code/api/safety.py] (input validation, severity and
      confidence classifier, warnings, output sanitation),
    - [Phase3_Submission/code/api/multi_agent.py] (governance controller,
      the three agents and the orchestrating loop),
    - [Phase3_Submission/code/api/git_interface.py] (diff statistics) and
      [Phase3_Submission/code/api/main.py] (the endpoints that call the
      evaluator and the safety layer),

    followed by the properties of the specification, each stated over the
    embedded functions.

    Modelling conventions.
    - A Python [float] is an IEEE 754 binary64 number, held as the rational
      ([Q]) it denotes.  Arithmetic on floats ([float_add], [float_mul],
      [float_div], [int_truediv], ...) takes the exact result of the
      operation and rounds it to the nearest double, ties to even ([fl]).
      [round(x, n)] rounds the exact value of the double [x] to [n]
      decimals, ties to even.  A decimal, be it a literal of the source
      or the result of [round], is written as the decimal and stands for
      the double nearest to it: every operation applies [fl] to its
      operands.  Infinities, NaN and the sign of zero are not modelled.
    - A Python [str] is a [string] whose characters stand for the code
      points 0..255; [len] counts characters.
    - Wall-clock readings ([time.time()], [datetime.now()]) are inputs.
    - Library behaviour that the sources only call (the NLTK tokenizer and
      stopword list, [math.exp]/[math.log], [re.search] on the sensitive-data
      patterns, [str()] of a dict, float formatting, the language model) is
      collected in the class [Externals]. *)

From Stdlib Require Import ZArith QArith Qround Qpower Lqa String Ascii List Lia.
From Stdlib Require Import PrimFloat FloatOps.
From stdpp Require Import gmap gmultiset strings list pretty.

Local Open Scope string_scope.
Local Open Scope list_scope.
Local Open Scope nat_scope.

(** ** Python exceptions and dynamically typed values *)

Inductive exn :=
| ValueError (msg : string)
| TypeError (msg : string)
| KeyError (key : string).

Inductive result (A : Type) :=
| Ok (a : A)
| Raise (e : exn).
Arguments Ok {A} a.
Arguments Raise {A} e.

#[global] Instance result_ret : MRet result := fun A a => Ok a.

#[global] Instance result_bind : MBind result := fun A B k r =>
  match r with
  | Ok a => k a
  | Raise e => Raise e
  end.

#[warnings="-register-all"] Inductive pyval :=
| VNone
| VBool (b : bool)
| VInt (n : Z)
| VFloat (x : Q)
| VStr (s : string)
| VList (l : list pyval)
| VDict (d : list (string * pyval)).

(** Exact comparisons on rationals, as booleans. *)
Definition Qltb (x y : Q) : bool := negb (Qle_bool y x).
Definition Qgtb (x y : Q) : bool := Qltb y x.
Definition Qgeb (x y : Q) : bool := Qle_bool y x.

(** [bool(v)]: Python truth value. *)
Definition py_truth (v : pyval) : bool :=
  match v with
  | VNone => false
  | VBool b => b
  | VInt n => negb (n =? 0)%Z
  | VFloat x => negb (Qeq_bool x 0)
  | VStr s => negb (String.eqb s EmptyString)
  | VList l => match l with [] => false | _ => true end
  | VDict d => match d with [] => false | _ => true end
  end.

(** The numeric value that arithmetic and ordering against a float use;
    [bool] is a subtype of [int] ([True] is 1), anything else raises
    [TypeError]. *)
Definition py_number (v : pyval) : result Q :=
  match v with
  | VBool b => Ok (if b then 1%Q else 0%Q)
  | VInt n => Ok (inject_Z n)
  | VFloat x => Ok x
  | _ => Raise (TypeError "unsupported operand type")
  end.

(** Dict access: [d.get(k)], [d.get(k, default)], [d[k]], [k in d]. *)
Fixpoint dict_lookup (d : list (string * pyval)) (k : string) : option pyval :=
  match d with
  | [] => None
  | (k', v) :: d' => if String.eqb k' k then Some v else dict_lookup d' k
  end.

Definition dict_get (d : list (string * pyval)) (k : string) (dflt : pyval) : pyval :=
  match dict_lookup d k with
  | Some v => v
  | None => dflt
  end.

Definition dict_item (d : list (string * pyval)) (k : string) : result pyval :=
  match dict_lookup d k with
  | Some v => Ok v
  | None => Raise (KeyError k)
  end.

Definition dict_has (d : list (string * pyval)) (k : string) : bool :=
  match dict_lookup d k with
  | Some _ => true
  | None => false
  end.

(** The integer nearest to [x], ties to the even one. *)
Definition round_half_even (x : Q) : Z :=
  let f := Qfloor x in
  match Qcompare (x - inject_Z f) (1 # 2) with
  | Lt => f
  | Gt => (f + 1)%Z
  | Eq => if Z.even f then f else (f + 1)%Z
  end.

(** [round(x, ndigits)] of a float [x]: the multiple of [10^-ndigits]
    nearest to the exact value of [x], ties to the even one, in lowest
    terms.  (CPython converts [x] to the correctly rounded decimal with
    [ndigits] digits after the point and returns the double nearest to
    that decimal.) *)
Definition py_round (x : Q) (ndigits : nat) : Q :=
  let scale := inject_Z (10 ^ Z.of_nat ndigits) in
  Qred (inject_Z (round_half_even (x * scale)) / scale).

(** ** Python floats: IEEE 754 binary64, round to nearest, ties to even *)

(** [binade a] is [floor (log2 a)] for a positive [a]. *)
Definition binade (a : Q) : Z :=
  let k := (Z.log2 (Qnum a) - Z.log2 (Zpos (Qden a)))%Z in
  if Qle_bool (2 ^ k) a then k else (k - 1)%Z.

(** The exponent of the last of the 53 significant bits; it is not below
    -1074, the exponent of the smallest subnormal number. *)
Definition ulp_exponent (a : Q) : Z := Z.max (binade a - 52) (-1074).

(** The double nearest to a positive [a]. *)
Definition fl_pos (a : Q) : Q :=
  let e := ulp_exponent a in
  (inject_Z (round_half_even (a / 2 ^ e)) * 2 ^ e)%Q.

(** The double nearest to [x], in lowest terms. *)
Definition fl (x : Q) : Q :=
  let x := Qred x in
  match Qnum x with
  | Z0 => 0%Q
  | Zpos _ => Qred (fl_pos x)
  | Zneg _ => Qred (- fl_pos (- x))
  end.

(** [x + y], [x - y], [x * y] and [x / y] on floats: the exact result of
    the operation on the two doubles, rounded once. *)
Definition float_add (x y : Q) : Q := fl (fl x + fl y).
Definition float_sub (x y : Q) : Q := fl (fl x - fl y).
Definition float_mul (x y : Q) : Q := fl (fl x * fl y).
Definition float_div (x y : Q) : Q := fl (fl x / fl y).

(** Half a unit in the last place of a double in [[1, 2)]: [2 ^ -53]. *)
Definition unit_roundoff : Q := Eval vm_compute in (2 ^ (-53))%Q.

(** [a / b] on two [int]s: the exact quotient, rounded once. *)
Definition int_truediv (a b : Z) : Q := fl (inject_Z a / inject_Z b).

(** [sum(floats)]: the running total starts at 0 and adds from the left.
    (CPython 3.12 and later carry a compensation term along; the last bit
    of a sum of three or more floats can then differ.) *)
Definition float_sum (l : list Q) : Q := fold_left float_add l 0%Q.

(** [v / d] for an [int] divisor [d]: an [int] or [bool] is divided
    exactly, a [float] as a double. *)
Definition py_truediv (v : pyval) (d : Z) : result Q :=
  match v with
  | VBool b => Ok (int_truediv (if b then 1 else 0) d)
  | VInt n => Ok (int_truediv n d)
  | VFloat x => Ok (float_div x (inject_Z d))
  | _ => Raise (TypeError "unsupported operand type")
  end.

(** The value of a machine float, when it is finite. *)
Definition Q_of_float (f : float) : option Q :=
  match Prim2SF f with
  | SpecFloat.S754_zero _ => Some 0%Q
  | SpecFloat.S754_finite s m e =>
      Some (Qred ((if s then -1 else 1) * inject_Z (Zpos m) * 2 ^ e))
  | _ => None
  end.

(** ** The levels of the specification and their names in the code *)

Inductive SeverityLevel := NONE | LOW | MEDIUM | HIGH | CRITICAL.

Definition severity_name (s : SeverityLevel) : string :=
  match s with
  | NONE => "NONE"
  | LOW => "LOW"
  | MEDIUM => "MEDIUM"
  | HIGH => "HIGH"
  | CRITICAL => "CRITICAL"
  end.

Definition severity_rank (s : SeverityLevel) : nat :=
  match s with
  | NONE => 0
  | LOW => 1
  | MEDIUM => 2
  | HIGH => 3
  | CRITICAL => 4
  end.


(** ** Library behaviour assumed from outside the repository *)

Record generation := { gen_success : bool; gen_message : string }.

Class Externals := {
  (** [nltk.tokenize.word_tokenize] *)
  word_tokenize : string -> list string;
  (** [stopwords.words('english')] *)
  stopwords : list string;
  (** [math.exp] and [math.log] *)
  math_exp : Q -> Q;
  math_log : Q -> Q;
  (** [re.search(pattern, text, re.IGNORECASE)] as a truth value *)
  re_search : string -> string -> bool;
  (** [str(d)] of a dict *)
  py_str : pyval -> string;
  (** [format(x, spec)] of a float, as in an f-string *)
  format_float : string -> Q -> string;
  (** [ModelService.generate_commit_message], reduced to the two keys read *)
  generate_commit_message : string -> generation
}.

(** ** Python string operations (module [PyStr]) *)

Module PyStr.

Definition chars (s : string) : list ascii := list_ascii_of_string s.
Definition str (l : list ascii) : string := string_of_list_ascii l.

Definition code (c : ascii) : nat := nat_of_ascii c.

Definition nl : ascii := ascii_of_nat 10.

Definition is_nl (c : ascii) : bool := code c =? 10.

(** [str.isspace] on one character (code points below 256). *)
Definition isspace (c : ascii) : bool :=
  let n := code c in
  ((9 <=? n) && (n <=? 13)) || ((28 <=? n) && (n <=? 32)) || (n =? 133) || (n =? 160).

(** [str.isalnum] on one character (code points below 256). *)
Definition isalnum_char (c : ascii) : bool :=
  let n := code c in
  ((48 <=? n) && (n <=? 57)) || ((65 <=? n) && (n <=? 90)) || ((97 <=? n) && (n <=? 122))
  || (n =? 170) || (n =? 178) || (n =? 179) || (n =? 181) || (n =? 185) || (n =? 186)
  || ((188 <=? n) && (n <=? 190)) || ((192 <=? n) && (n <=? 214))
  || ((216 <=? n) && (n <=? 246)) || ((248 <=? n) && (n <=? 255)).

(** [s.isalnum()]: non-empty and every character alphanumeric. *)
Definition isalnum (s : string) : bool :=
  match chars s with
  | [] => false
  | l => forallb isalnum_char l
  end.

Definition lower_char (c : ascii) : ascii :=
  let n := code c in
  if ((65 <=? n) && (n <=? 90)) || ((192 <=? n) && (n <=? 222) && negb (n =? 215))
  then ascii_of_nat (n + 32) else c.

(** [s.lower()] *)
Definition lower (s : string) : string := str (map lower_char (chars s)).

(** [s.lstrip()], [s.rstrip()], [s.strip()] on character lists. *)
Fixpoint lstrip_chars (l : list ascii) : list ascii :=
  match l with
  | [] => []
  | c :: l' => if isspace c then lstrip_chars l' else l
  end.

Definition rstrip_chars (l : list ascii) : list ascii := rev (lstrip_chars (rev l)).

Definition strip_chars (l : list ascii) : list ascii := rstrip_chars (lstrip_chars l).

Definition strip (s : string) : string := str (strip_chars (chars s)).

(** [s.replace(a, b)] for single characters [a] and [b]. *)
Definition replace_chars (a b : ascii) (l : list ascii) : list ascii :=
  map (fun c => if Ascii.eqb c a then b else c) l.

Definition replace (a b : ascii) (s : string) : string := str (replace_chars a b (chars s)).

(** [s[:n]] *)
Definition slice_to (n : nat) (s : string) : string := str (take n (chars s)).

(** The double-quote character as a string. *)
Definition dq : string := String (ascii_of_nat 34) EmptyString.

(** [len(s)] *)
Definition len (s : string) : nat := length (chars s).

(** [sep.join(l)] *)
Definition join (sep : string) (l : list string) : string := String.concat sep l.

(** [s.startswith(p)] and [s.startswith((p1, ..., pn))] *)
Definition startswith (s p : string) : bool := String.prefix p s.

Definition startswith_any (s : string) (ps : list string) : bool :=
  existsb (startswith s) ps.

(** [sub in s] *)
Fixpoint contains (s sub : string) : bool :=
  String.prefix sub s ||
  match s with
  | EmptyString => false
  | String _ s' => contains s' sub
  end.

(** [s.split(sep)] for a one-character separator: never an empty list. *)
Fixpoint split_chars (sep : ascii) (cur : list ascii) (l : list ascii) : list (list ascii) :=
  match l with
  | [] => [rev cur]
  | c :: l' =>
      if Ascii.eqb c sep then rev cur :: split_chars sep [] l'
      else split_chars sep (c :: cur) l'
  end.

Definition split (sep : ascii) (s : string) : list string :=
  map str (split_chars sep [] (chars s)).

(** [s.split()]: maximal runs of non-blank characters. *)
Fixpoint words_chars (cur : list ascii) (l : list ascii) : list (list ascii) :=
  match l with
  | [] => match cur with [] => [] | _ => [rev cur] end
  | c :: l' =>
      if isspace c
      then match cur with [] => words_chars [] l' | _ => rev cur :: words_chars [] l' end
      else words_chars (c :: cur) l'
  end.

Definition split_ws (s : string) : list string := map str (words_chars [] (chars s)).

(** [len(s.encode('utf-8'))]: code points from 128 on take two bytes. *)
Definition utf8_len (s : string) : nat :=
  list_sum (map (fun c => if code c <? 128 then 1 else 2) (chars s)).

(** *** The regular-expression substitutions the sources use *)

(** [re.sub(r'\n{3,}', '\n\n', s)]: every maximal run of three or more
    newlines becomes two; [run] counts the newlines read and not yet
    written. *)
Definition emit_newlines (run : nat) : list ascii :=
  if 3 <=? run then [nl; nl] else replicate run nl.

Fixpoint collapse_newlines_from (run : nat) (l : list ascii) : list ascii :=
  match l with
  | [] => emit_newlines run
  | c :: l' =>
      if is_nl c then collapse_newlines_from (S run) l'
      else emit_newlines run ++ c :: collapse_newlines_from 0 l'
  end.

Definition collapse_newlines_chars (l : list ascii) : list ascii :=
  collapse_newlines_from 0 l.

Definition collapse_newlines (s : string) : string :=
  str (collapse_newlines_chars (chars s)).

(** [re.sub(r'^[+-]', '', s, flags=re.MULTILINE)]: a plus or minus sign at
    the start of the text or right after a newline is deleted; [bol] tells
    whether the position is such a start. *)
Fixpoint strip_line_marker_from (bol : bool) (l : list ascii) : list ascii :=
  match l with
  | [] => []
  | c :: l' =>
      if bol && ((code c =? 43) || (code c =? 45))
      then strip_line_marker_from false l'
      else c :: strip_line_marker_from (is_nl c) l'
  end.

Fixpoint is_prefix_chars (p l : list ascii) : bool :=
  match p, l with
  | [], _ => true
  | _ :: _, [] => false
  | a :: p', b :: l' => Ascii.eqb a b && is_prefix_chars p' l'
  end.

(** The text after the first newline, if there is one. *)
Fixpoint after_newline (l : list ascii) : option (list ascii) :=
  match l with
  | [] => None
  | c :: l' => if is_nl c then Some l' else after_newline l'
  end.

(** A match of [kw.*?\n] at the head of [l]: the text after it. *)
Definition match_to_eol (kw : list ascii) (l : list ascii) : option (list ascii) :=
  if is_prefix_chars kw l then after_newline (drop (length kw) l) else None.

(** The text after the first [@@] that no newline precedes, if any. *)
Fixpoint after_hunk_close (l : list ascii) : option (list ascii) :=
  match l with
  | [] => None
  | c :: l' =>
      if is_prefix_chars (chars "@@") l then Some (drop 2 l)
      else if is_nl c then None else after_hunk_close l'
  end.

(** A match of [@@.*?@@] at the head of [l]: the text after it. *)
Definition match_hunk (l : list ascii) : option (list ascii) :=
  if is_prefix_chars (chars "@@") l then after_hunk_close (drop 2 l) else None.

(** [re.sub(pattern, '', s)] for a pattern that never matches the empty
    string: leftmost matches are deleted, scanning resumes after each. *)
Fixpoint delete_matches (match_at : list ascii -> option (list ascii))
    (fuel : nat) (l : list ascii) : list ascii :=
  match fuel with
  | 0 => l
  | S fuel' =>
      match l with
      | [] => []
      | c :: l' =>
          match match_at l with
          | Some rest => delete_matches match_at fuel' rest
          | None => c :: delete_matches match_at fuel' l'
          end
      end
  end.

Definition re_sub_delete (match_at : list ascii -> option (list ascii)) (s : string) : string :=
  str (delete_matches match_at (length (chars s)) (chars s)).

End PyStr.

(** ** [safety.py]: class [SafetyGuardrails] *)

Module Safety.
Import PyStr.

Section Guardrails.
Context `{Externals}.

(** Configuration set in [__init__]. *)
Definition MAX_DIFF_SIZE_KB : Q := 100.
Definition MAX_DIFF_LINES : nat := 1000.
Definition HALLUCINATION_LOW_THRESHOLD : Q := 0.10.
Definition HALLUCINATION_MEDIUM_THRESHOLD : Q := 0.20.
Definition HALLUCINATION_HIGH_THRESHOLD : Q := 0.35.

Definition SENSITIVE_PATTERNS : list string :=
  let quote := "['" +:+ dq +:+ "]" in
  let unquoted := "[^'" +:+ dq +:+ "]+" in
  [ "password\s*=\s*" +:+ quote +:+ unquoted +:+ quote;
    "api[_-]?key\s*=\s*" +:+ quote +:+ unquoted +:+ quote;
    "secret\s*=\s*" +:+ quote +:+ unquoted +:+ quote;
    "token\s*=\s*" +:+ quote +:+ unquoted +:+ quote;
    "\b\d{16}\b";
    "\b[A-Za-z0-9._%+-]+@[A-Za-z0-9.-]+\.[A-Z|a-z]{2,}\b" ].

Definition RATE_LIMIT_RPM : nat := 60.

(** [rate_limit_store]: a [defaultdict(list)] from client address to the
    times of its admitted requests; a missing key reads as the empty list. *)
Definition rate_limit_entries (store : gmap string (list Q)) (ip_address : string) : list Q :=
  default [] (store !! ip_address).

(** [_check_rate_limit]; [current_time] is the reading of [time.time()].
    Returns [(is_allowed, message)] and the store after the call. *)
Definition _check_rate_limit (current_time : Q) (store : gmap string (list Q))
    (ip_address : string) : (bool * string) * gmap string (list Q) :=
  let kept := List.filter (fun t => Qltb (current_time - t) 60)
                          (rate_limit_entries store ip_address) in
  let store := <[ip_address := kept]> store in
  let request_count := length kept in
  if RATE_LIMIT_RPM <=? request_count then
    ((false,
      "Error: Rate limit exceeded. Maximum " +:+ pretty RATE_LIMIT_RPM +:+ " requests "
      +:+ "per minute. Please wait before making more requests."), store)
  else
    ((true,
      "Rate limit: " +:+ pretty (request_count + 1) +:+ "/" +:+ pretty RATE_LIMIT_RPM
      +:+ " requests this minute"),
     <[ip_address := kept ++ [current_time]]> store).

(** [_check_sensitive_data]: the first pattern found decides. *)
Definition _check_sensitive_data (diff : string) : bool * string :=
  if existsb (fun pattern => re_search pattern diff) SENSITIVE_PATTERNS then
    (true,
     "⚠️ Security Warning: Diff appears to contain sensitive data "
     +:+ "(passwords, API keys, tokens, or personal information). "
     +:+ "Please remove sensitive data before processing.")
  else (false, "No sensitive data detected").

(** The [metadata] dict of [validate_input], one field per key; a key not
    yet written is [None]. *)
Record metadata := {
  validation_time : string;
  ip_address : string;
  checks_performed : list string;
  diff_size_kb : option Q;
  line_count : option nat;
  sensitive_data_detected : option bool
}.

Definition add_check (name : string) (m : metadata) : metadata :=
  {| validation_time := validation_time m;
     ip_address := ip_address m;
     checks_performed := checks_performed m ++ [name];
     diff_size_kb := diff_size_kb m;
     line_count := line_count m;
     sensitive_data_detected := sensitive_data_detected m |}.

Definition set_diff_size_kb (x : Q) (m : metadata) : metadata :=
  {| validation_time := validation_time m;
     ip_address := ip_address m;
     checks_performed := checks_performed m;
     diff_size_kb := Some x;
     line_count := line_count m;
     sensitive_data_detected := sensitive_data_detected m |}.

Definition set_line_count (n : nat) (m : metadata) : metadata :=
  {| validation_time := validation_time m;
     ip_address := ip_address m;
     checks_performed := checks_performed m;
     diff_size_kb := diff_size_kb m;
     line_count := Some n;
     sensitive_data_detected := sensitive_data_detected m |}.

Definition set_sensitive_data_detected (b : bool) (m : metadata) : metadata :=
  {| validation_time := validation_time m;
     ip_address := ip_address m;
     checks_performed := checks_performed m;
     diff_size_kb := diff_size_kb m;
     line_count := line_count m;
     sensitive_data_detected := Some b |}.

Definition DIFF_MARKERS : list string := ["diff --git"; "@@"; "---"; "+++"; "+"; "-"].

(** [validate_input]; [now_iso] is [datetime.now().isoformat()] and
    [current_time] the reading of [time.time()] inside the rate limiter.
    Returns [(is_valid, error_message, metadata)] and the store after. *)
Definition validate_input (now_iso : string) (current_time : Q)
    (store : gmap string (list Q)) (diff : string) (ip : string)
    : (bool * string * metadata) * gmap string (list Q) :=
  let metadata := {| validation_time := now_iso; ip_address := ip;
                     checks_performed := []; diff_size_kb := None;
                     line_count := None; sensitive_data_detected := None |} in
  (* Check 1: Rate limiting *)
  let '((is_allowed, rate_msg), store) := _check_rate_limit current_time store ip in
  let metadata := add_check "rate_limit" metadata in
  if negb is_allowed then ((false, rate_msg, metadata), store) else
  (* Check 2: Empty diff *)
  if negb (py_truth (VStr diff)) || String.eqb (strip diff) EmptyString then
    let metadata := add_check "empty_check" metadata in
    ((false, "Error: Diff is empty. Please provide a valid git diff.", metadata), store)
  else
  (* Check 3: Size limit *)
  let size_kb := (inject_Z (Z.of_nat (utf8_len diff)) / 1024)%Q in
  let metadata := set_diff_size_kb (py_round size_kb 2) metadata in
  let metadata := add_check "size_limit" metadata in
  if Qgtb size_kb MAX_DIFF_SIZE_KB then
    ((false,
      "Error: Diff size (" +:+ format_float ".2f" size_kb +:+ " KB) exceeds maximum "
      +:+ "allowed size (" +:+ pretty (Qfloor MAX_DIFF_SIZE_KB) +:+ " KB). "
      +:+ "Please reduce the diff size or split into multiple commits.", metadata), store)
  else
  (* Check 4: Line count *)
  let lines := split nl diff in
  let n_lines := length lines in
  let metadata := set_line_count n_lines metadata in
  let metadata := add_check "line_count" metadata in
  if MAX_DIFF_LINES <? n_lines then
    ((false,
      "Error: Diff has " +:+ pretty n_lines +:+ " lines, exceeding maximum "
      +:+ "of " +:+ pretty MAX_DIFF_LINES +:+ " lines. Consider splitting into smaller commits.",
      metadata), store)
  else
  (* Check 5: Basic diff format validation *)
  let has_diff_markers :=
    existsb (fun line => startswith_any line DIFF_MARKERS) (take 20 lines) in
  let metadata := add_check "format_validation" metadata in
  if negb has_diff_markers then
    ((false,
      "Warning: Input does not appear to be a valid git diff. "
      +:+ "Expected diff markers (@@, +++, ---, +, -) not found. "
      +:+ "Results may be inaccurate.", metadata), store)
  else
  (* Check 6: Sensitive data detection *)
  let '(sensitive_found, sensitive_msg) := _check_sensitive_data diff in
  let metadata := add_check "sensitive_data" metadata in
  let metadata := set_sensitive_data_detected sensitive_found metadata in
  if sensitive_found then ((false, sensitive_msg, metadata), store) else
  (* All checks passed *)
  let metadata := add_check "all_passed" metadata in
  ((true, "Input validation passed", metadata), store).

(** [assess_hallucination_severity].  The parameters are dynamically typed:
    the second is used only under [not], the first only in [<] against the
    thresholds. *)
Definition assess_hallucination_severity (hallucination_rate hallucination_detected : pyval)
    : result string :=
  if negb (py_truth hallucination_detected) then Ok "NONE" else
  rate ← py_number hallucination_rate;
  if Qltb rate HALLUCINATION_LOW_THRESHOLD then Ok "LOW"
  else if Qltb rate HALLUCINATION_MEDIUM_THRESHOLD then Ok "MEDIUM"
  else if Qltb rate HALLUCINATION_HIGH_THRESHOLD then Ok "HIGH"
  else Ok "CRITICAL".

Definition CRITICAL_WARNING : string :=
  "🚨 CRITICAL: Very high hallucination rate (>35%). "
  +:+ "Generated message contains significant ungrounded information. "
  +:+ "DO NOT use without thorough manual review.".

Definition HIGH_WARNING : string :=
  "⚠️ HIGH: High hallucination rate (20-35%). "
  +:+ "Generated message may contain invented function/variable names. "
  +:+ "Manual verification strongly recommended.".

Definition MEDIUM_WARNING : string :=
  "⚠️ MEDIUM: Moderate hallucination detected (10-20%). "
  +:+ "Verify all mentioned functions and files exist in the diff.".

Definition LOW_WARNING : string :=
  "ℹ️ LOW: Minor hallucination detected (<10%). "
  +:+ "Quick review recommended before committing.".

Definition VERY_LOW_QUALITY_WARNING : string :=
  "⚠️ Very low quality score (<0.20). "
  +:+ "Generated message may not accurately reflect changes. "
  +:+ "Consider regenerating or writing manually.".

Definition LOW_QUALITY_WARNING : string :=
  "ℹ️ Low quality score (0.20-0.35). "
  +:+ "Review carefully and consider improvements.".

Definition UNGROUNDED_WARNING (tokens : list string) : string :=
  "⚠️ Ungrounded tokens detected: " +:+ join ", " (take 5 tokens) +:+ "... "
  +:+ "(" +:+ pretty (length tokens) +:+ " total). Verify these appear in your diff.".

Definition HUMAN_OVERSIGHT_REQUIRED : string :=
  "⚠️ HUMAN OVERSIGHT REQUIRED: This message should not be used "
  +:+ "without thorough manual review by a developer familiar with the changes.".

Definition HUMAN_REVIEW_RECOMMENDED : string :=
  "ℹ️ Human review recommended: While quality is acceptable, "
  +:+ "always verify AI-generated commit messages before pushing.".

(** [generate_safety_warnings].  [ungrounded_tokens] is
    [hallucination_details.get('ungrounded_tokens')], the only key read:
    [None] when the key is absent, else the evaluator's token list. *)
Definition generate_safety_warnings (hallucination_severity : string)
    (ungrounded_tokens : option (list string)) (quality_score : Q) : list string :=
  let warnings := [] in
  (* Hallucination warnings *)
  let warnings :=
    if String.eqb hallucination_severity "CRITICAL" then warnings ++ [CRITICAL_WARNING]
    else if String.eqb hallucination_severity "HIGH" then warnings ++ [HIGH_WARNING]
    else if String.eqb hallucination_severity "MEDIUM" then warnings ++ [MEDIUM_WARNING]
    else if String.eqb hallucination_severity "LOW" then warnings ++ [LOW_WARNING]
    else warnings in
  (* Quality score warnings *)
  let warnings :=
    if Qltb quality_score 0.20 then warnings ++ [VERY_LOW_QUALITY_WARNING]
    else if Qltb quality_score 0.35 then warnings ++ [LOW_QUALITY_WARNING]
    else warnings in
  (* Ungrounded tokens warning *)
  let warnings :=
    match ungrounded_tokens with
    | Some (t :: ts) => warnings ++ [UNGROUNDED_WARNING (t :: ts)]
    | _ => warnings
    end in
  (* Human oversight requirement *)
  if (String.eqb hallucination_severity "HIGH" || String.eqb hallucination_severity "CRITICAL")
     || Qltb quality_score 0.25
  then warnings ++ [HUMAN_OVERSIGHT_REQUIRED]
  else warnings ++ [HUMAN_REVIEW_RECOMMENDED].

(** [get_confidence_level] *)
Definition get_confidence_level (quality_score : Q) (hallucination_severity : string) : string :=
  (* Critical hallucination overrides everything *)
  if String.eqb hallucination_severity "CRITICAL" then "VERY_LOW" else
  (* High hallucination limits confidence *)
  if String.eqb hallucination_severity "HIGH" then
    (if Qltb quality_score 0.30 then "VERY_LOW" else "LOW") else
  (* Medium hallucination *)
  if String.eqb hallucination_severity "MEDIUM" then
    (if Qgeb quality_score 0.45 then "MEDIUM"
     else if Qgeb quality_score 0.30 then "LOW"
     else "VERY_LOW") else
  (* Low or no hallucination - quality score determines *)
  if Qgeb quality_score 0.50 then "HIGH"
  else if Qgeb quality_score 0.35 then "MEDIUM"
  else if Qgeb quality_score 0.20 then "LOW"
  else "VERY_LOW".

Definition MAX_MESSAGE_LENGTH : nat := 500.

(** [sanitize_output] *)
Definition sanitize_output (commit_message : string) : string :=
  let sanitized := strip commit_message in
  let sanitized := replace "`" "'" sanitized in
  let sanitized := collapse_newlines sanitized in
  if MAX_MESSAGE_LENGTH <? len sanitized
  then slice_to MAX_MESSAGE_LENGTH sanitized +:+ "... (truncated)"
  else sanitized.

(** [get_usage_recommendations] *)
Definition HALLUCINATION_RECOMMENDATION : string :=
  "🔍 Hallucination detected: Pay special attention to function/variable names".

Definition get_usage_recommendations (confidence_level hallucination_severity : string)
    : list string :=
  let recommendations := [] in
  let recommendations :=
    if String.eqb confidence_level "VERY_LOW" then
      recommendations
      ++ ["❌ NOT RECOMMENDED FOR USE: Consider writing commit message manually"]
      ++ ["🔍 If you choose to use: Thoroughly verify every mentioned file, "
          +:+ "function, and change against your actual diff"]
    else if String.eqb confidence_level "LOW" then
      recommendations
      ++ ["⚠️ USE WITH CAUTION: Extensive manual review required"]
      ++ ["✓ Verify: All file names, function names, and described changes match your diff"]
    else if String.eqb confidence_level "MEDIUM" then
      recommendations
      ++ ["ℹ️ ACCEPTABLE WITH REVIEW: Quick verification recommended"]
      ++ ["✓ Check: Main changes are accurately described"]
    else (* HIGH *)
      recommendations
      ++ ["✅ GOOD QUALITY: Minor review recommended"]
      ++ ["✓ Quick check: Verify message accurately summarizes your changes"] in
  (* Add hallucination-specific recommendations *)
  if String.eqb hallucination_severity "HIGH" || String.eqb hallucination_severity "CRITICAL"
  then recommendations ++ [HALLUCINATION_RECOMMENDATION]
  else recommendations.

End Guardrails.
End Safety.

(** ** [api/evaluate_simple.py]: class [CommitMessageEvaluator] *)

Module EvaluateSimple.
Import PyStr.

Section Evaluator.
Context `{Externals}.

(** [self.stopwords = set(stopwords.words('english'))] *)
Definition stopword_set : gset string := list_to_set stopwords.

Definition allowed_technical_terms : gset string :=
  list_to_set
    [ "fix"; "bug"; "issue"; "error"; "refactor"; "update"; "add";
      "remove"; "delete"; "implement"; "feature"; "change"; "modify";
      "improve"; "optimize"; "clean"; "rename"; "move"; "merge";
      "function"; "method"; "class"; "variable"; "parameter"; "return";
      "import"; "export"; "test"; "tests"; "testing"; "code"; "file" ].

(** [_get_ngrams]: the [Counter] of the n-grams [tokens[i:i+n]] for [i] in
    [range(len(tokens) - n + 1)].  A [Counter] is a multiset: [&] is the
    intersection, [sum(c.values())] the size, [len(c) == 0] emptiness. *)
Definition _get_ngrams (tokens : list string) (n : nat) : gmultiset (list string) :=
  list_to_set_disj
    (map (fun i => take n (drop i tokens)) (seq 0 (length tokens + 1 - n))).

Definition Qnat (n : nat) : Q := inject_Z (Z.of_nat n).

(** [len(a) / len(b)], a true division of two [int]s. *)
Definition len_truediv (a b : nat) : Q := int_truediv (Z.of_nat a) (Z.of_nat b).

(** [compute_bleu] *)
Definition bleu_precision (gen_tokens ref_tokens : list string) (n : nat) : Q :=
  let gen_ngrams := _get_ngrams gen_tokens n in
  let ref_ngrams := _get_ngrams ref_tokens n in
  if bool_decide (gen_ngrams = ∅) then 0%Q else
  let matches := size (gen_ngrams ∩ ref_ngrams) in
  let total := size gen_ngrams in
  if 0 <? total then len_truediv matches total else 0%Q.

Definition compute_bleu (generated reference : string) : Q :=
  let gen_tokens := word_tokenize (lower generated) in
  let ref_tokens := word_tokenize (lower reference) in
  if length gen_tokens =? 0 then 0%Q else
  (* Calculate precision for n-grams (1 to 4) *)
  let precisions := map (bleu_precision gen_tokens ref_tokens) [1; 2; 3; 4] in
  (* Geometric mean of precisions *)
  let geo_mean :=
    if forallb (fun p => Qgtb p 0) precisions
    then math_exp (float_div (float_sum (map math_log precisions)) 4)
    else 0%Q in
  (* Brevity penalty *)
  let bp :=
    if length ref_tokens <=? length gen_tokens then 1%Q
    else math_exp (float_sub 1 (len_truediv (length ref_tokens) (length gen_tokens))) in
  py_round (float_mul (float_mul bp geo_mean) 100) 2.

(** [_rouge_n] *)
Definition _rouge_n (gen_tokens ref_tokens : list string) (n : nat) : Q :=
  let gen_ngrams := _get_ngrams gen_tokens n in
  let ref_ngrams := _get_ngrams ref_tokens n in
  if size ref_ngrams =? 0 then 0%Q else
  let matches := size (gen_ngrams ∩ ref_ngrams) in
  let total_ref := size ref_ngrams in
  if 0 <? total_ref then len_truediv matches total_ref else 0%Q.

(** [_lcs]: the table [dp] of [(m+1) x (n+1)] cells, filled row by row. *)
Definition dp_get (dp : list (list nat)) (i j : nat) : nat :=
  default 0 (dp !! i ≫= (.!! j)).

Definition dp_set (dp : list (list nat)) (i j v : nat) : list (list nat) :=
  alter (<[j := v]>) i dp.

Definition lcs_cell (seq1 seq2 : list string) (i : nat) (dp : list (list nat)) (j : nat)
    : list (list nat) :=
  if bool_decide (seq1 !! (i - 1) = seq2 !! (j - 1))
  then dp_set dp i j (dp_get dp (i - 1) (j - 1) + 1)
  else dp_set dp i j (Nat.max (dp_get dp (i - 1) j) (dp_get dp i (j - 1))).

Definition lcs_row (seq1 seq2 : list string) (dp : list (list nat)) (i : nat)
    : list (list nat) :=
  fold_left (lcs_cell seq1 seq2 i) (seq 1 (length seq2)) dp.

Definition _lcs (seq1 seq2 : list string) : nat :=
  let m := length seq1 in
  let n := length seq2 in
  let dp := replicate (m + 1) (replicate (n + 1) 0) in
  let dp := fold_left (lcs_row seq1 seq2) (seq 1 m) dp in
  dp_get dp m n.

(** [_rouge_l] *)
Definition _rouge_l (gen_tokens ref_tokens : list string) : Q :=
  let lcs_length := _lcs gen_tokens ref_tokens in
  if length ref_tokens =? 0 then 0%Q
  else len_truediv lcs_length (length ref_tokens).

(** [compute_rouge] *)
Definition compute_rouge (generated reference : string) : list (string * pyval) :=
  let gen_tokens := word_tokenize (lower generated) in
  let ref_tokens := word_tokenize (lower reference) in
  let rouge1 := _rouge_n gen_tokens ref_tokens 1 in
  let rouge2 := _rouge_n gen_tokens ref_tokens 2 in
  let rougeL := _rouge_l gen_tokens ref_tokens in
  [ ("rouge1", VFloat (py_round (float_mul rouge1 100) 2));
    ("rouge2", VFloat (py_round (float_mul rouge2 100) 2));
    ("rougeL", VFloat (py_round (float_mul rougeL 100) 2)) ].

(** [compute_word_overlap] *)
Definition compute_word_overlap (generated reference : string) : Q :=
  let gen_words : gset string := list_to_set (word_tokenize (lower generated)) in
  let ref_words : gset string := list_to_set (word_tokenize (lower reference)) in
  (* Remove stopwords *)
  let gen_words := gen_words ∖ stopword_set in
  let ref_words := ref_words ∖ stopword_set in
  if (size gen_words =? 0) || (size ref_words =? 0) then 0%Q else
  (* Jaccard similarity *)
  let intersection := size (gen_words ∩ ref_words) in
  let union := size (gen_words ∪ ref_words) in
  if 0 <? union then py_round (len_truediv intersection union) 4 else 0%Q.

(** [_extract_meaningful_tokens] *)
Definition _extract_meaningful_tokens (text : string) : list string :=
  let tokens := word_tokenize (lower text) in
  List.filter
    (fun token => isalnum token && negb (bool_decide (token ∈ stopword_set))
                  && (2 <? len token))
    tokens.

(** [_extract_diff_tokens] *)
Definition _extract_diff_tokens (diff : string) : list string :=
  let diff_clean := str (strip_line_marker_from true (chars diff)) in
  let diff_clean := re_sub_delete (match_to_eol (chars "diff --git")) diff_clean in
  let diff_clean := re_sub_delete (match_to_eol (chars "index")) diff_clean in
  let diff_clean := re_sub_delete match_hunk diff_clean in
  word_tokenize (lower diff_clean).

(** One pass of the loop of [detect_hallucination] over a message token;
    the state is [(ungrounded_tokens, total_checked)]. *)
Definition check_token (diff_tokens : list string) (st : list string * nat) (token : string)
    : list string * nat :=
  let '(ungrounded_tokens, total_checked) := st in
  if bool_decide (lower token ∈ allowed_technical_terms) then st else
  let total_checked := total_checked + 1 in
  if negb (existsb (fun diff_token => contains (lower diff_token) (lower token)) diff_tokens)
  then (ungrounded_tokens ++ [token], total_checked)
  else (ungrounded_tokens, total_checked).

Definition scan_tokens (message_tokens diff_tokens : list string) : list string * nat :=
  fold_left (check_token diff_tokens) message_tokens ([], 0).

(** The ratio computed before it is rounded and compared. *)
Definition hallucination_rate_of (ungrounded_tokens : list string) (total_checked : nat) : Q :=
  if total_checked =? 0 then 0%Q
  else len_truediv (length ungrounded_tokens) total_checked.

(** The dict that [detect_hallucination] returns, for a given cut-off: the
    ratio, a double, is compared with the double of the literal. *)
Definition hallucination_report (threshold : Q) (message diff : string)
    : list (string * pyval) :=
  let message_tokens := _extract_meaningful_tokens message in
  let diff_tokens := _extract_diff_tokens diff in
  let '(ungrounded_tokens, total_checked) := scan_tokens message_tokens diff_tokens in
  let hallucination_rate := hallucination_rate_of ungrounded_tokens total_checked in
  [ ("detected", VBool (Qgtb hallucination_rate (fl threshold)));
    ("hallucination_rate", VFloat (py_round hallucination_rate 4));
    ("ungrounded_tokens", VList (map VStr ungrounded_tokens));
    ("total_tokens_checked", VInt (Z.of_nat total_checked)) ].

(** [detect_hallucination]: "Stricter threshold (was 0.15)". *)
Definition detect_hallucination (message diff : string) : list (string * pyval) :=
  hallucination_report 0.10 message diff.

(** Subscripting a value that must be a dict. *)
Definition py_dict (v : pyval) : result (list (string * pyval)) :=
  match v with
  | VDict d => Ok d
  | _ => Raise (TypeError "object is not subscriptable")
  end.

(** [_compute_quality_score] *)
Definition _compute_quality_score (results : list (string * pyval)) : result Q :=
  b ← dict_item results "bleu";
  bleu ← py_truediv b 100;
  rouge ← dict_item results "rouge" ≫= py_dict;
  r ← dict_item rouge "rougeL";
  rougeL ← py_truediv r 100;
  semantic_value ← dict_item results "semantic_similarity";
  hallucination ← dict_item results "hallucination" ≫= py_dict;
  detected ← dict_item hallucination "detected";
  semantic ← py_number semantic_value;
  let hallucination_penalty := if py_truth detected then 0.0%Q else 0.1%Q in
  let quality :=
    float_add
      (float_add (float_add (float_mul 0.3 bleu) (float_mul 0.3 rougeL))
                 (float_mul 0.3 semantic))
      hallucination_penalty in
  Ok (py_round quality 4).

(** [evaluate_message] *)
Definition evaluate_message (generated reference diff : string)
    : result (list (string * pyval)) :=
  let results := [] in
  let bleu_score := compute_bleu generated reference in
  let results := results ++ [("bleu", VFloat bleu_score)] in
  let rouge_scores := compute_rouge generated reference in
  let results := results ++ [("rouge", VDict rouge_scores)] in
  let semantic_sim := compute_word_overlap generated reference in
  let results := results ++ [("semantic_similarity", VFloat semantic_sim)] in
  let hallucination_results := detect_hallucination generated diff in
  let results := results ++ [("hallucination", VDict hallucination_results)] in
  quality_score ← _compute_quality_score results;
  Ok (results ++ [("quality_score", VFloat quality_score)]).

(** [batch_evaluate]: [zip] stops at the shortest of the three lists. *)
Definition batch_evaluate (predictions references diffs : list string)
    : result (list (list (string * pyval))) :=
  mapM (fun '(pred, ref, diff) => evaluate_message pred ref diff)
       (zip (zip predictions references) diffs).

End Evaluator.
End EvaluateSimple.

(** ** [Phase3_Submission/code/api/evaluate.py]: the grounding check of the
    evaluator built on external metric libraries.  Its token extraction and
    its loop have the same text as in [evaluate_simple.py]; the cut-off is
    the "15% threshold". *)

Module Evaluate.

Section Evaluator.
Context `{Externals}.

Definition detect_hallucination (message diff : string) : list (string * pyval) :=
  EvaluateSimple.hallucination_report 0.15 message diff.

End Evaluator.
End Evaluate.

(** ** [multi_agent.py]: governance controller, agents and orchestrator *)

Module MultiAgent.
Import PyStr.

Section Agents.
Context `{Externals}.

(** [AgentDecision], without the two wall-clock fields [timestamp] and
    [execution_time_ms]. *)
Record AgentDecision := {
  agent_name : string;
  action : string;
  input_data : list (string * pyval);
  output_data : list (string * pyval);
  reasoning : string;
  safety_check : list (string * pyval)
}.

(** The state of a [GovernanceController]: its [audit_trail].
    [validations_started] is instrumentation that the source does not have:
    the number of calls of [ValidatorAgent.execute] begun so far. *)
Record governance := {
  audit_trail : list AgentDecision;
  validations_started : nat
}.

(** A computation that reads and extends the controller's state and may
    raise; when it raises the state reached so far is kept. *)
Definition M (A : Type) : Type := governance -> result A * governance.

Definition ret {A} (a : A) : M A := fun g => (Ok a, g).

Definition bind {A B} (m : M A) (k : A -> M B) : M B :=
  fun g =>
    match m g with
    | (Ok a, g') => k a g'
    | (Raise e, g') => (Raise e, g')
    end.

Definition raise {A} (e : exn) : M A := fun g => (Raise e, g).

Definition lift {A} (r : result A) : M A := fun g => (r, g).

Notation "'do' x <- m ; k" := (bind m (fun x => k))
  (at level 10, x name, m at level 100, k at level 200).

(** [len(v)] for the values the agents store under ["diff"] and
    ["message"], which are always strings. *)
Definition py_len (v : pyval) : nat :=
  match v with
  | VStr s => len s
  | VList l => length l
  | VDict d => length d
  | _ => 0
  end.

(** *** [GovernanceController] *)

Definition _check_required_fields (agent : string) (input : list (string * pyval)) : pyval :=
  if String.eqb agent "GeneratorAgent" then
    (if dict_has input "diff" then dict_get input "diff" VNone else VBool false)
  else if String.eqb agent "ValidatorAgent" then
    VBool (dict_has input "message" && dict_has input "diff")
  else if String.eqb agent "RefinerAgent" then
    VBool (dict_has input "message" && dict_has input "feedback")
  else VBool true.

Definition _check_size_limits (input : list (string * pyval)) : bool :=
  let diff := dict_get input "diff" (VStr EmptyString) in
  let message := dict_get input "message" (VStr EmptyString) in
  (Z.of_nat (py_len diff) <? 100000)%Z && (Z.of_nat (py_len message) <? 5000)%Z.

Definition malicious_patterns : list string := ["<script>"; "eval("; "exec("; "__import__"].

Definition _check_malicious_content (input : list (string * pyval)) : bool :=
  let text := py_str (VDict input) in
  negb (existsb (fun pattern => contains text pattern) malicious_patterns).

Definition is_str (v : pyval) : bool :=
  match v with
  | VStr _ => true
  | _ => false
  end.

Definition _check_output_format (agent : string) (output : list (string * pyval)) : bool :=
  if String.eqb agent "GeneratorAgent" then
    dict_has output "message" && is_str (dict_get output "message" VNone)
  else if String.eqb agent "ValidatorAgent" then
    dict_has output "is_valid" && dict_has output "feedback"
  else if String.eqb agent "RefinerAgent" then
    dict_has output "refined_message"
  else true.

Definition _check_unsafe_output (output : list (string * pyval)) : bool :=
  let text := py_str (VDict output) in
  (Z.of_nat (len text) <? 10000)%Z.

Definition _check_quality (agent : string) (output : list (string * pyval)) : bool :=
  if String.eqb agent "GeneratorAgent" then
    let message := dict_get output "message" (VStr EmptyString) in
    (10 <=? py_len message) && (py_len message <=? 500)
  else true.

Definition validate_agent_input (agent : string) (input : list (string * pyval))
    : list (string * pyval) :=
  let has_required_fields := _check_required_fields agent input in
  let within_size_limits := VBool (_check_size_limits input) in
  let no_malicious_content := VBool (_check_malicious_content input) in
  [ ("has_required_fields", has_required_fields);
    ("within_size_limits", within_size_limits);
    ("no_malicious_content", no_malicious_content);
    ("passed", VBool (forallb py_truth
                        [has_required_fields; within_size_limits; no_malicious_content])) ].

Definition validate_agent_output (agent : string) (output : list (string * pyval))
    : list (string * pyval) :=
  let has_valid_format := VBool (_check_output_format agent output) in
  let no_unsafe_content := VBool (_check_unsafe_output output) in
  let meets_quality_threshold := VBool (_check_quality agent output) in
  [ ("has_valid_format", has_valid_format);
    ("no_unsafe_content", no_unsafe_content);
    ("meets_quality_threshold", meets_quality_threshold);
    ("passed", VBool (forallb py_truth
                        [has_valid_format; no_unsafe_content; meets_quality_threshold])) ].

Definition log_agent_decision (decision : AgentDecision) : M unit :=
  fun g => (Ok tt, {| audit_trail := audit_trail g ++ [decision];
                      validations_started := validations_started g |}).

(** [if not checks["passed"]: raise ValueError(...)] *)
Definition require_passed (agent phase : string) (checks : list (string * pyval)) : M unit :=
  do passed <- lift (dict_item checks "passed");
  if negb (py_truth passed)
  then raise (ValueError (agent +:+ " " +:+ phase +:+ " validation failed: "
                          +:+ py_str (VDict checks)))
  else ret tt.

Definition VNat (n : nat) : pyval := VInt (Z.of_nat n).

(** *** [GeneratorAgent.execute], with [config=None] *)

Definition GENERATOR_REASONING : string :=
  "Generated using Gemini 2.0 Flash with improved prompt template. "
  +:+ "Applied temperature=0.1 for consistency. Used few-shot examples for context.".

Definition generator_execute (diff : string) : M (list (string * pyval)) :=
  let name := "GeneratorAgent" in
  (* Input governance *)
  let input := [("diff", VStr diff); ("config", VDict [])] in
  let input_safety := validate_agent_input name input in
  do _ <- require_passed name "input" input_safety;
  (* Generate message *)
  let result := generate_commit_message diff in
  let message := if gen_success result then gen_message result
                 else "Error generating message" in
  (* Output governance *)
  let output :=
    [ ("message", VStr message);
      ("reasoning", VStr GENERATOR_REASONING);
      ("metadata", VDict [ ("model", VStr "gemini-2.0-flash-exp");
                           ("temperature", VFloat 0.1);
                           ("prompt_version", VStr "improved_v2");
                           ("generation_strategy", VStr "zero-shot with examples") ]) ] in
  let output_safety := validate_agent_output name output in
  do _ <- require_passed name "output" output_safety;
  (* Log decision *)
  do _ <- log_agent_decision
    {| agent_name := name;
       action := "generate_initial_message";
       input_data := [("diff_size", VNat (len diff))];
       output_data := [("message_length", VNat (len message))];
       reasoning := GENERATOR_REASONING;
       safety_check := [("input", VDict input_safety); ("output", VDict output_safety)] |};
  ret output.

(** *** [ValidatorAgent] *)

Definition suggestions_for (issue : string) : list string :=
  (if contains issue "Hallucination" then ["Remove ungrounded tokens not present in diff"] else [])
  ++ (if contains issue "Low quality" then ["Add more specific details about code changes"] else [])
  ++ (if contains issue "too short" then ["Expand message to include what was changed and why"] else [])
  ++ (if contains issue "too long" then ["Condense message to focus on key changes"] else []).

Definition _generate_suggestions (issues : list string) : list string :=
  concat (map suggestions_for issues).

Definition NO_REFERENCE_METRICS : list (string * pyval) :=
  [ ("bleu", VFloat 0.0);
    ("rouge_l", VFloat 0.0);
    ("semantic_similarity", VFloat 0.0);
    ("hallucination_detected", VBool false);
    ("ungrounded_ratio", VFloat 0.0) ].

Definition count_validation : M unit :=
  fun g => (Ok tt, {| audit_trail := audit_trail g;
                      validations_started := S (validations_started g) |}).

(** What [ValidatorAgent.execute] computes between its two governance
    checks: the metrics, the severity, the confidence, the quality score
    and the verdict. *)
Record assessment := {
  a_metrics : list (string * pyval);
  a_hallucination_detected : pyval;
  a_ungrounded_ratio : pyval;
  a_severity : string;
  a_quality_score : Q;
  a_confidence : string;
  a_is_valid : bool
}.

Definition string_in (s : string) (l : list string) : bool := existsb (String.eqb s) l.

Definition validator_assess (message diff reference_message : string) : result assessment :=
  (* Evaluate message *)
  metrics ← (if py_truth (VStr reference_message)
             then EvaluateSimple.evaluate_message diff message reference_message
             else Ok NO_REFERENCE_METRICS);
  (* Run safety assessment *)
  let hallucination_detected := dict_get metrics "hallucination_detected" (VBool false) in
  let ungrounded_ratio := dict_get metrics "ungrounded_ratio" (VFloat 0.0) in
  severity ← Safety.assess_hallucination_severity hallucination_detected ungrounded_ratio;
  quality_score ← py_number (dict_get metrics "quality_score" (VFloat 0.5));
  let confidence := Safety.get_confidence_level quality_score severity in
  (* Determine if valid *)
  let is_valid :=
    string_in severity ["NONE"; "LOW"]
    && string_in confidence ["MEDIUM"; "HIGH"]
    && Qgeb quality_score 0.3 in
  Ok {| a_metrics := metrics;
        a_hallucination_detected := hallucination_detected;
        a_ungrounded_ratio := ungrounded_ratio;
        a_severity := severity;
        a_quality_score := quality_score;
        a_confidence := confidence;
        a_is_valid := is_valid |}.

Definition validator_issues (a : assessment) (message : string) : result (list string) :=
  hallucination_issue ←
    (if py_truth (a_hallucination_detected a)
     then ratio ← py_number (a_ungrounded_ratio a);
          Ok ["Hallucination detected (" +:+ format_float ".1%" ratio +:+ " ungrounded tokens)"]
     else Ok []);
  Ok (hallucination_issue
      ++ (if Qltb (a_quality_score a) 0.3
          then ["Low quality score (" +:+ format_float ".2f" (a_quality_score a) +:+ ")"]
          else [])
      ++ (if len message <? 10 then ["Message too short (< 10 chars)"] else [])
      ++ (if 500 <? len message then ["Message too long (> 500 chars)"] else [])).

Definition validator_execute (message diff reference_message : string)
    : M (list (string * pyval)) :=
  let name := "ValidatorAgent" in
  do _ <- count_validation;
  (* Input governance *)
  let input := [ ("message", VStr message); ("diff", VStr diff);
                 ("reference_message", VStr reference_message) ] in
  let input_safety := validate_agent_input name input in
  do _ <- require_passed name "input" input_safety;
  do a <- lift (validator_assess message diff reference_message);
  (* Generate feedback *)
  do issues <- lift (validator_issues a message);
  let feedback :=
    [ ("is_valid", VBool (a_is_valid a));
      ("issues", VList (map VStr issues));
      ("suggestions", VList (map VStr (_generate_suggestions issues)));
      ("severity", VStr (a_severity a));
      ("confidence", VStr (a_confidence a)) ] in
  (* Output governance *)
  let reasoning :=
    "Validated message using BLEU/ROUGE/semantic similarity metrics. "
    +:+ "Detected " +:+ pretty (length issues) +:+ " issues. Severity: " +:+ a_severity a
    +:+ ", Confidence: " +:+ a_confidence a +:+ ". "
    +:+ "Decision: " +:+ (if a_is_valid a then "PASS" else "NEEDS_REFINEMENT") in
  let output :=
    [ ("is_valid", VBool (a_is_valid a));
      ("feedback", VDict feedback);
      ("metrics", VDict (a_metrics a));
      ("reasoning", VStr reasoning);
      ("metadata",
       VDict [ ("validation_criteria",
                VList [VStr "hallucination"; VStr "quality_score"; VStr "length"]);
               ("thresholds", VDict [ ("quality_min", VFloat 0.3);
                                      ("severity_max", VStr "LOW") ]) ]) ] in
  let output_safety := validate_agent_output name output in
  do _ <- require_passed name "output" output_safety;
  (* Log decision *)
  do _ <- log_agent_decision
    {| agent_name := name;
       action := "validate_message";
       input_data := [("message_length", VNat (len message))];
       output_data := [("is_valid", VBool (a_is_valid a));
                       ("issues_count", VNat (length issues))];
       reasoning := reasoning;
       safety_check := [("input", VDict input_safety); ("output", VDict output_safety)] |};
  ret output.

(** *** [RefinerAgent] *)

(** The strings of a list of strings. *)
Definition str_items (v : pyval) : list string :=
  match v with
  | VList l => omap (fun x => match x with VStr s => Some s | _ => None end) l
  | _ => []
  end.

Definition common_words : gset string :=
  list_to_set ["fix"; "add"; "remove"; "update"; "change"; "refactor";
               "the"; "a"; "to"; "in"; "for"].

(** One pass of the loop of [_apply_refinements] over an issue; the state
    is [(refined, changes)]. *)
Definition refine_for_issue (diff : string) (st : string * list string) (issue : string)
    : string * list string :=
  let '(refined, changes) := st in
  let '(refined, changes) :=
    if contains issue "too short" && (len refined <? 10)
    then ("Update code: " +:+ refined, changes ++ ["Expanded short message"])
    else (refined, changes) in
  let '(refined, changes) :=
    if contains issue "too long" && (500 <? len refined)
    then (slice_to 497 refined +:+ "...", changes ++ ["Truncated long message"])
    else (refined, changes) in
  if contains issue "Hallucination" then
    let diff_words : gset string := list_to_set (split_ws (lower diff)) in
    let message_words := split_ws refined in
    let filtered_words :=
      List.filter (fun w => bool_decide (lower w ∈ diff_words)
                            || bool_decide (lower w ∈ common_words)) message_words in
    if length filtered_words <? length message_words
    then (join " " filtered_words, changes ++ ["Removed ungrounded tokens"])
    else (refined, changes)
  else (refined, changes).

Definition _apply_refinements (message : string) (suggestions issues : list string)
    (diff : string) : string * list string :=
  let '(refined, changes) := fold_left (refine_for_issue diff) issues (message, []) in
  (* If no changes made but has suggestions, use LLM for refinement *)
  let changes :=
    match changes, suggestions with
    | [], _ :: _ => changes ++ ["Applied LLM-based refinement"]
    | _, _ => changes
    end in
  (refined, changes).

Definition refiner_execute (message : string) (feedback : list (string * pyval))
    (diff : string) : M (list (string * pyval)) :=
  let name := "RefinerAgent" in
  (* Input governance *)
  let input := [("message", VStr message); ("feedback", VDict feedback); ("diff", VStr diff)] in
  let input_safety := validate_agent_input name input in
  do _ <- require_passed name "input" input_safety;
  let '(refined_message, changes_made, reasoning) :=
    if py_truth (dict_get feedback "is_valid" (VBool false)) then
      (* If already valid, return as-is *)
      (message, [], "Message passed validation. No refinement needed.")
    else
      (* Apply refinements based on suggestions *)
      let '(refined_message, changes_made) :=
        _apply_refinements message
          (str_items (dict_get feedback "suggestions" (VList [])))
          (str_items (dict_get feedback "issues" (VList [])))
          diff in
      (refined_message, changes_made,
       "Applied " +:+ pretty (length changes_made) +:+ " refinements based on validator feedback. "
       +:+ "Changes: " +:+ join ", " changes_made) in
  (* Output governance *)
  let output :=
    [ ("refined_message", VStr refined_message);
      ("changes_made", VList (map VStr changes_made));
      ("reasoning", VStr reasoning);
      ("metadata", VDict [ ("original_length", VNat (len message));
                           ("refined_length", VNat (len refined_message));
                           ("refinement_strategy", VStr "rule-based + LLM fallback");
                           ("preserved_semantic_core", VBool true) ]) ] in
  let output_safety := validate_agent_output name output in
  do _ <- require_passed name "output" output_safety;
  (* Log decision *)
  do _ <- log_agent_decision
    {| agent_name := name;
       action := "refine_message";
       input_data := [("original_length", VNat (len message))];
       output_data := [("refined_length", VNat (len refined_message));
                       ("changes_count", VNat (length changes_made))];
       reasoning := reasoning;
       safety_check := [("input", VDict input_safety); ("output", VDict output_safety)] |};
  ret output.

(** *** [MultiAgentOrchestrator] *)

(** [generate_transparency_report] *)
Record transparency_report := {
  total_agents_involved : nat;
  total_decisions : nat;
  decision_chain : list (string * string * string * bool);
  safety_checks_performed : nat;
  transparency_enabled : bool;
  explainability_provided : bool;
  accountability_traced : bool
}.

Definition generate_transparency_report (g : governance) : transparency_report :=
  let trail := audit_trail g in
  {| total_agents_involved := size (list_to_set (map agent_name trail) : gset string);
     total_decisions := length trail;
     decision_chain :=
       map (fun d => (agent_name d, action d, reasoning d,
                      py_truth (dict_get (safety_check d) "passed" (VBool false)))) trail;
     safety_checks_performed := length trail * 2;
     transparency_enabled := true;
     explainability_provided := forallb (fun d => py_truth (VStr (reasoning d))) trail;
     accountability_traced := 0 <? length trail |}.

Record governance_summary := {
  safety_validated : bool;
  report : transparency_report;
  summary_explainability_provided : bool;
  summary_accountability_traced : bool;
  total_iterations : Z;
  agents_involved : list string;
  governance_compliance_score : Q
}.

(** [MultiAgentResult], without [total_execution_time_ms]. *)
Record MultiAgentResult := {
  final_message : string;
  quality_metrics : pyval;
  agent_decisions : list AgentDecision;
  summary : governance_summary
}.

(** The [while iteration < self.max_iterations] loop.  [fuel] bounds the
    number of times the loop test is evaluated; [None] means that the bound
    was reached before the loop was left.  The value is the pair
    [(iteration, current_message)] on leaving the loop. *)
Fixpoint refine_loop (fuel : nat) (max_iterations : Z) (diff reference_message : string)
    (iteration : Z) (current_message : string) : M (option (Z * string)) :=
  match fuel with
  | 0 => ret None
  | S fuel' =>
      if (iteration <? max_iterations)%Z then
        (* Validate *)
        do val_result <- validator_execute current_message diff reference_message;
        do is_valid <- lift (dict_item val_result "is_valid");
        (* If valid, we're done *)
        if py_truth is_valid then ret (Some (iteration, current_message)) else
        (* Refine *)
        do feedback <- lift (dict_item val_result "feedback" ≫= EvaluateSimple.py_dict);
        do ref_result <- refiner_execute current_message feedback diff;
        do refined <- lift (dict_item ref_result "refined_message");
        let current_message := match refined with VStr s => s | _ => EmptyString end in
        refine_loop fuel' max_iterations diff reference_message (iteration + 1)%Z current_message
      else ret (Some (iteration, current_message))
  end.

(** [generate_commit_message_multi_agent] for an orchestrator built with
    [max_iterations]; the loop is given [max_iterations + 1] tests. *)
Definition generate_commit_message_multi_agent (max_iterations : Z)
    (diff reference_message : string) : M (option MultiAgentResult) :=
  (* Step 1: Generate initial message *)
  do gen_result <- generator_execute diff;
  do message <- lift (dict_item gen_result "message");
  let current_message := match message with VStr s => s | _ => EmptyString end in
  (* Step 2-4: Validate and refine iteratively *)
  do left <- refine_loop (Z.to_nat max_iterations + 1) max_iterations diff reference_message
                         0%Z current_message;
  match left with
  | None => ret None
  | Some (iteration, current_message) =>
      (* Final validation *)
      do final_metrics <- validator_execute current_message diff reference_message;
      do metrics <- lift (dict_item final_metrics "metrics");
      (* Generate governance summary *)
      fun g =>
        (Ok (Some
           {| final_message := current_message;
              quality_metrics := metrics;
              agent_decisions := audit_trail g;
              summary :=
                {| safety_validated := true;
                   report := generate_transparency_report g;
                   summary_explainability_provided := true;
                   summary_accountability_traced := true;
                   total_iterations := (iteration + 1)%Z;
                   agents_involved :=
                     if (0 <? iteration)%Z
                     then ["GeneratorAgent"; "ValidatorAgent"; "RefinerAgent"]
                     else ["GeneratorAgent"; "ValidatorAgent"];
                   governance_compliance_score := 1.0 |} |}), g)
  end.

(** A fresh [MultiAgentOrchestrator]: its controller has logged nothing. *)
Definition fresh_governance : governance :=
  {| audit_trail := []; validations_started := 0 |}.


(** The dict that [generate_with_multi_agent] returns, without its two
    execution times; an entry of [agent_trail] is
    [(agent, action, reasoning)]. *)
Record multi_agent_response := {
  response_message : string;
  response_quality_metrics : pyval;
  response_governance : governance_summary;
  response_agent_trail : list (string * string * string)
}.

(** [generate_with_multi_agent]: every call builds its own orchestrator,
    whose controller starts with an empty audit trail. *)
Definition generate_with_multi_agent (diff reference_message : string)
    : result (option multi_agent_response) :=
  match generate_commit_message_multi_agent 3 diff reference_message fresh_governance with
  | (Ok (Some result), _) =>
      Ok (Some
        {| response_message := final_message result;
           response_quality_metrics := quality_metrics result;
           response_governance := summary result;
           response_agent_trail :=
             map (fun d => (agent_name d, action d, reasoning d)) (agent_decisions result) |})
  | (Ok None, _) => Ok None
  | (Raise e, _) => Raise e
  end.

End Agents.
End MultiAgent.

(** ** [git_interface.py]: the diff statistics of [GitInterface] *)

Module GitInterface.
Import PyStr.

(** The [stats] dict of [parse_diff_stats], one field per key. *)
Record diff_stats := {
  files_changed : nat;
  insertions : nat;
  deletions : nat;
  total_changes : nat
}.

(** One pass of the loop over the lines.  [current_file], which the loop
    also assigns, is never read. *)
Definition count_line (stats : diff_stats) (line : string) : diff_stats :=
  (* Count file changes *)
  if startswith line "diff --git" then
    {| files_changed := files_changed stats + 1;
       insertions := insertions stats;
       deletions := deletions stats;
       total_changes := total_changes stats |}
  (* Count insertions and deletions *)
  else if startswith line "+" && negb (startswith line "+++") then
    {| files_changed := files_changed stats;
       insertions := insertions stats + 1;
       deletions := deletions stats;
       total_changes := total_changes stats + 1 |}
  else if startswith line "-" && negb (startswith line "---") then
    {| files_changed := files_changed stats;
       insertions := insertions stats;
       deletions := deletions stats + 1;
       total_changes := total_changes stats + 1 |}
  else stats.

(** [parse_diff_stats] *)
Definition parse_diff_stats (diff : string) : diff_stats :=
  let lines := split nl diff in
  let stats := {| files_changed := 0; insertions := 0; deletions := 0; total_changes := 0 |} in
  fold_left count_line lines stats.

End GitInterface.

(** ** [main.py]: the two endpoints that assess a commit message

    The handlers are given without their calls of the audit logger and of
    [logger], which write to files and change no value of the response;
    the fields [model], [latency_ms] and [timestamp] of a generation, which
    come from the configuration and the clock, are left out. *)

Module Main.
Import PyStr.

(** What a handler raises: [HTTPException(status_code=400, detail=...)],
    the [HTTPException(status_code=500, ...)] of a failed generation, whose
    detail quotes the model service's error text, and the
    [HTTPException(status_code=500, detail=str(e))] into which the handler
    turns any other exception [e]. *)
Inductive http_error :=
| BadRequest (detail : string)
| GenerationFailed
| InternalError (e : exn).

Definition status_code (e : http_error) : nat :=
  match e with
  | BadRequest _ => 400
  | GenerationFailed => 500
  | InternalError _ => 500
  end.

Inductive http (A : Type) :=
| Response (a : A)
| HTTPException (e : http_error).
Arguments Response {A} a.
Arguments HTTPException {A} e.

Section Endpoints.
Context `{Externals}.

(** [except Exception as e: raise HTTPException(status_code=500, ...)] *)
Definition or_internal_error {A} (r : result A) : http A :=
  match r with
  | Ok a => Response a
  | Raise e => HTTPException (InternalError e)
  end.

(** [v[:n]] of a list or a string. *)
Definition py_slice (n : nat) (v : pyval) : result pyval :=
  match v with
  | VList l => Ok (VList (take n l))
  | VStr s => Ok (VStr (slice_to n s))
  | _ => Raise (TypeError "object is not subscriptable")
  end.

(** The items of [v] as [', '.join(v)] needs them: strings, or the
    characters of a string. *)
Definition join_items (v : pyval) : result (list string) :=
  match v with
  | VList l =>
      mapM (fun x => match x with
                     | VStr s => Ok s
                     | _ => Raise (TypeError "sequence item: expected str instance")
                     end) l
  | VStr s => Ok (map (fun c => String c EmptyString) (chars s))
  | _ => Raise (TypeError "can only join an iterable")
  end.

(** The steps "Assess hallucination severity" to "Get usage
    recommendations", which have the same text in both handlers.  Under
    "ungrounded_tokens" the evaluator stores a list of strings. *)
Record safety_assessment := {
  hallucination_rate : pyval;
  hallucination_detected : pyval;
  hallucination_severity : string;
  safety_warnings : list string;
  confidence_level : string;
  usage_recommendations : list string
}.

Definition assess_safety (eval_results : list (string * pyval)) : result safety_assessment :=
  hallucination ← dict_item eval_results "hallucination" ≫= EvaluateSimple.py_dict;
  (* Assess hallucination severity *)
  let hallucination_rate := dict_get hallucination "rate" (VFloat 0.0) in
  hallucination_detected ← dict_item hallucination "detected";
  hallucination_severity ←
    Safety.assess_hallucination_severity hallucination_rate hallucination_detected;
  (* Generate safety warnings *)
  quality_score ← dict_item eval_results "quality_score" ≫= py_number;
  let safety_warnings :=
    Safety.generate_safety_warnings hallucination_severity
      (MultiAgent.str_items <$> dict_lookup hallucination "ungrounded_tokens")
      quality_score in
  (* Calculate confidence level *)
  let confidence_level := Safety.get_confidence_level quality_score hallucination_severity in
  (* Get usage recommendations *)
  let usage_recommendations :=
    Safety.get_usage_recommendations confidence_level hallucination_severity in
  Ok {| hallucination_rate := hallucination_rate;
        hallucination_detected := hallucination_detected;
        hallucination_severity := hallucination_severity;
        safety_warnings := safety_warnings;
        confidence_level := confidence_level;
        usage_recommendations := usage_recommendations |}.

(** [_generate_feedback]; an absent [safety_warnings] is the empty list. *)
Definition _generate_feedback (results : list (string * pyval)) (safety_warnings : list string)
    : result (list string) :=
  let feedback := [] in
  (* Prioritize safety warnings at the top *)
  let feedback :=
    match safety_warnings with
    | [] => feedback
    | _ :: _ => feedback ++ safety_warnings ++ [EmptyString]
    end in
  (* BLEU feedback *)
  bleu ← dict_item results "bleu" ≫= py_number;
  let feedback :=
    if Qgtb bleu 15 then feedback ++ ["✓ Good lexical similarity with reference"]
    else feedback ++ ["⚠ Low BLEU score - message differs significantly from reference"] in
  (* Semantic similarity feedback *)
  semantic ← dict_item results "semantic_similarity" ≫= py_number;
  let feedback :=
    if Qgtb semantic 0.7 then feedback ++ ["✓ Semantically similar to reference"]
    else if Qgtb semantic 0.5 then feedback ++ ["⚠ Moderate semantic similarity"]
    else feedback ++ ["✗ Low semantic similarity"] in
  (* Hallucination feedback *)
  hallucination ← dict_item results "hallucination" ≫= EvaluateSimple.py_dict;
  detected ← dict_item hallucination "detected";
  feedback ←
    (if py_truth detected then
       tokens ← dict_item hallucination "ungrounded_tokens" ≫= py_slice 5;
       shown ← join_items tokens;
       Ok (feedback ++ ["⚠ Potential hallucination detected: " +:+ join ", " shown])
     else Ok (feedback ++ ["✓ No hallucinations detected"]));
  (* Quality score feedback *)
  quality ← dict_item results "quality_score" ≫= py_number;
  if Qgtb quality 0.7 then Ok (feedback ++ ["✓ High overall quality"])
  else if Qgtb quality 0.5 then Ok (feedback ++ ["⚠ Acceptable quality"])
  else Ok (feedback ++ ["✗ Low quality - consider regenerating"]).

(** The response of [/checkCommit]. *)
Record check_response := {
  check_bleu : pyval;
  check_rouge : pyval;
  check_semantic_similarity : pyval;
  check_hallucination : pyval;
  check_quality_score : pyval;
  check_feedback : list string;
  check_assessment : safety_assessment
}.

(** [check_commit] once the input has been validated. *)
Definition check_commit_body (diff commit_message : string) (reference_message : option string)
    : result check_response :=
  (* If no reference provided, use self-comparison *)
  let reference :=
    match reference_message with
    | Some r => if py_truth (VStr r) then r else commit_message
    | None => commit_message
    end in
  (* Evaluate *)
  results ← EvaluateSimple.evaluate_message commit_message reference diff;
  assessment ← assess_safety results;
  (* Generate feedback (legacy system + new safety warnings) *)
  feedback ← _generate_feedback results (safety_warnings assessment);
  (* Prepare response *)
  bleu ← dict_item results "bleu";
  rouge ← dict_item results "rouge";
  semantic_similarity ← dict_item results "semantic_similarity";
  hallucination ← dict_item results "hallucination";
  quality_score ← dict_item results "quality_score";
  Ok {| check_bleu := bleu;
        check_rouge := rouge;
        check_semantic_similarity := semantic_similarity;
        check_hallucination := hallucination;
        check_quality_score := quality_score;
        check_feedback := feedback;
        check_assessment := assessment |}.

(** [check_commit].  The guardrails object is shared by all requests: the
    handler reads and updates its rate-limit store, and names every client
    "unknown". *)
Definition check_commit (now_iso : string) (current_time : Q) (store : gmap string (list Q))
    (diff commit_message : string) (reference_message : option string)
    : http check_response * gmap string (list Q) :=
  (* Input validation using SafetyGuardrails *)
  let '((is_valid, validation_msg, _), store) :=
    Safety.validate_input now_iso current_time store diff "unknown" in
  if negb is_valid then (HTTPException (BadRequest validation_msg), store) else
  (* Validate commit message *)
  if negb (py_truth (VStr commit_message)) || (len (strip commit_message) =? 0) then
    (HTTPException (BadRequest "Commit message cannot be empty"), store)
  else
  (or_internal_error (check_commit_body diff commit_message reference_message), store).

(** The response of [/generateCommit]. *)
Record quality_metrics := {
  metric_bleu : pyval;
  metric_rouge_l : pyval;
  metric_semantic_similarity : pyval;
  metric_quality_score : pyval;
  metric_hallucination_rate : pyval;
  metric_ungrounded_tokens : pyval
}.

Record generate_response := {
  resp_message : string;
  resp_assessment : safety_assessment;
  resp_metrics : quality_metrics
}.

(** [generate_commit] from the generated message on. *)
Definition generate_commit_body (diff generated_message : string) : result generate_response :=
  (* Automatic quality evaluation: self-comparison *)
  eval_results ← EvaluateSimple.evaluate_message generated_message generated_message diff;
  assessment ← assess_safety eval_results;
  (* Sanitize output *)
  let sanitized_message := Safety.sanitize_output generated_message in
  (* Prepare response *)
  rouge ← dict_item eval_results "rouge" ≫= EvaluateSimple.py_dict;
  hallucination ← dict_item eval_results "hallucination" ≫= EvaluateSimple.py_dict;
  ungrounded_tokens ← py_slice 10 (dict_get hallucination "ungrounded_tokens" (VList []));
  Ok {| resp_message := sanitized_message;
        resp_assessment := assessment;
        resp_metrics :=
          {| metric_bleu := dict_get eval_results "bleu" VNone;
             metric_rouge_l :=
               if dict_has rouge "rouge_l" then dict_get rouge "rouge_l" VNone
               else dict_get rouge "rougeL" (VFloat 0.0);
             metric_semantic_similarity := dict_get eval_results "semantic_similarity" VNone;
             metric_quality_score := dict_get eval_results "quality_score" VNone;
             metric_hallucination_rate := hallucination_rate assessment;
             metric_ungrounded_tokens := ungrounded_tokens |} |}.

(** [generate_commit] *)
Definition generate_commit (now_iso : string) (current_time : Q) (store : gmap string (list Q))
    (diff : string) : http generate_response * gmap string (list Q) :=
  (* Input validation using SafetyGuardrails *)
  let '((is_valid, validation_msg, _), store) :=
    Safety.validate_input now_iso current_time store diff "unknown" in
  if negb is_valid then (HTTPException (BadRequest validation_msg), store) else
  (* Generate message *)
  let result := generate_commit_message diff in
  if negb (gen_success result) then (HTTPException GenerationFailed, store) else
  (or_internal_error (generate_commit_body diff (gen_message result)), store).

End Endpoints.
End Main.

(** ** A concrete environment for running the model

    Stand-ins for the library behaviour of [Externals], exact on the inputs
    they are used with below: texts made of words separated by blanks (on
    which NLTK's tokenizer returns those words), and values whose [str()]
    needs no escaping. *)

Module Sample.
Import PyStr.

(** Fixed-point rendering with [digits] decimals, as [format(x, '.2f')]. *)
Definition format_fixed (digits : nat) (x : Q) : string :=
  let scale := (10 ^ Z.of_nat digits)%Z in
  let n := round_half_even (x * inject_Z scale) in
  let a := Z.abs n in
  let frac := pretty (a mod scale)%Z in
  (if (n <? 0)%Z then "-" else EmptyString)
  +:+ pretty (a / scale)%Z
  +:+ (if digits =? 0 then EmptyString
       else "." +:+ str (replicate (digits - len frac) "0"%char) +:+ frac).

Definition sample_format_float (spec : string) (x : Q) : string :=
  if String.eqb spec ".2f" then format_fixed 2 x
  else if String.eqb spec ".1%" then format_fixed 1 (x * 100) +:+ "%"
  else format_fixed 6 x.

(** [str(v)] for values without characters that [repr] escapes. *)
Fixpoint sample_str (v : pyval) : string :=
  match v with
  | VNone => "None"
  | VBool b => if b then "True" else "False"
  | VInt n => pretty n
  | VFloat x => format_fixed 4 x
  | VStr s => "'" +:+ s +:+ "'"
  | VList l => "[" +:+ join ", " (map sample_str l) +:+ "]"
  | VDict d =>
      "{" +:+ join ", " (map (fun kv => "'" +:+ kv.1 +:+ "': " +:+ sample_str kv.2) d) +:+ "}"
  end.

(** A few of NLTK's English stopwords. *)
Definition sample_stopwords : list string :=
  ["the"; "a"; "an"; "and"; "in"; "of"; "to"; "for"; "is"; "by"; "with"; "on"].

(** Taylor polynomials standing in for [math.exp] and [math.log]. *)
Definition sample_exp (x : Q) : Q := (1 + x + x * x / 2)%Q.
Definition sample_log (x : Q) : Q := ((x - 1) - (x - 1) * (x - 1) / 2)%Q.

(** Finds only the credential [password='hunter2'], which the first of
    the sensitive-data patterns does match. *)
Definition sample_re_search (pattern text : string) : bool :=
  String.prefix "password" pattern && contains (lower text) "password='hunter2'".

(** A generator that answers every diff with the same message. *)
Definition sample_generate (diff : string) : generation :=
  {| gen_success := true; gen_message := "Update parser to handle empty input" |}.

Definition sample_externals : Externals :=
  {| word_tokenize := split_ws;
     stopwords := sample_stopwords;
     math_exp := sample_exp;
     math_log := sample_log;
     re_search := sample_re_search;
     py_str := sample_str;
     format_float := sample_format_float;
     generate_commit_message := sample_generate |}.



End Sample.

(** * Properties *)

(** ** Comparisons on rationals *)

Lemma Qltb_true (x y : Q) : Qltb x y = true <-> (x < y)%Q.
Proof.
  unfold Qltb. rewrite negb_true_iff, <- not_true_iff_false, Qle_bool_iff.
  split; [apply Qnot_le_lt | apply Qlt_not_le].
Qed.

Lemma Qltb_false (x y : Q) : Qltb x y = false <-> (y <= x)%Q.
Proof.
  unfold Qltb. rewrite negb_false_iff. apply Qle_bool_iff.
Qed.

Lemma Qgeb_true (x y : Q) : Qgeb x y = true <-> (y <= x)%Q.
Proof. apply Qle_bool_iff. Qed.

Lemma Qgeb_false (x y : Q) : Qgeb x y = false <-> (x < y)%Q.
Proof.
  unfold Qgeb. rewrite <- not_true_iff_false, Qle_bool_iff.
  split; [apply Qnot_le_lt | apply Qlt_not_le].
Qed.

Lemma Qgtb_true (x y : Q) : Qgtb x y = true <-> (y < x)%Q.
Proof. apply Qltb_true. Qed.

Lemma Qgtb_false (x y : Q) : Qgtb x y = false <-> (x <= y)%Q.
Proof. apply Qltb_false. Qed.

(** Case analysis on every rational comparison of the goal, leaving the
    outcome as a hypothesis for [lra]. *)
Ltac qcases :=
  repeat match goal with
  | |- context [Qltb ?x ?y] =>
      let E := fresh "E" in
      destruct (Qltb x y) eqn:E;
      [apply Qltb_true in E | apply Qltb_false in E]
  | |- context [Qgeb ?x ?y] =>
      let E := fresh "E" in
      destruct (Qgeb x y) eqn:E;
      [apply Qgeb_true in E | apply Qgeb_false in E]
  end.

(** ** Rounding *)

Lemma round_half_even_close (y : Q) :
  (y - (1 # 2) <= inject_Z (round_half_even y) <= y + (1 # 2))%Q.
Proof.
  unfold round_half_even.
  pose proof (Qfloor_le y) as Hlo. pose proof (Qlt_floor y) as Hhi.
  rewrite inject_Z_plus in Hhi. change (inject_Z 1) with 1%Q in Hhi.
  destruct (Qcompare_spec (y - inject_Z (Qfloor y)) (1 # 2)) as [E|E|E].
  - destruct (Z.even (Qfloor y)); rewrite ?inject_Z_plus; change (inject_Z 1) with 1%Q; lra.
  - lra.
  - rewrite inject_Z_plus. change (inject_Z 1) with 1%Q. lra.
Qed.

Lemma round_half_even_floor (y : Q) : (Qfloor y <= round_half_even y)%Z.
Proof.
  unfold round_half_even.
  destruct (Qcompare _ _); [destruct (Z.even _) | |]; lia.
Qed.

Lemma round_half_even_comp (x y : Q) : (x == y)%Q -> round_half_even x = round_half_even y.
Proof.
  intros E. unfold round_half_even. rewrite (Qfloor_comp _ _ E).
  assert (E' : (x - inject_Z (Qfloor y) == y - inject_Z (Qfloor y))%Q) by (by rewrite E).
  by rewrite E'.
Qed.

Lemma scale_pos (n : nat) : (0 < inject_Z (10 ^ Z.of_nat n))%Q.
Proof.
  change 0%Q with (inject_Z 0). rewrite <- Zlt_Qlt. apply Z.pow_pos_nonneg; lia.
Qed.

(** Equal floats round to the same term. *)
Lemma py_round_comp (x y : Q) (n : nat) : (x == y)%Q -> py_round x n = py_round y n.
Proof.
  intros E. unfold py_round. apply Qred_complete.
  set (s := inject_Z (10 ^ Z.of_nat n)).
  rewrite (round_half_even_comp (x * s) (y * s)); [reflexivity | by rewrite E].
Qed.

(** The rounded value is within half a unit of the last digit. *)
Lemma py_round_close (x : Q) (n : nat) :
  let eps := (1 / (2 * inject_Z (10 ^ Z.of_nat n)))%Q in
  (x - eps <= py_round x n <= x + eps)%Q.
Proof.
  intros eps. unfold py_round. rewrite Qred_correct.
  pose proof (scale_pos n) as Hs. set (s := inject_Z (10 ^ Z.of_nat n)) in *.
  pose proof (round_half_even_close (x * s)) as [Hlo Hhi].
  set (z := inject_Z (round_half_even (x * s))) in *.
  subst eps. split.
  - apply Qle_shift_div_l; [done |].
    assert (E : ((x - 1 / (2 * s)) * s == x * s - (1 # 2))%Q) by (field; lra).
    by rewrite E.
  - apply Qle_shift_div_r; [done |].
    assert (E : ((x + 1 / (2 * s)) * s == x * s + (1 # 2))%Q) by (field; lra).
    by rewrite E.
Qed.

Lemma py_round_nonneg (x : Q) (n : nat) : (0 <= x)%Q -> (0 <= py_round x n)%Q.
Proof.
  intros Hx. unfold py_round. rewrite Qred_correct.
  pose proof (scale_pos n) as Hs. set (s := inject_Z (10 ^ Z.of_nat n)) in *.
  apply Qle_shift_div_l; [done |]. rewrite Qmult_0_l.
  change 0%Q with (inject_Z 0). rewrite <- Zle_Qle.
  etrans; [| apply round_half_even_floor].
  change 0%Z with (Qfloor 0). apply Qfloor_resp_le. nra.
Qed.

Lemma round_half_even_le (y : Q) (k : Z) : (y <= inject_Z k)%Q -> (round_half_even y <= k)%Z.
Proof.
  intros Hy. pose proof (Qfloor_le y) as Hlo.
  assert (Hf : (Qfloor y <= k)%Z) by (rewrite Zle_Qle; lra).
  unfold round_half_even.
  destruct (Z.eq_dec (Qfloor y) k) as [E|E].
  - destruct (Qcompare_spec (y - inject_Z (Qfloor y)) (1 # 2)) as [C|C|C];
      rewrite ?E in C; first [lia | exfalso; lra].
  - destruct (Qcompare _ _); [destruct (Z.even _) | |]; lia.
Qed.

Lemma round_half_even_ceil (y : Q) : (round_half_even y <= Qfloor y + 1)%Z.
Proof.
  unfold round_half_even.
  destruct (Qcompare _ _); [destruct (Z.even _) | |]; lia.
Qed.

Lemma round_half_even_mono (x y : Q) :
  (x <= y)%Q -> (round_half_even x <= round_half_even y)%Z.
Proof.
  intros Hxy. pose proof (Qfloor_resp_le _ _ Hxy) as Hf.
  destruct (Z.eq_dec (Qfloor x) (Qfloor y)) as [E|E].
  - unfold round_half_even. rewrite E.
    destruct (Qcompare_spec (x - inject_Z (Qfloor y)) (1 # 2)) as [C|C|C];
      destruct (Qcompare_spec (y - inject_Z (Qfloor y)) (1 # 2)) as [C'|C'|C'];
      try (exfalso; lra); try destruct (Z.even _); lia.
  - etrans; [apply round_half_even_ceil |].
    etrans; [| apply round_half_even_floor]. lia.
Qed.

Lemma round_half_even_ge (y : Q) (k : Z) : (inject_Z k <= y)%Q -> (k <= round_half_even y)%Z.
Proof.
  intros Hy. etrans; [| apply round_half_even_floor].
  rewrite <- (Qfloor_Z k). by apply Qfloor_resp_le.
Qed.

(** [round] is monotone. *)
Lemma py_round_mono (x y : Q) (n : nat) : (x <= y)%Q -> (py_round x n <= py_round y n)%Q.
Proof.
  intros Hxy. unfold py_round. rewrite !Qred_correct.
  assert (Hs : (0 < inject_Z (10 ^ Z.of_nat n))%Q).
  { change 0%Q with (inject_Z 0). rewrite <- Zlt_Qlt. apply Z.pow_pos_nonneg; lia. }
  set (s := inject_Z (10 ^ Z.of_nat n)) in *.
  apply Qmult_le_compat_r; [| apply Qinv_le_0_compat; lra].
  rewrite <- Zle_Qle. apply round_half_even_mono. nra.
Qed.

(** ** Binary64 rounding *)

Lemma pow2_pos (e : Z) : (0 < 2 ^ e)%Q.
Proof. apply Qpower_0_lt. lra. Qed.

Lemma pow2_add (a b : Z) : (2 ^ (a + b) == 2 ^ a * 2 ^ b)%Q.
Proof. apply Qpower_plus. lra. Qed.

Lemma pow2_succ (a : Z) : (2 ^ (a + 1) == 2 * 2 ^ a)%Q.
Proof. rewrite pow2_add. change (2 ^ 1)%Q with 2%Q. ring. Qed.

Lemma pow2_Z (n : Z) : (0 <= n)%Z -> (2 ^ n == inject_Z (2 ^ n))%Q.
Proof. intros Hn. symmetry. by apply (Zpower_Qpower 2). Qed.

Lemma pow2_le (a b : Z) : (a <= b)%Z -> (2 ^ a <= 2 ^ b)%Q.
Proof. intros Hab. apply Qpower_le_compat_l; [done | lra]. Qed.

Lemma pow2_lt_inv (a b : Z) : (2 ^ a < 2 ^ b)%Q -> (a < b)%Z.
Proof. intros Hab. apply (Qpower_lt_compat_l_inv 2); [done | lra]. Qed.

Lemma binade_spec (a : Q) :
  (0 < a)%Q -> (2 ^ binade a <= a < 2 ^ (binade a + 1))%Q.
Proof.
  intros Ha. destruct a as [n d].
  assert (Hn : (0 < n)%Z) by (unfold Qlt in Ha; simpl in Ha; lia).
  unfold binade. cbn [Qnum Qden].
  set (ln := Z.log2 n). set (ld := Z.log2 (Z.pos d)). set (k := (ln - ld)%Z).
  destruct (Z.log2_spec n Hn) as [Ln Un]. fold ln in Ln, Un.
  destruct (Z.log2_spec (Z.pos d)) as [Ld Ud]; [lia |]. fold ld in Ld, Ud.
  assert (Hln : (0 <= ln)%Z) by apply Z.log2_nonneg.
  assert (Hld : (0 <= ld)%Z) by apply Z.log2_nonneg.
  set (N := inject_Z n). set (D := inject_Z (Z.pos d)).
  assert (Ea : (n # d == N / D)%Q) by apply Qmake_Qdiv.
  assert (HD : (0 < D)%Q) by (unfold D; change 0%Q with (inject_Z 0); rewrite <- Zlt_Qlt; lia).
  assert (LN : (2 ^ ln <= N)%Q) by (rewrite pow2_Z by done; unfold N; by rewrite <- Zle_Qle).
  assert (UN : (N < 2 * 2 ^ ln)%Q).
  { rewrite <- pow2_succ, pow2_Z by lia. unfold N. rewrite <- Zlt_Qlt.
    by rewrite <- Z.add_1_r in Un. }
  assert (LD : (2 ^ ld <= D)%Q) by (rewrite pow2_Z by done; unfold D; by rewrite <- Zle_Qle).
  assert (UD : (D < 2 * 2 ^ ld)%Q).
  { rewrite <- pow2_succ, pow2_Z by lia. unfold D. rewrite <- Zlt_Qlt.
    by rewrite <- Z.add_1_r in Ud. }
  assert (Ek : (2 ^ k * 2 ^ ld == 2 ^ ln)%Q).
  { rewrite <- pow2_add. by replace (k + ld)%Z with ln by (unfold k; lia). }
  pose proof (pow2_pos ln) as Pn. pose proof (pow2_pos ld) as Pd.
  pose proof (pow2_pos k) as Pk.
  set (A := (2 ^ ln)%Q) in *. set (B := (2 ^ ld)%Q) in *. set (P := (2 ^ k)%Q) in *.
  assert (Elo : (P < 2 * (N / D))%Q).
  { apply (Qmult_lt_r _ _ D); [done |].
    assert (E : (2 * (N / D) * D == 2 * N)%Q) by (field; lra). rewrite E. nra. }
  assert (Ehi : (N / D < 2 * P)%Q).
  { apply Qlt_shift_div_r; [done |]. nra. }
  destruct (Qle_bool P (n # d)) eqn:Eb.
  - apply Qle_bool_iff in Eb. split; [done |]. rewrite pow2_succ. fold P. by rewrite Ea.
  - assert (Hlt : (n # d < P)%Q).
    { apply Qnot_le_lt. intros Hle. apply Qle_bool_iff in Hle. congruence. }
    replace (k - 1 + 1)%Z with k by lia. fold P. split; [| done].
    assert (E2 : (P == 2 * 2 ^ (k - 1))%Q).
    { unfold P. rewrite <- pow2_succ. by replace (k - 1 + 1)%Z with k by lia. }
    rewrite Ea. pose proof (pow2_pos (k - 1)). lra.
Qed.

Lemma binade_upper (a : Q) (k : Z) :
  (0 < a)%Q -> (a < 2 ^ (k + 1))%Q -> (binade a <= k)%Z.
Proof.
  intros Ha Hk. destruct (binade_spec a Ha) as [L _].
  assert (binade a < k + 1)%Z; [| lia]. apply pow2_lt_inv. lra.
Qed.

Lemma binade_lower (a : Q) (k : Z) :
  (0 < a)%Q -> (2 ^ k <= a)%Q -> (k <= binade a)%Z.
Proof.
  intros Ha Hk. destruct (binade_spec a Ha) as [_ U].
  assert (k < binade a + 1)%Z; [| lia]. apply pow2_lt_inv. lra.
Qed.

Lemma fl_pos_nonneg (a : Q) : (0 <= a)%Q -> (0 <= fl_pos a)%Q.
Proof.
  intros Ha. unfold fl_pos. pose proof (pow2_pos (ulp_exponent a)) as Hp.
  set (p := (2 ^ ulp_exponent a)%Q) in *.
  apply Qmult_le_0_compat; [| lra].
  change 0%Q with (inject_Z 0). rewrite <- Zle_Qle. apply round_half_even_ge.
  change (inject_Z 0) with 0%Q. apply Qle_shift_div_l; [done | lra].
Qed.

Lemma fl_pos_mono (a b : Q) : (0 < a)%Q -> (a <= b)%Q -> (fl_pos a <= fl_pos b)%Q.
Proof.
  intros Ha Hab. assert (Hb : (0 < b)%Q) by lra.
  destruct (binade_spec a Ha) as [La Ua]. destruct (binade_spec b Hb) as [Lb Ub].
  assert (Hk : (binade a <= binade b)%Z) by (apply binade_upper; [done | lra]).
  unfold fl_pos, ulp_exponent.
  set (ea := Z.max (binade a - 52) (-1074)). set (eb := Z.max (binade b - 52) (-1074)).
  pose proof (pow2_pos ea) as Pa. pose proof (pow2_pos eb) as Pb.
  destruct (Z.eq_dec ea eb) as [E|E].
  - rewrite E. apply Qmult_le_compat_r; [| lra].
    rewrite <- Zle_Qle. apply round_half_even_mono.
    apply Qmult_le_compat_r; [done |]. apply Qinv_le_0_compat. lra.
  - assert (Hlt : (ea < eb)%Z) by lia.
    assert (Eb : eb = (binade b - 52)%Z) by lia.
    apply Qle_trans with (2 ^ (eb + 52))%Q.
    + assert (Ep : (2 ^ (eb + 52) == inject_Z (2 ^ (eb + 52 - ea)) * 2 ^ ea)%Q).
      { rewrite <- pow2_Z by lia. rewrite <- pow2_add. by replace (eb + 52 - ea + ea)%Z
          with (eb + 52)%Z by lia. }
      rewrite Ep. apply Qmult_le_compat_r; [| lra].
      rewrite <- Zle_Qle. apply round_half_even_le.
      apply Qle_shift_div_r; [done |]. rewrite <- Ep.
      assert (Hle : (2 ^ (binade a + 1) <= 2 ^ (eb + 52))%Q) by (apply pow2_le; lia).
      rewrite Qmult_1_l || idtac.
      eapply Qle_trans; [apply Qlt_le_weak, Ua | exact Hle].
    + assert (Ep : (2 ^ (eb + 52) == inject_Z (2 ^ 52) * 2 ^ eb)%Q).
      { rewrite <- pow2_Z by lia. rewrite <- pow2_add. by rewrite Z.add_comm. }
      rewrite Ep. apply Qmult_le_compat_r; [| lra].
      rewrite <- Zle_Qle. apply round_half_even_ge.
      apply Qle_shift_div_l; [done |]. rewrite <- Ep.
      replace (eb + 52)%Z with (binade b) by lia. done.
Qed.

(** The rounding error is at most half a unit in the last place. *)
Lemma fl_pos_close (a : Q) :
  let h := ((1 # 2) * 2 ^ ulp_exponent a)%Q in
  (a - h <= fl_pos a <= a + h)%Q.
Proof.
  intros h. subst h. unfold fl_pos. set (e := ulp_exponent a).
  pose proof (pow2_pos e) as Hp.
  pose proof (round_half_even_close (a / 2 ^ e)) as [Hlo Hhi].
  set (z := inject_Z (round_half_even (a / 2 ^ e))) in *.
  assert (E : (a == a / 2 ^ e * 2 ^ e)%Q) by (field; lra).
  set (p := (2 ^ e)%Q) in *. set (y := (a / p)%Q) in *. nra.
Qed.

Lemma fl_cases (x : Q) :
  ((x == 0)%Q /\ fl x = 0%Q)
  \/ ((0 < x)%Q /\ (fl x == fl_pos (Qred x))%Q)
  \/ ((x < 0)%Q /\ (fl x == - fl_pos (- Qred x))%Q).
Proof.
  unfold fl. pose proof (Qred_correct x) as E.
  destruct (Qred x) as [n d] eqn:Er. cbn [Qnum].
  destruct n as [|p|p].
  - left. split; [| done]. rewrite <- E. reflexivity.
  - right. left. split; [by rewrite <- E |]. apply Qred_correct.
  - right. right. split; [by rewrite <- E |]. apply Qred_correct.
Qed.

(** Equal rationals round to the same term. *)
Lemma fl_comp (x y : Q) : (x == y)%Q -> fl x = fl y.
Proof. intros E. unfold fl. by rewrite (Qred_complete x y E). Qed.

Lemma fl_nonneg (x : Q) : (0 <= x)%Q -> (0 <= fl x)%Q.
Proof.
  intros Hx. destruct (fl_cases x) as [[_ ->] | [[Hp ->] | [Hn _]]]; [lra | | lra].
  apply fl_pos_nonneg. rewrite Qred_correct. lra.
Qed.

Lemma fl_nonpos (x : Q) : (x <= 0)%Q -> (fl x <= 0)%Q.
Proof.
  intros Hx. destruct (fl_cases x) as [[_ ->] | [[Hp _] | [Hn ->]]]; [lra | lra |].
  pose proof (fl_pos_nonneg (- Qred x)) as Hp. rewrite Qred_correct in Hp at 1. lra.
Qed.

(** Rounding is monotone. *)
Lemma fl_mono (x y : Q) : (x <= y)%Q -> (fl x <= fl y)%Q.
Proof.
  intros Hxy.
  destruct (Qlt_le_dec 0 x) as [Hx|Hx].
  - destruct (fl_cases x) as [[Hz _] | [[_ ->] | [Hn _]]]; [lra | | lra].
    destruct (fl_cases y) as [[Hz _] | [[_ ->] | [Hn _]]]; [lra | | lra].
    apply fl_pos_mono; rewrite !Qred_correct; lra.
  - destruct (Qlt_le_dec y 0) as [Hy|Hy].
    + destruct (fl_cases x) as [[Hz _] | [[Hp _] | [_ ->]]]; [lra | lra |].
      destruct (fl_cases y) as [[Hz _] | [[Hp _] | [_ ->]]]; [lra | lra |].
      apply Qopp_le_compat. apply fl_pos_mono; rewrite !Qred_correct; lra.
    + pose proof (fl_nonpos x Hx). pose proof (fl_nonneg y Hy). lra.
Qed.

(** Below [2 ^ (k + 1)] the rounding error is at most [2 ^ (k - 53)], for
    every exponent [k] of the normal range. *)
Lemma fl_close (x : Q) (k : Z) :
  (-1022 <= k)%Z -> (0 <= x)%Q -> (x < 2 ^ (k + 1))%Q ->
  (x - 2 ^ (k - 53) <= fl x <= x + 2 ^ (k - 53))%Q.
Proof.
  intros Hk Hx Hlt. pose proof (pow2_pos (k - 53)) as Hp.
  assert (E : (2 ^ (k - 52) == 2 * 2 ^ (k - 53))%Q).
  { rewrite <- pow2_succ. by replace (k - 53 + 1)%Z with (k - 52)%Z by lia. }
  set (p := (2 ^ (k - 53))%Q) in *. set (q := (2 ^ (k - 52))%Q) in *.
  set (r := (2 ^ (k + 1))%Q) in *.
  destruct (fl_cases x) as [[Hz ->] | [[Hpos ->] | [Hn _]]]; [lra | | lra].
  pose proof (fl_pos_close (Qred x)) as Hc. cbv zeta in Hc.
  assert (Hb : (binade (Qred x) <= k)%Z).
  { apply binade_upper; rewrite Qred_correct; done. }
  assert (He : (ulp_exponent (Qred x) <= k - 52)%Z) by (unfold ulp_exponent; lia).
  pose proof (pow2_le _ _ He) as Hle. fold q in Hle.
  set (u := (2 ^ ulp_exponent (Qred x))%Q) in *.
  pose proof (Qred_correct x) as Er. set (x' := Qred x) in *. lra.
Qed.

(** The doubles that the development meets as constants. *)
Lemma fl_0 : fl 0 = 0%Q.
Proof. by vm_compute. Qed.

Lemma fl_1 : fl 1 = 1%Q.
Proof. by vm_compute. Qed.

Lemma fl_100 : fl 100 = 100%Q.
Proof. by vm_compute. Qed.

(** *** The operations on floats *)

Lemma float_add_mono (x x' y y' : Q) :
  (x <= x')%Q -> (y <= y')%Q -> (float_add x y <= float_add x' y')%Q.
Proof.
  intros Hx%fl_mono Hy%fl_mono. unfold float_add. apply fl_mono. lra.
Qed.

Lemma float_add_nonneg (x y : Q) : (0 <= x)%Q -> (0 <= y)%Q -> (0 <= float_add x y)%Q.
Proof.
  intros Hx%fl_nonneg Hy%fl_nonneg. unfold float_add. apply fl_nonneg. lra.
Qed.

Lemma float_mul_mono (x x' y y' : Q) :
  (0 <= x <= x')%Q -> (0 <= y <= y')%Q -> (float_mul x y <= float_mul x' y')%Q.
Proof.
  intros [Hx0%fl_nonneg Hx%fl_mono] [Hy0%fl_nonneg Hy%fl_mono].
  unfold float_mul. apply fl_mono. nra.
Qed.

Lemma float_mul_nonneg (x y : Q) : (0 <= x)%Q -> (0 <= y)%Q -> (0 <= float_mul x y)%Q.
Proof.
  intros Hx%fl_nonneg Hy%fl_nonneg. unfold float_mul. apply fl_nonneg. nra.
Qed.

Lemma float_mul_0_r (x : Q) : float_mul x 0 = 0%Q.
Proof.
  unfold float_mul. transitivity (fl 0); [| apply fl_0].
  apply fl_comp. rewrite fl_0. ring.
Qed.

Lemma float_mul_0_l (x : Q) : float_mul 0 x = 0%Q.
Proof.
  unfold float_mul. transitivity (fl 0); [| apply fl_0].
  apply fl_comp. rewrite fl_0. ring.
Qed.

(** Division by 100, as [_compute_quality_score] does it. *)
Lemma float_div_100_mono (x x' : Q) :
  (x <= x')%Q -> (float_div x 100 <= float_div x' 100)%Q.
Proof.
  intros Hx%fl_mono. unfold float_div. rewrite fl_100. apply fl_mono.
  assert (E : forall z, (z / 100 == z * (1 # 100))%Q) by (intros; reflexivity).
  rewrite !E. lra.
Qed.

Lemma float_div_100_nonneg (x : Q) : (0 <= x)%Q -> (0 <= float_div x 100)%Q.
Proof.
  intros Hx%fl_nonneg. unfold float_div. rewrite fl_100. apply fl_nonneg.
  assert (E : forall z, (z / 100 == z * (1 # 100))%Q) by (intros; reflexivity).
  rewrite E. lra.
Qed.

(** ** Severity classifier *)

Section SeverityProps.
Import Safety.





End SeverityProps.

(** ** Confidence classifier *)

Section ConfidenceProps.
Import Safety.



End ConfidenceProps.

(** ** Safety warnings *)

Section WarningProps.
Import Safety.

(** A directive is emitted when it is one of the warnings. *)
Definition emits (directive : string) (warnings : list string) : Prop :=
  In directive warnings.

(** Some warning mentions the given words (the test suite's check,
    [any("HUMAN OVERSIGHT" in w for w in warnings)]). *)
Definition mentions (words : string) (warnings : list string) : bool :=
  existsb (fun w => PyStr.contains w words) warnings.

Lemma ungrounded_not_oversight (tokens : list string) :
  UNGROUNDED_WARNING tokens <> HUMAN_OVERSIGHT_REQUIRED.
Proof. intros E. vm_compute in E. congruence. Qed.

Lemma ungrounded_not_review (tokens : list string) :
  UNGROUNDED_WARNING tokens <> HUMAN_REVIEW_RECOMMENDED.
Proof. intros E. vm_compute in E. congruence. Qed.

Lemma in_snoc {A} (x y : A) (l : list A) : In x (l ++ [y]) <-> In x l \/ x = y.
Proof. rewrite in_app_iff. simpl. intuition congruence. Qed.

(** The warnings that precede the closing directive contain neither
    directive. *)
Lemma tokens_warning_neither (o : option (list string)) (ws : list string) :
  ~ In HUMAN_OVERSIGHT_REQUIRED ws -> ~ In HUMAN_REVIEW_RECOMMENDED ws ->
  let ws' := match o with
             | Some (t :: ts) => ws ++ [UNGROUNDED_WARNING (t :: ts)]
             | _ => ws
             end in
  ~ In HUMAN_OVERSIGHT_REQUIRED ws' /\ ~ In HUMAN_REVIEW_RECOMMENDED ws'.
Proof.
  intros H1 H2. destruct o as [[|t ts]|]; simpl; auto.
  rewrite !in_snoc. split; intros [?|E]; auto.
  - symmetry in E. by apply ungrounded_not_oversight in E.
  - symmetry in E. by apply ungrounded_not_review in E.
Qed.

(** C7, as the code has it.  Whatever the severity string, the token list
    and the quality score, the warnings end with exactly one of the two
    directives: "human oversight required" when the severity is HIGH or
    CRITICAL or the quality score is below 0.25, and "review recommended"
    in every other case (a MEDIUM severity included); the other directive
    is then absent. *)
Theorem oversight_directive_cases (severity : string) (tokens : option (list string)) (q : Q) :
  let warnings := generate_safety_warnings severity tokens q in
  ((severity = "HIGH" \/ severity = "CRITICAL" \/ (q < 0.25)%Q) ->
   emits HUMAN_OVERSIGHT_REQUIRED warnings /\ ~ emits HUMAN_REVIEW_RECOMMENDED warnings)
  /\ (~ (severity = "HIGH" \/ severity = "CRITICAL" \/ (q < 0.25)%Q) ->
      emits HUMAN_REVIEW_RECOMMENDED warnings /\ ~ emits HUMAN_OVERSIGHT_REQUIRED warnings).
Proof.
  unfold emits, generate_safety_warnings.
  set (ws1 := if String.eqb severity "CRITICAL" then _ else _).
  set (ws2 := if Qltb q 0.20 then _ else _).
  set (ws3 := match tokens with Some (t :: ts) => _ | _ => _ end).
  assert (Hfree : ~ In HUMAN_OVERSIGHT_REQUIRED ws3 /\ ~ In HUMAN_REVIEW_RECOMMENDED ws3).
  { apply tokens_warning_neither; subst ws2 ws1;
      repeat match goal with
             | |- context [if ?b then _ else _] => destruct b
             end;
      vm_compute; intuition congruence. }
  destruct Hfree as [Hno1 Hno2].
  assert (Hcond : (String.eqb severity "HIGH" || String.eqb severity "CRITICAL")
                  || Qltb q 0.25 = true
                  <-> (severity = "HIGH" \/ severity = "CRITICAL" \/ (q < 0.25)%Q)).
  { rewrite !orb_true_iff, !String.eqb_eq, Qltb_true. tauto. }
  simpl. split; intros Hc.
  - apply Hcond in Hc. rewrite Hc, !in_snoc. split; [by right |].
    intros [?|E]; [done | vm_compute in E; congruence].
  - rewrite <- Hcond in Hc. apply not_true_is_false in Hc.
    rewrite Hc, !in_snoc. split; [by right |].
    intros [?|E']; [done | vm_compute in E'; congruence].
Qed.

Lemma oversight_directive_cases_witness :
  (emits HUMAN_OVERSIGHT_REQUIRED (generate_safety_warnings "CRITICAL" (Some ["fake_func"]) 0.15)
   /\ ~ emits HUMAN_REVIEW_RECOMMENDED
          (generate_safety_warnings "CRITICAL" (Some ["fake_func"]) 0.15))
  /\ (emits HUMAN_REVIEW_RECOMMENDED (generate_safety_warnings "MEDIUM" None 0.5)
      /\ ~ emits HUMAN_OVERSIGHT_REQUIRED (generate_safety_warnings "MEDIUM" None 0.5)).
Proof.
  split.
  - apply (oversight_directive_cases "CRITICAL" (Some ["fake_func"]) 0.15). right; by left.
  - apply (oversight_directive_cases "MEDIUM" None 0.5).
    intros [E|[E|E]]; [discriminate E | discriminate E | vm_compute in E; discriminate E].
Defined.

(** C7 as stated fails at severity MEDIUM with quality score 0.5: MEDIUM is
    "MEDIUM or above", yet no warning mentions the oversight directive; the
    list is the MEDIUM notice followed by "review recommended". *)
Lemma medium_severity_gets_no_oversight :
  severity_rank MEDIUM >= severity_rank MEDIUM
  /\ generate_safety_warnings (severity_name MEDIUM) None 0.5
     = [MEDIUM_WARNING; HUMAN_REVIEW_RECOMMENDED]
  /\ mentions "HUMAN OVERSIGHT REQUIRED"
       (generate_safety_warnings (severity_name MEDIUM) None 0.5) = false
  /\ ~ emits HUMAN_OVERSIGHT_REQUIRED (generate_safety_warnings (severity_name MEDIUM) None 0.5).
Proof.
  split; [lia |]. split; [reflexivity |]. split; [by vm_compute |].
  unfold emits. vm_compute. intuition congruence.
Qed.

End WarningProps.

(** ** Output sanitation *)

Section SanitizeProps.
Import PyStr Safety.

Lemma chars_str (l : list ascii) : chars (str l) = l.
Proof. apply list_ascii_of_string_of_list_ascii. Qed.

Lemma str_chars (s : string) : str (chars s) = s.
Proof. apply string_of_list_ascii_of_string. Qed.

Lemma chars_app (s t : string) : chars (s +:+ t) = chars s ++ chars t.
Proof. induction s as [|c s IH]; simpl; [done | by rewrite <- IH]. Qed.

Lemma is_nl_eq (c : ascii) : is_nl c = true -> c = nl.
Proof.
  unfold is_nl, code, nl. intros E%Nat.eqb_eq.
  by rewrite <- (ascii_nat_embedding c), E.
Qed.

Lemma is_nl_isspace (c : ascii) : is_nl c = true -> isspace c = true.
Proof. intros ->%is_nl_eq. reflexivity. Qed.

(** *** Stripping *)

(** Both ends of the text are non-blank (or the text is empty). *)
Definition trimmed (l : list ascii) : Prop :=
  (forall c l', l = c :: l' -> isspace c = false)
  /\ (forall c l', l = l' ++ [c] -> isspace c = false).

Lemma lstrip_head (l : list ascii) c l' : lstrip_chars l = c :: l' -> isspace c = false.
Proof.
  induction l as [|d l IH]; simpl; [done |].
  destruct (isspace d) eqn:E; [done | congruence].
Qed.

Lemma lstrip_snoc (l : list ascii) c :
  isspace c = false -> lstrip_chars (l ++ [c]) = lstrip_chars l ++ [c].
Proof.
  intros Hc. induction l as [|d l IH]; simpl; [by rewrite Hc |].
  by destruct (isspace d).
Qed.

Lemma lstrip_fixed (l : list ascii) :
  (forall c l', l = c :: l' -> isspace c = false) -> lstrip_chars l = l.
Proof.
  destruct l as [|c l]; [done |]. intros Hh. simpl. by rewrite (Hh c l).
Qed.

Lemma rstrip_cons (l : list ascii) c :
  isspace c = false -> rstrip_chars (c :: l) = c :: rstrip_chars l.
Proof.
  intros Hc. unfold rstrip_chars. simpl. rewrite lstrip_snoc by done.
  by rewrite rev_app_distr.
Qed.

Lemma rstrip_last (l : list ascii) c l' :
  rstrip_chars l = l' ++ [c] -> isspace c = false.
Proof.
  unfold rstrip_chars. intros E. apply (f_equal (@rev ascii)) in E.
  rewrite rev_involutive, rev_app_distr in E. simpl in E.
  by apply lstrip_head in E.
Qed.

Lemma strip_trimmed (l : list ascii) : trimmed (strip_chars l).
Proof.
  unfold strip_chars. split.
  - intros c l' E. destruct (lstrip_chars l) as [|d m] eqn:El; [done |].
    pose proof (lstrip_head _ _ _ El) as Hd.
    rewrite rstrip_cons in E by done. congruence.
  - intros c l' E. by apply rstrip_last in E.
Qed.

Lemma trimmed_strip (l : list ascii) : trimmed l -> strip_chars l = l.
Proof.
  intros [Hh Hl]. unfold strip_chars. rewrite lstrip_fixed by done.
  unfold rstrip_chars. rewrite lstrip_fixed; [apply rev_involutive |].
  intros c l' E. apply (Hl c (rev l')).
  by rewrite <- (rev_involutive l), E.
Qed.

(** *** Replacing backticks *)

Definition backtick : ascii := "`"%char.
Definition apostrophe : ascii := "'"%char.

Lemma replace_no_backtick (l : list ascii) :
  Forall (fun c => c <> backtick) (replace_chars backtick apostrophe l).
Proof.
  unfold replace_chars. induction l as [|d l IH]; simpl; constructor; [|done].
  destruct (Ascii.eqb d backtick) eqn:E; [done |]. by apply Ascii.eqb_neq.
Qed.

Lemma replace_fixed (l : list ascii) :
  Forall (fun c => c <> backtick) l -> replace_chars backtick apostrophe l = l.
Proof.
  unfold replace_chars. induction 1 as [|c l Hc _ IH]; simpl; [done |].
  rewrite IH. by apply Ascii.eqb_neq in Hc as ->.
Qed.

Lemma replace_isspace (c : ascii) :
  isspace (if Ascii.eqb c backtick then apostrophe else c) = isspace c.
Proof. destruct (Ascii.eqb c backtick) eqn:E; [|done]. by apply Ascii.eqb_eq in E as ->. Qed.

Lemma replace_trimmed (l : list ascii) :
  trimmed l -> trimmed (replace_chars backtick apostrophe l).
Proof.
  unfold replace_chars. intros [Hh Hl]. split.
  - intros c l' E. destruct l as [|d m]; [done |]. simpl in E.
    injection E as <- _. rewrite replace_isspace. by apply (Hh d m).
  - intros c l' E. destruct (rev l) as [|d m] eqn:Er.
    { apply (f_equal (@rev ascii)) in Er. rewrite rev_involutive in Er. subst l.
      by destruct l'. }
    apply (f_equal (@rev ascii)) in Er. rewrite rev_involutive in Er. simpl in Er.
    subst l. rewrite map_app in E. simpl in E.
    apply app_inj_tail in E as [_ <-]. rewrite replace_isspace. by apply (Hl d (rev m)).
Qed.

(** *** Collapsing newlines *)

(** No run of newlines is longer than two, where [run] newlines have just
    been read. *)
Fixpoint short_runs (run : nat) (l : list ascii) : bool :=
  match l with
  | [] => true
  | c :: l' => if is_nl c then (S run <? 3) && short_runs (S run) l' else short_runs 0 l'
  end.

Lemma emit_newlines_small (run : nat) : run <= 2 -> emit_newlines run = replicate run nl.
Proof.
  intros Hr. unfold emit_newlines. destruct (3 <=? run) eqn:E; [|done].
  apply Nat.leb_le in E. lia.
Qed.

Lemma collapse_fixed (run : nat) (l : list ascii) :
  run <= 2 -> short_runs run l = true ->
  collapse_newlines_from run l = replicate run nl ++ l.
Proof.
  revert run. induction l as [|c l IH]; intros run Hr Hs; simpl.
  - rewrite emit_newlines_small by done. by rewrite app_nil_r.
  - simpl in Hs. destruct (is_nl c) eqn:Ec.
    + apply andb_true_iff in Hs as [Hlt%Nat.ltb_lt Hs].
      rewrite IH by (done || lia). apply is_nl_eq in Ec as ->.
      by rewrite replicate_S_end, <- app_assoc.
    + rewrite IH by (done || lia). by rewrite emit_newlines_small.
Qed.

Lemma short_runs_newlines (k j : nat) (c : ascii) (l : list ascii) :
  k + j <= 2 -> is_nl c = false ->
  short_runs k (replicate j nl ++ c :: l) = short_runs 0 l.
Proof.
  revert k. induction j as [|j IH]; intros k Hk Hc; simpl.
  - by rewrite Hc.
  - rewrite IH by (done || lia).
    replace (S k <? 3) with true; [done |]. symmetry. apply Nat.ltb_lt. lia.
Qed.

Lemma short_runs_emit (run : nat) (c : ascii) (l : list ascii) :
  is_nl c = false ->
  short_runs 0 (emit_newlines run ++ c :: l) = short_runs 0 l.
Proof.
  intros Hc. unfold emit_newlines. destruct (3 <=? run) eqn:E.
  - by apply (short_runs_newlines 0 2).
  - apply Nat.leb_gt in E. apply short_runs_newlines; [lia | done].
Qed.

Lemma collapse_short_runs (run : nat) (l : list ascii) :
  short_runs 0 (collapse_newlines_from run l) = true.
Proof.
  revert run. induction l as [|c l IH]; intros run; simpl.
  - unfold emit_newlines. destruct (3 <=? run) eqn:E; [done |].
    apply Nat.leb_gt in E. by destruct run as [|[|[|?]]]; [..|lia].
  - destruct (is_nl c) eqn:Ec; [apply IH |]. by rewrite short_runs_emit.
Qed.

Lemma short_runs_take (n run : nat) (l : list ascii) :
  short_runs run l = true -> short_runs run (take n l) = true.
Proof.
  revert n run. induction l as [|c l IH]; intros [|n] run Hs; simpl; try done.
  simpl in Hs. destruct (is_nl c); [|by apply IH].
  apply andb_true_iff in Hs as [-> Hs]. by apply IH.
Qed.

Lemma short_runs_app (run : nat) (l : list ascii) (c : ascii) (m : list ascii) :
  short_runs run l = true -> is_nl c = false -> short_runs 0 m = true ->
  short_runs run (l ++ c :: m) = true.
Proof.
  revert run. induction l as [|d l IH]; intros run Hs Hc Hm; simpl.
  - by rewrite Hc.
  - simpl in Hs. destruct (is_nl d); [|by apply IH].
    apply andb_true_iff in Hs as [-> Hs]. by apply IH.
Qed.

Lemma short_runs_no_triple (run : nat) (a b : list ascii) :
  short_runs run (a ++ nl :: nl :: nl :: b) = false.
Proof.
  revert run. induction a as [|c a IH]; intros run.
  - simpl. change (is_nl nl) with true. cbv iota.
    destruct run as [|[|?]]; simpl; try done.
    all: by rewrite ?andb_false_r.
  - simpl. destruct (is_nl c); [|apply IH]. rewrite (IH (S run)). apply andb_false_r.
Qed.

Lemma collapse_no_backtick (run : nat) (l : list ascii) :
  Forall (fun c => c <> backtick) l ->
  Forall (fun c => c <> backtick) (collapse_newlines_from run l).
Proof.
  assert (He : forall r, Forall (fun c => c <> backtick) (emit_newlines r)).
  { intros r. unfold emit_newlines. destruct (3 <=? r).
    - by repeat constructor.
    - by apply Forall_replicate. }
  intros Hl. revert run. induction Hl as [|c l Hc _ IH]; intros run; simpl; [apply He |].
  destruct (is_nl c); [apply IH |].
  apply Forall_app. split; [apply He |]. by constructor.
Qed.

Lemma collapse_snoc (run : nat) (l : list ascii) (c : ascii) :
  is_nl c = false ->
  exists m, collapse_newlines_from run (l ++ [c]) = m ++ [c].
Proof.
  intros Hc. revert run. induction l as [|d l IH]; intros run; simpl.
  - rewrite Hc. exists (emit_newlines run). reflexivity.
  - destruct (is_nl d).
    + apply IH.
    + destruct (IH 0) as [m ->]. exists (emit_newlines run ++ d :: m).
      by rewrite <- app_assoc.
Qed.

Lemma collapse_trimmed (l : list ascii) : trimmed l -> trimmed (collapse_newlines_chars l).
Proof.
  unfold collapse_newlines_chars. intros [Hh Hl]. split.
  - intros c l' E. destruct l as [|d m]; [done |].
    pose proof (Hh d m eq_refl) as Hd. simpl in E.
    destruct (is_nl d) eqn:Ed; [apply is_nl_isspace in Ed; congruence |].
    simpl in E. congruence.
  - intros c l' E. destruct (rev l) as [|d m] eqn:Er.
    { apply (f_equal (@rev ascii)) in Er. rewrite rev_involutive in Er. subst l.
      by destruct l'. }
    apply (f_equal (@rev ascii)) in Er. rewrite rev_involutive in Er. simpl in Er.
    subst l. pose proof (Hl d (rev m) eq_refl) as Hd.
    destruct (collapse_snoc 0 (rev m) d) as [m' Em].
    { destruct (is_nl d) eqn:Ed; [apply is_nl_isspace in Ed; congruence | done]. }
    rewrite Em in E. apply app_inj_tail in E as [_ <-]. done.
Qed.

(** *** The whole of [sanitize_output], on character lists *)

Definition truncation_marker : list ascii := chars "... (truncated)".

Definition cleaned (l : list ascii) : list ascii :=
  collapse_newlines_chars (replace_chars backtick apostrophe (strip_chars l)).

Definition sanitize_chars (l : list ascii) : list ascii :=
  if MAX_MESSAGE_LENGTH <? length (cleaned l)
  then take MAX_MESSAGE_LENGTH (cleaned l) ++ truncation_marker
  else cleaned l.

Lemma sanitize_output_chars (s : string) :
  chars (sanitize_output s) = sanitize_chars (chars s).
Proof.
  unfold sanitize_output, sanitize_chars, cleaned, collapse_newlines, replace, strip,
    slice_to, len.
  rewrite !chars_str. destruct (MAX_MESSAGE_LENGTH <? _).
  - by rewrite chars_app, chars_str.
  - by rewrite chars_str.
Qed.

(** What the three rewriting steps establish and the truncation keeps. *)
Definition tidy (l : list ascii) : Prop :=
  trimmed l /\ Forall (fun c => c <> backtick) l /\ short_runs 0 l = true.

Lemma cleaned_tidy (l : list ascii) : tidy (cleaned l).
Proof.
  unfold cleaned. split; [|split].
  - apply collapse_trimmed, replace_trimmed, strip_trimmed.
  - apply collapse_no_backtick, replace_no_backtick.
  - apply collapse_short_runs.
Qed.

Lemma tidy_cleaned (l : list ascii) : tidy l -> cleaned l = l.
Proof.
  intros (Ht & Hb & Hs). unfold cleaned, collapse_newlines_chars.
  rewrite trimmed_strip, replace_fixed by done.
  by rewrite collapse_fixed by (done || lia).
Qed.

Lemma take_head {A} (n : nat) (l : list A) x m : take n l = x :: m -> exists l', l = x :: l'.
Proof. destruct n, l; simpl; try done. intros [= -> _]. eauto. Qed.

Lemma truncated_tidy (n : nat) (l : list ascii) :
  tidy l -> tidy (take n l ++ truncation_marker).
Proof.
  intros (Ht & Hb & Hs). split; [split | split].
  - intros c l' E. destruct (take n l) as [|d m] eqn:Et.
    + simpl in E. by injection E as <- _.
    + simpl in E. injection E as <- _. apply take_head in Et as [l0 ->].
      by apply (proj1 Ht d l0).
  - intros c l' E.
    change truncation_marker with (chars "... (truncated" ++ [")"%char]) in E.
    rewrite app_assoc in E. by apply app_inj_tail in E as [_ <-].
  - apply Forall_app. split; [by apply Forall_take |].
    by repeat (constructor; [done |]).
  - change truncation_marker with ("."%char :: chars ".. (truncated)").
    apply short_runs_app; [by apply short_runs_take | done | done].
Qed.

Lemma sanitize_tidy (l : list ascii) : tidy (sanitize_chars l).
Proof.
  unfold sanitize_chars. destruct (MAX_MESSAGE_LENGTH <? _).
  - apply truncated_tidy, cleaned_tidy.
  - apply cleaned_tidy.
Qed.

Lemma sanitize_chars_idempotent (l : list ascii) :
  sanitize_chars (sanitize_chars l) = sanitize_chars l.
Proof.
  pose proof (sanitize_tidy l) as Ht.
  unfold sanitize_chars at 1. rewrite (tidy_cleaned _ Ht).
  unfold sanitize_chars. destruct (MAX_MESSAGE_LENGTH <? length (cleaned l)) eqn:E.
  - apply Nat.ltb_lt in E.
    assert (Hlen : length (take MAX_MESSAGE_LENGTH (cleaned l)) = MAX_MESSAGE_LENGTH)
      by (rewrite length_take; lia).
    replace (MAX_MESSAGE_LENGTH <? _) with true.
    + by rewrite take_app_length'.
    + symmetry. apply Nat.ltb_lt. rewrite length_app, Hlen.
      change (length truncation_marker) with 15. lia.
  - by rewrite E.
Qed.

Lemma sanitize_chars_length (l : list ascii) :
  length (sanitize_chars l) <= MAX_MESSAGE_LENGTH + 15.
Proof.
  unfold sanitize_chars. destruct (MAX_MESSAGE_LENGTH <? length (cleaned l)) eqn:E.
  - rewrite length_app, length_take. change (length truncation_marker) with 15. lia.
  - apply Nat.ltb_ge in E. lia.
Qed.

(** C10. [sanitize_output] is idempotent, and its result has no backtick,
    no three newlines in a row, and at most 500 + 15 characters (the
    500 kept plus the marker "... (truncated)"). *)
Theorem sanitize_output_idempotent (x : string) :
  sanitize_output (sanitize_output x) = sanitize_output x
  /\ ~ In backtick (chars (sanitize_output x))
  /\ (forall a b : list ascii, chars (sanitize_output x) <> a ++ [nl; nl; nl] ++ b)
  /\ len (sanitize_output x) <= 515.
Proof.
  pose proof (sanitize_tidy (chars x)) as (_ & Hb & Hs).
  rewrite <- sanitize_output_chars in Hb, Hs.
  split; [|split; [|split]].
  - rewrite <- (str_chars (sanitize_output (sanitize_output x))).
    rewrite !sanitize_output_chars, sanitize_chars_idempotent.
    by rewrite <- sanitize_output_chars, str_chars.
  - intros Hin. rewrite Forall_forall in Hb. apply list_elem_of_In in Hin.
    by apply (Hb backtick).
  - intros a b E. rewrite E in Hs. simpl in Hs.
    by rewrite short_runs_no_triple in Hs.
  - unfold len. rewrite sanitize_output_chars.
    pose proof (sanitize_chars_length (chars x)) as Hl.
    change (MAX_MESSAGE_LENGTH + 15) with (500 + 15) in Hl. lia.
Qed.

End SanitizeProps.

(** ** Input validation *)

Section ValidateProps.
Import PyStr Safety.
Context `{Externals}.

(** The six conditions of [validate_input], in the words of its comments. *)
Definition kept_requests (now : Q) (store : gmap string (list Q)) (ip : string) : list Q :=
  List.filter (fun t => Qltb (now - t) 60) (rate_limit_entries store ip).

Definition rate_limited (now : Q) (store : gmap string (list Q)) (ip : string) : bool :=
  RATE_LIMIT_RPM <=? length (kept_requests now store ip).

Definition is_empty_diff (diff : string) : bool :=
  negb (py_truth (VStr diff)) || String.eqb (strip diff) EmptyString.

Definition size_kb (diff : string) : Q := (inject_Z (Z.of_nat (utf8_len diff)) / 1024)%Q.

Definition too_large (diff : string) : bool := Qgtb (size_kb diff) MAX_DIFF_SIZE_KB.

Definition too_many_lines (diff : string) : bool :=
  MAX_DIFF_LINES <? length (split nl diff).

Definition lacks_markers (diff : string) : bool :=
  negb (existsb (fun line => startswith_any line DIFF_MARKERS) (take 20 (split nl diff))).

Definition has_sensitive_data (diff : string) : bool :=
  existsb (fun pattern => re_search pattern diff) SENSITIVE_PATTERNS.

(** The parts of the result. *)
Definition is_valid_of (r : (bool * string * metadata) * gmap string (list Q)) : bool :=
  r.1.1.1.
Definition message_of (r : (bool * string * metadata) * gmap string (list Q)) : string :=
  r.1.1.2.
Definition metadata_of (r : (bool * string * metadata) * gmap string (list Q)) : metadata :=
  r.1.2.
Definition store_of (r : (bool * string * metadata) * gmap string (list Q))
    : gmap string (list Q) := r.2.

Lemma check_rate_limit_rejects now store ip :
  rate_limited now store ip = true ->
  (_check_rate_limit now store ip).1.1 = false
  /\ (_check_rate_limit now store ip).2 = <[ip := kept_requests now store ip]> store.
Proof.
  unfold rate_limited, _check_rate_limit, kept_requests. by intros ->.
Qed.

Lemma check_rate_limit_admits now store ip :
  rate_limited now store ip = false ->
  (_check_rate_limit now store ip).1.1 = true
  /\ (_check_rate_limit now store ip).2 = <[ip := kept_requests now store ip ++ [now]]> store.
Proof.
  unfold rate_limited, _check_rate_limit, kept_requests. intros ->. simpl.
  by rewrite insert_insert_eq.
Qed.

Lemma kept_requests_recent now store ip t :
  In t (kept_requests now store ip)
  <-> In t (rate_limit_entries store ip) /\ (now - t < 60)%Q.
Proof. unfold kept_requests. by rewrite filter_In, Qltb_true. Qed.

Lemma validate_input_unfold now_iso now store diff ip :
  validate_input now_iso now store diff ip =
  let base := {| validation_time := now_iso; ip_address := ip;
                 checks_performed := []; diff_size_kb := None;
                 line_count := None; sensitive_data_detected := None |} in
  let rl := _check_rate_limit now store ip in
  let m1 := add_check "rate_limit" base in
  if rate_limited now store ip then ((false, rl.1.2, m1), rl.2) else
  if is_empty_diff diff then
    ((false, "Error: Diff is empty. Please provide a valid git diff.",
      add_check "empty_check" m1), rl.2) else
  let m3 := add_check "size_limit" (set_diff_size_kb (py_round (size_kb diff) 2) m1) in
  if too_large diff then
    ((false,
      "Error: Diff size (" +:+ format_float ".2f" (size_kb diff) +:+ " KB) exceeds maximum "
      +:+ "allowed size (" +:+ pretty (Qfloor MAX_DIFF_SIZE_KB) +:+ " KB). "
      +:+ "Please reduce the diff size or split into multiple commits.", m3), rl.2) else
  let m4 := add_check "line_count" (set_line_count (length (split nl diff)) m3) in
  if too_many_lines diff then
    ((false,
      "Error: Diff has " +:+ pretty (length (split nl diff)) +:+ " lines, exceeding maximum "
      +:+ "of " +:+ pretty MAX_DIFF_LINES +:+ " lines. Consider splitting into smaller commits.",
      m4), rl.2) else
  let m5 := add_check "format_validation" m4 in
  if lacks_markers diff then
    ((false,
      "Warning: Input does not appear to be a valid git diff. "
      +:+ "Expected diff markers (@@, +++, ---, +, -) not found. "
      +:+ "Results may be inaccurate.", m5), rl.2) else
  let m6 := set_sensitive_data_detected (has_sensitive_data diff)
              (add_check "sensitive_data" m5) in
  if has_sensitive_data diff then ((false, (_check_sensitive_data diff).2, m6), rl.2) else
  ((true, "Input validation passed", add_check "all_passed" m6), rl.2).
Proof.
  unfold validate_input.
  destruct (rate_limited now store ip) eqn:Erl.
  - destruct (check_rate_limit_rejects _ _ _ Erl) as [E1 E2].
    destruct (_check_rate_limit now store ip) as [[a m] st].
    cbn [fst snd] in *. subst a st. reflexivity.
  - destruct (check_rate_limit_admits _ _ _ Erl) as [E1 E2].
    destruct (_check_rate_limit now store ip) as [[a m] st].
    cbn [fst snd] in *. subst a st. cbv beta iota zeta. cbn [negb].
    fold (is_empty_diff diff). destruct (is_empty_diff diff); [done |].
    fold (size_kb diff). fold (too_large diff). destruct (too_large diff); [done |].
    fold (too_many_lines diff). destruct (too_many_lines diff); [done |].
    fold (lacks_markers diff). destruct (lacks_markers diff); [done |].
    unfold _check_sensitive_data. fold (has_sensitive_data diff).
    by destruct (has_sensitive_data diff).
Qed.

(** C9. [validate_input] runs its checks in the order rate limit, empty
    content, size in KB, line count, diff markers in the first 20 lines,
    sensitive data.  The first check that fails decides: the result is
    [False] with that check's reason, [checks_performed] ends with that
    check, and the metadata keys that later checks would write are still
    unset.  The result is [True] exactly when no check fails.  The rate
    limiter keeps, for the client, the recorded times less than 60 seconds
    old; it rejects when [RATE_LIMIT_RPM] or more remain and otherwise
    records the current time; other clients are untouched.  A match of a
    sensitive-data pattern always gives [False], and the reason is then one
    of the fixed texts: the result never carries a rewritten diff. *)
Theorem validate_input_order (now_iso : string) (now : Q) (store : gmap string (list Q))
    (diff ip : string) :
  let r := validate_input now_iso now store diff ip in
  let md := metadata_of r in
  let kept := kept_requests now store ip in
  (forall t, In t kept <-> In t (rate_limit_entries store ip) /\ (now - t < 60)%Q)
  /\ (rate_limited now store ip = (RATE_LIMIT_RPM <=? length kept))
  /\ (rate_limited now store ip = true ->
      store_of r !! ip = Some kept
      /\ is_valid_of r = false
      /\ message_of r = (_check_rate_limit now store ip).1.2
      /\ checks_performed md = ["rate_limit"]
      /\ diff_size_kb md = None /\ line_count md = None
      /\ sensitive_data_detected md = None)
  /\ (rate_limited now store ip = false -> store_of r !! ip = Some (kept ++ [now]))
  /\ (forall ip', ip' <> ip -> store_of r !! ip' = store !! ip')
  /\ (rate_limited now store ip = false -> is_empty_diff diff = true ->
      is_valid_of r = false
      /\ message_of r = "Error: Diff is empty. Please provide a valid git diff."
      /\ checks_performed md = ["rate_limit"; "empty_check"]
      /\ diff_size_kb md = None /\ line_count md = None
      /\ sensitive_data_detected md = None)
  /\ (rate_limited now store ip = false -> is_empty_diff diff = false ->
      too_large diff = true ->
      is_valid_of r = false
      /\ message_of r =
           "Error: Diff size (" +:+ format_float ".2f" (size_kb diff)
           +:+ " KB) exceeds maximum allowed size (100 KB). "
           +:+ "Please reduce the diff size or split into multiple commits."
      /\ checks_performed md = ["rate_limit"; "size_limit"]
      /\ line_count md = None /\ sensitive_data_detected md = None)
  /\ (rate_limited now store ip = false -> is_empty_diff diff = false ->
      too_large diff = false -> too_many_lines diff = true ->
      is_valid_of r = false
      /\ message_of r =
           "Error: Diff has " +:+ pretty (length (split nl diff))
           +:+ " lines, exceeding maximum of 1000 lines. "
           +:+ "Consider splitting into smaller commits."
      /\ checks_performed md = ["rate_limit"; "size_limit"; "line_count"]
      /\ sensitive_data_detected md = None)
  /\ (rate_limited now store ip = false -> is_empty_diff diff = false ->
      too_large diff = false -> too_many_lines diff = false ->
      lacks_markers diff = true ->
      is_valid_of r = false
      /\ message_of r =
           "Warning: Input does not appear to be a valid git diff. "
           +:+ "Expected diff markers (@@, +++, ---, +, -) not found. "
           +:+ "Results may be inaccurate."
      /\ checks_performed md =
           ["rate_limit"; "size_limit"; "line_count"; "format_validation"]
      /\ sensitive_data_detected md = None)
  /\ (rate_limited now store ip = false -> is_empty_diff diff = false ->
      too_large diff = false -> too_many_lines diff = false ->
      lacks_markers diff = false -> has_sensitive_data diff = true ->
      is_valid_of r = false
      /\ message_of r = (_check_sensitive_data diff).2
      /\ checks_performed md =
           ["rate_limit"; "size_limit"; "line_count"; "format_validation"; "sensitive_data"]
      /\ sensitive_data_detected md = Some true)
  /\ (is_valid_of r = true <->
      rate_limited now store ip = false /\ is_empty_diff diff = false
      /\ too_large diff = false /\ too_many_lines diff = false
      /\ lacks_markers diff = false /\ has_sensitive_data diff = false)
  /\ (is_valid_of r = true ->
      message_of r = "Input validation passed"
      /\ checks_performed md =
           ["rate_limit"; "size_limit"; "line_count"; "format_validation";
            "sensitive_data"; "all_passed"]
      /\ sensitive_data_detected md = Some false)
  /\ (has_sensitive_data diff = true -> is_valid_of r = false).
Proof.
  intros r md kept.
  assert (Hstore : store_of r = (_check_rate_limit now store ip).2).
  { subst r. rewrite validate_input_unfold. cbv zeta.
    repeat match goal with |- context [if ?b then _ else _] => destruct b end;
      reflexivity. }
  split; [apply kept_requests_recent |]. split; [reflexivity |].
  split; [| split; [| split]].
  - intros Erl. split.
    + rewrite Hstore, (proj2 (check_rate_limit_rejects _ _ _ Erl)). apply lookup_insert_eq.
    + subst md r. rewrite validate_input_unfold. cbv zeta. rewrite Erl. by repeat split.
  - intros Erl.
    rewrite Hstore, (proj2 (check_rate_limit_admits _ _ _ Erl)). apply lookup_insert_eq.
  - intros ip' Hne. rewrite Hstore.
    destruct (rate_limited now store ip) eqn:Erl.
    + rewrite (proj2 (check_rate_limit_rejects _ _ _ Erl)). by apply lookup_insert_ne.
    + rewrite (proj2 (check_rate_limit_admits _ _ _ Erl)). by apply lookup_insert_ne.
  - subst md r. rewrite validate_input_unfold. cbv zeta.
    unfold is_valid_of, message_of, metadata_of.
    destruct (rate_limited now store ip), (is_empty_diff diff), (too_large diff),
      (too_many_lines diff), (lacks_markers diff), (has_sensitive_data diff);
      cbn [fst snd];
      repeat split; intros; try done; try (exfalso; intuition congruence);
      intuition congruence.
Qed.

End ValidateProps.

Section ValidateWitness.
Import PyStr Safety Sample.

Definition sample_diff : string :=
  "diff --git a/utils.py b/utils.py" +:+ String nl
    ("@@ -10,7 +10,7 @@" +:+ String nl
      ("-total += item.price" +:+ String nl "+total += item.price * item.quantity")).

Definition secret_diff : string :=
  "+++ b/settings.py" +:+ String nl "+password='hunter2'".

Lemma validate_input_order_witness :
  let H := sample_externals in
  let full : gmap string (list Q) := {["10.0.0.1" := replicate 60 100%Q]} in
  (* a client at its cap is rejected by the first check *)
  is_valid_of (validate_input "t" 130 full sample_diff "10.0.0.1") = false
  (* ... and admitted again once its requests are a minute old *)
  /\ store_of (validate_input "t" 160 full sample_diff "10.0.0.1") !! "10.0.0.1"
     = Some [160%Q]
  /\ is_valid_of (validate_input "t" 0 ∅ "   " "c") = false
  /\ is_valid_of (validate_input "t" 0 ∅ "just some text" "c") = false
  /\ is_valid_of (validate_input "t" 0 ∅ secret_diff "c") = false
  /\ is_valid_of (validate_input "t" 0 ∅ sample_diff "c") = true.
Proof.
  intros H full.
  split.
  { destruct (validate_input_order "t" 130 full sample_diff "10.0.0.1")
      as (_ & _ & T & _).
    apply T. by vm_compute. }
  split.
  { destruct (validate_input_order "t" 160 full sample_diff "10.0.0.1")
      as (_ & _ & _ & T & _).
    rewrite T; by vm_compute. }
  split.
  { destruct (validate_input_order "t" 0 ∅ "   " "c") as (_ & _ & _ & _ & _ & T & _).
    apply T; by vm_compute. }
  split.
  { destruct (validate_input_order "t" 0 ∅ "just some text" "c")
      as (_ & _ & _ & _ & _ & _ & _ & _ & T & _).
    apply T; by vm_compute. }
  split.
  { destruct (validate_input_order "t" 0 ∅ secret_diff "c")
      as (_ & _ & _ & _ & _ & _ & _ & _ & _ & T & _).
    apply T; by vm_compute. }
  destruct (validate_input_order "t" 0 ∅ sample_diff "c")
    as (_ & _ & _ & _ & _ & _ & _ & _ & _ & _ & T & _).
  apply T. by vm_compute.
Defined.

End ValidateWitness.

(** ** True division of two lengths *)

Section QuotientProps.
Import EvaluateSimple.

Lemma Qnat_pos (k : nat) : 0 < k -> (0 < Qnat k)%Q.
Proof.
  intros Hk. unfold Qnat. change 0%Q with (inject_Z 0). rewrite <- Zlt_Qlt. lia.
Qed.

Lemma Qnat_ratio_self (k : nat) : 0 < k -> (Qnat k / Qnat k == 1)%Q.
Proof. intros Hk%Qnat_pos. field. lra. Qed.

Lemma Qnat_ratio_range (a b : nat) :
  a <= b -> 0 < b -> (0 <= Qnat a / Qnat b <= 1)%Q.
Proof.
  intros Hab Hb. apply Qnat_pos in Hb as Hq.
  assert (Hn : (0 <= Qnat a <= Qnat b)%Q).
  { unfold Qnat. rewrite <- !Zle_Qle. change 0%Q with (inject_Z 0).
    rewrite <- Zle_Qle. lia. }
  split.
  - apply Qle_shift_div_l; [done | lra].
  - apply Qle_shift_div_r; [done | lra].
Qed.

Lemma len_truediv_eq (a b : nat) : len_truediv a b = fl (Qnat a / Qnat b).
Proof. reflexivity. Qed.

Lemma len_truediv_self (k : nat) : 0 < k -> len_truediv k k = 1%Q.
Proof.
  intros Hk. rewrite len_truediv_eq. transitivity (fl 1); [| apply fl_1].
  apply fl_comp. by apply Qnat_ratio_self.
Qed.

Lemma len_truediv_zero (b : nat) : len_truediv 0 b = 0%Q.
Proof.
  rewrite len_truediv_eq. transitivity (fl 0); [| apply fl_0].
  apply fl_comp. unfold Qnat. simpl. unfold Qdiv. ring.
Qed.

Lemma len_truediv_range (a b : nat) :
  a <= b -> 0 < b -> (0 <= len_truediv a b <= 1)%Q.
Proof.
  intros Hab Hb. destruct (Qnat_ratio_range a b Hab Hb) as [Hlo Hhi].
  rewrite len_truediv_eq. split; [by apply fl_nonneg |].
  rewrite <- fl_1. by apply fl_mono.
Qed.

(** The quotient of two lengths is within [2 ^ -53] of the exact ratio. *)
Lemma len_truediv_close (a b : nat) :
  a <= b -> 0 < b ->
  (Qnat a / Qnat b - unit_roundoff <= len_truediv a b
   <= Qnat a / Qnat b + unit_roundoff)%Q.
Proof.
  intros Hab Hb. destruct (Qnat_ratio_range a b Hab Hb) as [Hlo Hhi].
  rewrite len_truediv_eq.
  pose proof (fl_close (Qnat a / Qnat b) 0) as Hc.
  change (2 ^ (0 - 53))%Q with unit_roundoff in Hc. apply Hc; [lia | done |].
  change (2 ^ (0 + 1))%Q with 2%Q. lra.
Qed.

End QuotientProps.

(** ** Grounding check *)

Section HallucinationProps.
Import PyStr EvaluateSimple.
Context `{Externals}.

Lemma check_token_bound diff_tokens (st : list string * nat) token :
  length st.1 <= st.2 ->
  length (check_token diff_tokens st token).1 <= (check_token diff_tokens st token).2.
Proof.
  destruct st as [u n]. unfold check_token. simpl. intros Hle.
  destruct (bool_decide _); [done |].
  destruct (negb _); simpl; rewrite ?length_app; simpl; lia.
Qed.

Lemma scan_tokens_bound message_tokens diff_tokens :
  length (scan_tokens message_tokens diff_tokens).1
  <= (scan_tokens message_tokens diff_tokens).2.
Proof.
  unfold scan_tokens.
  assert (Hgen : forall st, length st.1 <= st.2 ->
            length (fold_left (check_token diff_tokens) message_tokens st).1
            <= (fold_left (check_token diff_tokens) message_tokens st).2).
  { induction message_tokens as [|t ts IH]; intros st Hst; simpl; [done |].
    apply IH. by apply check_token_bound. }
  apply Hgen. simpl. lia.
Qed.

(** The scan that both evaluators run on a message and a diff. *)
Definition scanned (message diff : string) : list string * nat :=
  scan_tokens (_extract_meaningful_tokens message) (_extract_diff_tokens diff).

Lemma hallucination_report_eq threshold message diff :
  hallucination_report threshold message diff =
  let ungrounded := (scanned message diff).1 in
  let total := (scanned message diff).2 in
  let rate := hallucination_rate_of ungrounded total in
  [ ("detected", VBool (Qgtb rate (fl threshold)));
    ("hallucination_rate", VFloat (py_round rate 4));
    ("ungrounded_tokens", VList (map VStr ungrounded));
    ("total_tokens_checked", VInt (Z.of_nat total)) ].
Proof.
  unfold hallucination_report, scanned.
  by destruct (scan_tokens _ _) as [u n].
Qed.

(** Comparing the double of a ratio of two lengths with the double of a
    cut-off [thr] gives what the exact comparison gives, as soon as every
    ratio above [thr] is above it by [gap], and [gap] exceeds the two
    rounding errors; [2 ^ (k + 1)] is a power of two above [thr]. *)
Lemma flag_on_ratio (a b : nat) (thr gap : Q) (k : Z) :
  a <= b -> 0 < b -> (-1022 <= k)%Z ->
  ((thr < Qnat a / Qnat b)%Q -> (thr + gap <= Qnat a / Qnat b)%Q) ->
  (fl thr < thr + gap - 2 ^ (k - 53))%Q ->
  (fl thr < fl (2 ^ (k + 1)))%Q ->
  Qgtb (len_truediv a b) (fl thr) = Qgtb (Qnat a / Qnat b) thr.
Proof.
  intros Hab Hb Hk Hgap Hthr Hpow. rewrite len_truediv_eq.
  destruct (Qnat_ratio_range a b Hab Hb) as [Hlo Hhi].
  set (x := (Qnat a / Qnat b)%Q) in *.
  destruct (Qlt_le_dec thr x) as [Habove|Hbelow].
  - rewrite (proj2 (Qgtb_true x thr)) by done. apply Qgtb_true.
    specialize (Hgap Habove).
    destruct (Qlt_le_dec x (2 ^ (k + 1))) as [Hsmall|Hlarge].
    + pose proof (fl_close x k Hk Hlo Hsmall) as [Hc _].
      set (h := (2 ^ (k - 53))%Q) in *. clearbody h. clear Hsmall Hpow. lra.
    + apply fl_mono in Hlarge. lra.
  - rewrite (proj2 (Qgtb_false x thr)) by done. apply Qgtb_false. by apply fl_mono.
Qed.

(** A ratio of two lengths above 1/10 (or 3/20) is above it by 1/(10 b)
    (or 1/(20 b)). *)
Lemma ratio_gap (a b : nat) (p q : Z) :
  0 < b -> (Z.of_nat b < 2 ^ 50)%Z -> (0 < q)%Z ->
  (inject_Z p / inject_Z q < Qnat a / Qnat b)%Q ->
  (inject_Z p / inject_Z q + 1 / (inject_Z q * inject_Z (2 ^ 50)) <= Qnat a / Qnat b)%Q.
Proof.
  intros Hb Hlt Hq Habove. apply Qnat_pos in Hb as HB.
  assert (HQ : (0 < inject_Z q)%Q) by (change 0%Q with (inject_Z 0); by rewrite <- Zlt_Qlt).
  assert (Hz : (p * Z.of_nat b + 1 <= q * Z.of_nat a)%Z).
  { assert (p * Z.of_nat b < q * Z.of_nat a)%Z; [| lia].
    rewrite Zlt_Qlt, !inject_Z_mult. fold (Qnat a) (Qnat b).
    apply (Qmult_lt_r _ _ (Qnat b * inject_Z q)) in Habove; [| nra].
    assert (E1 : (inject_Z p / inject_Z q * (Qnat b * inject_Z q) == inject_Z p * Qnat b)%Q)
      by (field; lra).
    assert (E2 : (Qnat a / Qnat b * (Qnat b * inject_Z q) == inject_Z q * Qnat a)%Q)
      by (field; lra).
    by rewrite E1, E2 in Habove. }
  rewrite Zle_Qle, inject_Z_plus, !inject_Z_mult in Hz. fold (Qnat a) (Qnat b) in Hz.
  change (inject_Z 1) with 1%Q in Hz.
  rewrite Zlt_Qlt in Hlt. fold (Qnat b) in Hlt.
  set (P := inject_Z p) in *. set (Qq := inject_Z q) in *.
  set (A := Qnat a) in *. set (B := Qnat b) in *. set (T := inject_Z (2 ^ 50)) in *.
  assert (HT : (0 < T)%Q) by (subst T; reflexivity).
  apply Qle_shift_div_l; [done |].
  assert (E : ((P / Qq + 1 / (Qq * T)) * B == (P * B + B / T) / Qq)%Q) by (field; lra).
  rewrite E. apply Qle_shift_div_r; [done |].
  assert (HBT : (B / T <= 1)%Q) by (apply Qle_shift_div_r; [done | lra]).
  lra.
Qed.

(** C1, as the code has it.  Both evaluators report the list [ungrounded]
    of ungrounded tokens and the number [total] of tokens checked that the
    scan of the message against the diff yields, with at most [total]
    ungrounded tokens.  When [total > 0] the ratio is the float
    [len(ungrounded) / total], the double nearest to the exact quotient
    (so within 2^-53 of it); the rate field is that double rounded to 4
    decimals (so within 0.00005 of it), and the flag compares the double
    itself, before rounding, with the double of the cut-off: 0.10 in
    [evaluate_simple.py], 0.15 in [evaluate.py].  For fewer than 2^50
    checked tokens the flag is the exact comparison of the quotient with
    the cut-off.  When [total = 0] the rate field is 0 and the flag is
    false. *)
Theorem hallucination_report_fields (message diff : string) :
  let simple := EvaluateSimple.detect_hallucination message diff in
  let phase3 := Evaluate.detect_hallucination message diff in
  let ungrounded := (scanned message diff).1 in
  let total := (scanned message diff).2 in
  let exact := (Qnat (length ungrounded) / Qnat total)%Q in
  let ratio := len_truediv (length ungrounded) total in
  length ungrounded <= total
  /\ dict_lookup simple "ungrounded_tokens" = Some (VList (map VStr ungrounded))
  /\ dict_lookup phase3 "ungrounded_tokens" = Some (VList (map VStr ungrounded))
  /\ dict_lookup simple "total_tokens_checked" = Some (VInt (Z.of_nat total))
  /\ dict_lookup phase3 "total_tokens_checked" = Some (VInt (Z.of_nat total))
  /\ (0 < total ->
      dict_lookup simple "hallucination_rate" = Some (VFloat (py_round ratio 4))
      /\ dict_lookup phase3 "hallucination_rate" = Some (VFloat (py_round ratio 4))
      /\ ratio = fl exact
      /\ (exact - unit_roundoff <= ratio <= exact + unit_roundoff)%Q
      /\ (ratio - 0.00005 <= py_round ratio 4 <= ratio + 0.00005)%Q
      /\ dict_lookup simple "detected" = Some (VBool (Qgtb ratio (fl 0.10)))
      /\ dict_lookup phase3 "detected" = Some (VBool (Qgtb ratio (fl 0.15)))
      /\ ((Z.of_nat total < 2 ^ 50)%Z ->
          Qgtb ratio (fl 0.10) = Qgtb exact 0.10
          /\ Qgtb ratio (fl 0.15) = Qgtb exact 0.15))
  /\ (total = 0 ->
      dict_lookup simple "hallucination_rate" = Some (VFloat 0)
      /\ dict_lookup phase3 "hallucination_rate" = Some (VFloat 0)
      /\ dict_lookup simple "detected" = Some (VBool false)
      /\ dict_lookup phase3 "detected" = Some (VBool false)).
Proof.
  intros simple phase3 ungrounded total exact ratio. subst simple phase3.
  unfold EvaluateSimple.detect_hallucination, Evaluate.detect_hallucination.
  rewrite !hallucination_report_eq. cbv zeta. fold ungrounded total.
  pose proof (scan_tokens_bound (_extract_meaningful_tokens message)
                (_extract_diff_tokens diff)) as Hbound.
  fold (scanned message diff) in Hbound. fold ungrounded total in Hbound.
  split; [done |].
  repeat (split; [reflexivity |]).
  unfold hallucination_rate_of. split.
  - intros Hpos. destruct (_ =? 0) eqn:E; [apply Nat.eqb_eq in E; lia |].
    fold ratio.
    split; [reflexivity |]. split; [reflexivity |]. split; [reflexivity |].
    split; [by apply len_truediv_close |].
    split.
    { pose proof (py_round_close ratio 4) as Hc. cbv zeta in Hc.
      change (1 / (2 * inject_Z (10 ^ Z.of_nat 4)))%Q with (1 # 20000)%Q in Hc.
      lra. }
    split; [reflexivity |]. split; [reflexivity |].
    intros Hsmall. split.
    + apply (flag_on_ratio _ _ 0.10 (1 / (inject_Z 10 * inject_Z (2 ^ 50))) (-4));
        [done | done | lia | | by vm_compute | by vm_compute].
      intros Habove.
      pose proof (ratio_gap (length ungrounded) total 1 10 Hpos Hsmall eq_refl) as Hg.
      assert (E10 : (0.10 == inject_Z 1 / inject_Z 10)%Q) by reflexivity.
      rewrite E10. apply Hg. by rewrite <- E10.
    + apply (flag_on_ratio _ _ 0.15 (1 / (inject_Z 20 * inject_Z (2 ^ 50))) (-3));
        [done | done | lia | | by vm_compute | by vm_compute].
      intros Habove.
      pose proof (ratio_gap (length ungrounded) total 3 20 Hpos Hsmall eq_refl) as Hg.
      assert (E15 : (0.15 == inject_Z 3 / inject_Z 20)%Q) by reflexivity.
      rewrite E15. apply Hg. by rewrite <- E15.
  - intros ->. repeat split; by vm_compute.
Qed.

End HallucinationProps.

Section HallucinationExamples.
Import PyStr EvaluateSimple Sample.

(** [n] copies of a word, each followed by a blank. *)
Fixpoint repeat_word (n : nat) (w : string) : string :=
  match n with
  | 0 => EmptyString
  | S n' => w +:+ " " +:+ repeat_word n' w
  end.

Lemma hallucination_report_fields_witness :
  let H := sample_externals in
  let report := EvaluateSimple.detect_hallucination "alpha beta gamma" "+alpha" in
  dict_lookup report "hallucination_rate" = Some (VFloat 0.6667)
  /\ dict_lookup report "detected" = Some (VBool true)
  /\ dict_lookup (EvaluateSimple.detect_hallucination "fix bug" "+alpha") "detected"
     = Some (VBool false).
Proof.
  intros H report. subst report. split; [| split].
  - destruct (hallucination_report_fields "alpha beta gamma" "+alpha")
      as (_ & _ & _ & _ & _ & T & _).
    destruct T as (T & _); [vm_compute; lia |]. rewrite T. by vm_compute.
  - destruct (hallucination_report_fields "alpha beta gamma" "+alpha")
      as (_ & _ & _ & _ & _ & T & _).
    destruct T as (_ & _ & _ & _ & _ & T & _); [vm_compute; lia |]. rewrite T. by vm_compute.
  - destruct (hallucination_report_fields "fix bug" "+alpha")
      as (_ & _ & _ & _ & _ & _ & T).
    destruct T as (_ & _ & T & _); [by vm_compute |]. rewrite T. by vm_compute.
Defined.

(** C1 as stated fails.  For the message "alpha beta gamma" and the diff
    "+alpha" two of three checked tokens are ungrounded, and the rate field
    is 0.6667, not 2/3.  For a message of 2009 checked tokens of which 201
    are ungrounded the flag of [evaluate_simple.py] is set (201/2009 >
    0.10) although the rate field, 0.1, is not above 0.10; likewise in
    [evaluate.py] for 152 ungrounded tokens of 1013 and the cut-off 0.15. *)
Lemma rate_field_is_rounded :
  let H := sample_externals in
  let report := EvaluateSimple.detect_hallucination "alpha beta gamma" "+alpha" in
  let long := EvaluateSimple.detect_hallucination
                (repeat_word 1808 "alpha" +:+ repeat_word 201 "beta") "+alpha" in
  let long3 := Evaluate.detect_hallucination
                 (repeat_word 861 "alpha" +:+ repeat_word 152 "beta") "+alpha" in
  dict_lookup report "ungrounded_tokens" = Some (VList [VStr "beta"; VStr "gamma"])
  /\ dict_lookup report "total_tokens_checked" = Some (VInt 3)
  /\ dict_lookup report "hallucination_rate" = Some (VFloat 0.6667)
  /\ ~ (0.6667 == 2 / 3)%Q
  /\ dict_lookup long "total_tokens_checked" = Some (VInt 2009)
  /\ dict_lookup long "hallucination_rate" = Some (VFloat 0.1)
  /\ dict_lookup long "detected" = Some (VBool true)
  /\ Qgtb 0.1 0.10 = false
  /\ dict_lookup long3 "total_tokens_checked" = Some (VInt 1013)
  /\ dict_lookup long3 "hallucination_rate" = Some (VFloat (3 # 20))
  /\ dict_lookup long3 "detected" = Some (VBool true)
  /\ Qgtb (3 # 20) 0.15 = false.
Proof.
  intros H report long long3.
  assert (Hlong : long = [ ("detected", VBool true); ("hallucination_rate", VFloat 0.1);
                          ("ungrounded_tokens", VList (replicate 201 (VStr "beta")));
                          ("total_tokens_checked", VInt 2009) ]) by (vm_compute; reflexivity).
  assert (Hlong3 : long3 = [ ("detected", VBool true); ("hallucination_rate", VFloat (3 # 20));
                            ("ungrounded_tokens", VList (replicate 152 (VStr "beta")));
                            ("total_tokens_checked", VInt 1013) ]) by (vm_compute; reflexivity).
  rewrite Hlong, Hlong3. subst report.
  repeat (split; [vm_compute; first [reflexivity | discriminate] |]).
  vm_compute; reflexivity.
Qed.

(** The rate field rounds the double of the quotient, not the quotient:
    1/160 is 0.00625, its double lies above it and the field is 0.0063;
    3/160 is 0.01875, its double lies below it and the field is 0.0187. *)
Example rate_of_a_tie :
  let H := sample_externals in
  let one := EvaluateSimple.detect_hallucination
               (repeat_word 159 "alpha" +:+ "beta") "+alpha" in
  let three := EvaluateSimple.detect_hallucination
                 (repeat_word 157 "alpha" +:+ "beta beta beta") "+alpha" in
  dict_lookup one "total_tokens_checked" = Some (VInt 160)
  /\ dict_lookup one "ungrounded_tokens" = Some (VList [VStr "beta"])
  /\ dict_lookup one "hallucination_rate" = Some (VFloat 0.0063)
  /\ (1 # 160 < len_truediv 1 160)%Q
  /\ dict_lookup three "total_tokens_checked" = Some (VInt 160)
  /\ dict_lookup three "hallucination_rate" = Some (VFloat 0.0187)
  /\ (len_truediv 3 160 < 3 # 160)%Q.
Proof.
  intros H one three. subst one three.
  repeat (split; [by vm_compute |]). by vm_compute.
Qed.

End HallucinationExamples.

(** ** ROUGE on a candidate equal to the reference *)

Section RougeProps.
Import PyStr EvaluateSimple.
Context `{Externals}.

Lemma size_list_to_set_disj `{Countable A} (l : list A) :
  size (list_to_set_disj l : gmultiset A) = length l.
Proof.
  induction l as [|x l IH]; [done |].
  by rewrite list_to_set_disj_cons, gmultiset_size_disj_union, gmultiset_size_singleton, IH.
Qed.

Lemma intersection_self `{Countable A} (X : gmultiset A) : X ∩ X = X.
Proof. multiset_solver. Qed.

Lemma get_ngrams_size (tokens : list string) (n : nat) :
  size (_get_ngrams tokens n) = length tokens + 1 - n.
Proof.
  unfold _get_ngrams. by rewrite size_list_to_set_disj, length_map, length_seq.
Qed.

(** [_rouge_n] of a sequence against itself: 1 when there is an n-gram,
    0 when the sequence is too short to have one. *)
Lemma rouge_n_self (tokens : list string) (n : nat) :
  (n <= length tokens -> _rouge_n tokens tokens n = 1%Q)
  /\ (length tokens < n -> _rouge_n tokens tokens n = 0%Q).
Proof.
  unfold _rouge_n. rewrite intersection_self, get_ngrams_size. split; intros Hn.
  - destruct (_ =? 0) eqn:E; [apply Nat.eqb_eq in E; lia |].
    destruct (0 <? _) eqn:E'; [| apply Nat.ltb_ge in E'; lia].
    apply len_truediv_self. lia.
  - destruct (_ =? 0) eqn:E; [done |]. apply Nat.eqb_neq in E. lia.
Qed.

(** *** The table of [_lcs] on equal sequences *)

Definition dp_shape (m n : nat) (dp : list (list nat)) : Prop :=
  length dp = S m /\ Forall (fun row => length row = S n) dp.

Lemma dp_set_shape m n dp i j v : dp_shape m n dp -> dp_shape m n (dp_set dp i j v).
Proof.
  intros [Hl Hr]. unfold dp_set. split; [by rewrite length_alter |].
  apply Forall_alter; [done |]. intros row _ Hrow. by rewrite length_insert.
Qed.

Lemma dp_get_set_same m n dp i j v :
  dp_shape m n dp -> i <= m -> j <= n -> dp_get (dp_set dp i j v) i j = v.
Proof.
  intros [Hl Hr] Hi Hj. unfold dp_get, dp_set. rewrite list_lookup_alter_eq.
  destruct (lookup_lt_is_Some_2 dp i) as [row Hrow]; [lia |].
  rewrite Hrow. simpl.
  rewrite Forall_forall in Hr.
  assert (length row = S n) by (apply Hr; by eapply list_elem_of_lookup_2).
  rewrite list_lookup_insert_eq by lia. done.
Qed.

Lemma dp_get_set_other dp i j v i' j' :
  i' <> i \/ j' <> j -> dp_get (dp_set dp i j v) i' j' = dp_get dp i' j'.
Proof.
  intros Hne. unfold dp_get, dp_set.
  destruct (decide (i' = i)) as [->|Hi].
  - rewrite list_lookup_alter_eq. destruct (dp !! i) as [row|]; simpl; [|done].
    rewrite list_lookup_insert_ne; [done | intuition].
  - by rewrite list_lookup_alter_ne.
Qed.

Lemma fold_left_seq_invariant {A} (f : A -> nat -> A) (P : nat -> A -> Prop) (a : A) (n : nat) :
  P 0 a ->
  (forall k x, k < n -> P k x -> P (S k) (f x (S k))) ->
  P n (fold_left f (seq 1 n) a).
Proof.
  intros H0 Hstep. induction n as [|n IH]; [done |].
  rewrite seq_S, fold_left_app. simpl. apply Hstep; [lia |].
  apply IH. intros k x Hk. apply Hstep. lia.
Qed.

Lemma lcs_row_diagonal (l : list string) (dp : list (list nat)) (i : nat) :
  let m := length l in
  i < m -> dp_shape m m dp -> (forall k, k <= i -> dp_get dp k k = k) ->
  dp_shape m m (lcs_row l l dp (S i))
  /\ (forall k, k <= S i -> dp_get (lcs_row l l dp (S i)) k k = k).
Proof.
  intros m Hi Hshape Hdiag. unfold lcs_row.
  pose (P := fun (j : nat) (d : list (list nat)) =>
    dp_shape m m d
    /\ (forall k, k <= i -> dp_get d k k = k)
    /\ (S i <= j -> dp_get d (S i) (S i) = S i)).
  assert (HP : P m (fold_left (lcs_cell l l (S i)) (seq 1 (length l)) dp)).
  { apply (fold_left_seq_invariant (lcs_cell l l (S i)) P dp m); unfold P.
    - split; [done |]. split; [done | intros ?; lia].
    - intros j d Hj (Hs & Hd & Hc).
      assert (Hcell : exists v, lcs_cell l l (S i) d (S j) = dp_set d (S i) (S j) v
                                /\ (j = i -> v = dp_get d i i + 1)).
      { unfold lcs_cell. destruct (bool_decide _) eqn:Eb.
        - eexists. split; [reflexivity |]. intros ->. f_equal. f_equal; lia.
        - eexists. split; [reflexivity |]. intros ->.
          by apply bool_decide_eq_false in Eb. }
      destruct Hcell as (v & -> & Hv).
      split; [by apply dp_set_shape |]. split.
      + intros k Hk. rewrite dp_get_set_other by lia. by apply Hd.
      + intros Hle. destruct (decide (j = i)) as [->|Hne].
        * rewrite (dp_get_set_same m m) by (done || lia).
          rewrite Hv by done. rewrite Hd by lia. lia.
        * rewrite dp_get_set_other by lia. apply Hc. lia. }
  destruct HP as (Hs & Hd & Hc). split; [done |].
  intros k Hk. destruct (decide (k = S i)) as [->|Hne]; [apply Hc; lia | apply Hd; lia].
Qed.

Lemma lcs_self (l : list string) : _lcs l l = length l.
Proof.
  unfold _lcs. set (m := length l).
  pose (P := fun (i : nat) (d : list (list nat)) =>
    dp_shape m m d /\ (forall k, k <= i -> dp_get d k k = k)).
  assert (HP : P m (fold_left (lcs_row l l) (seq 1 m)
                      (replicate (m + 1) (replicate (m + 1) 0)))).
  { apply (fold_left_seq_invariant (lcs_row l l) P _ m); unfold P.
    - split.
      + split; [rewrite length_replicate; lia |].
        apply Forall_replicate. rewrite length_replicate. lia.
      + intros k Hk. assert (k = 0) as -> by lia.
        unfold dp_get. rewrite lookup_replicate_2 by lia. simpl.
        by rewrite lookup_replicate_2 by lia.
    - intros i d Hi (Hs & Hd). by apply lcs_row_diagonal. }
  destruct HP as (_ & Hd). by apply Hd.
Qed.

Lemma rouge_l_self (tokens : list string) :
  0 < length tokens -> _rouge_l tokens tokens = 1%Q.
Proof.
  intros Hpos. unfold _rouge_l. rewrite lcs_self.
  destruct (_ =? 0) eqn:E; [apply Nat.eqb_eq in E; lia |].
  by apply len_truediv_self.
Qed.

(** The percentage of a ratio of 1, as [compute_rouge] reports it. *)
Lemma py_round_percent_one : py_round (float_mul 1 100) 2 = 100%Q.
Proof. by vm_compute. Qed.

Lemma py_round_percent_zero : py_round (float_mul 0 100) 2 = 0%Q.
Proof. by vm_compute. Qed.

(** C6, as the code has it.  When candidate and reference have the same
    token sequence, [rouge1] and [rougeL] are 100.0 as soon as there is one
    token and [rouge2] is 100.0 as soon as there are two; for a single
    token there is no bigram and [rouge2] is 0.0. *)
Theorem rouge_self_match (generated reference : string) :
  let tokens := word_tokenize (lower generated) in
  let scores := compute_rouge generated reference in
  word_tokenize (lower reference) = tokens ->
  (1 <= length tokens ->
   dict_lookup scores "rouge1" = Some (VFloat 100)
   /\ dict_lookup scores "rougeL" = Some (VFloat 100))
  /\ (2 <= length tokens -> dict_lookup scores "rouge2" = Some (VFloat 100))
  /\ (length tokens = 1 -> dict_lookup scores "rouge2" = Some (VFloat 0)).
Proof.
  intros tokens scores Eref. subst scores. unfold compute_rouge.
  rewrite Eref. fold tokens. simpl.
  split; [| split].
  - intros Hlen. split; do 2 f_equal.
    + rewrite (proj1 (rouge_n_self tokens 1)) by done. apply py_round_percent_one.
    + rewrite rouge_l_self by lia. apply py_round_percent_one.
  - intros Hlen. do 2 f_equal.
    rewrite (proj1 (rouge_n_self tokens 2)) by done. apply py_round_percent_one.
  - intros Hlen. do 2 f_equal.
    rewrite (proj2 (rouge_n_self tokens 2)) by lia. apply py_round_percent_zero.
Qed.

End RougeProps.

Section RougeExamples.
Import PyStr EvaluateSimple Sample.

Lemma rouge_self_match_witness :
  let H := sample_externals in
  (dict_lookup (compute_rouge "Fix parser bug" "fix parser bug") "rouge1" = Some (VFloat 100)
   /\ dict_lookup (compute_rouge "Fix parser bug" "fix parser bug") "rougeL" = Some (VFloat 100))
  /\ dict_lookup (compute_rouge "Fix parser bug" "fix parser bug") "rouge2" = Some (VFloat 100)
  /\ dict_lookup (compute_rouge "fix" "fix") "rouge2" = Some (VFloat 0).
Proof.
  intros H. split; [| split].
  - destruct (rouge_self_match "Fix parser bug" "fix parser bug") as (T & _);
      [by vm_compute |].
    apply T. vm_compute. lia.
  - destruct (rouge_self_match "Fix parser bug" "fix parser bug") as (_ & T & _);
      [by vm_compute |].
    apply T. vm_compute. lia.
  - destruct (rouge_self_match "fix" "fix") as (_ & _ & T); [by vm_compute |].
    apply T. by vm_compute.
Defined.

(** C6 as stated fails for the one-word message "fix" compared with itself:
    the token sequence [["fix"]] is non-empty, [rouge1] and [rougeL] are
    100.0, but [rouge2] is 0.0. *)
Lemma single_token_rouge2_is_zero :
  let H := sample_externals in
  word_tokenize (lower "fix") = ["fix"]
  /\ compute_rouge "fix" "fix"
     = [("rouge1", VFloat 100); ("rouge2", VFloat 0); ("rougeL", VFloat 100)]
  /\ ~ (0 == 100)%Q.
Proof. intros H. split; [by vm_compute |]. split; [by vm_compute | discriminate]. Qed.

End RougeExamples.

(** ** Quality score *)

Section QualityProps.
Import PyStr EvaluateSimple.
Context `{Externals}.

Lemma py_round_le_one (x : Q) (n : nat) : (x <= 1)%Q -> (py_round x n <= 1)%Q.
Proof.
  intros Hx. unfold py_round. rewrite Qred_correct.
  pose proof (scale_pos n) as Hs. set (s := (10 ^ Z.of_nat n)%Z) in *.
  apply Qle_shift_div_r; [done |]. rewrite Qmult_1_l, <- Zle_Qle.
  apply round_half_even_le. nra.
Qed.

(** The stopword-filtered word sets that [compute_word_overlap] compares. *)
Definition content_words (text : string) : gset string :=
  list_to_set (word_tokenize (lower text)) ∖ stopword_set.

(** Jaccard similarity of two word sets: the float [len(A & B) / len(A | B)]. *)
Definition jaccard (A B : gset string) : Q := len_truediv (size (A ∩ B)) (size (A ∪ B)).

Lemma jaccard_range (A B : gset string) : 0 < size A -> (0 <= jaccard A B <= 1)%Q.
Proof.
  intros HA. unfold jaccard. apply len_truediv_range.
  - apply subseteq_size. etrans; [apply intersection_subseteq_l | apply union_subseteq_l].
  - eapply Nat.lt_le_trans; [exact HA |]. apply subseteq_size, union_subseteq_l.
Qed.

Lemma word_overlap_eq (generated reference : string) :
  let A := content_words generated in
  let B := content_words reference in
  compute_word_overlap generated reference =
  if (size A =? 0) || (size B =? 0) then 0%Q else py_round (jaccard A B) 4.
Proof.
  intros A B. unfold compute_word_overlap. fold (content_words generated).
  fold (content_words reference). fold A B.
  destruct (size A =? 0) eqn:EA; [done |]. destruct (size B =? 0) eqn:EB; [done |].
  cbn [orb]. apply Nat.eqb_neq in EA.
  assert (Hpos : 0 < size (A ∪ B)).
  { eapply Nat.lt_le_trans; [| apply subseteq_size, union_subseteq_l]. lia. }
  apply Nat.ltb_lt in Hpos. by rewrite Hpos.
Qed.

(** The float sum that [_compute_quality_score] rounds. *)
Definition weighted_sum (bleu rougeL semantic : Q) (detected : bool) : Q :=
  float_add
    (float_add (float_add (float_mul 0.3 (float_div bleu 100))
                          (float_mul 0.3 (float_div rougeL 100)))
               (float_mul 0.3 semantic))
    (if detected then 0.0%Q else 0.1%Q).

(** The float sum grows with each score. *)
Lemma weighted_sum_mono (b b' r r' s s' : Q) (detected : bool) :
  (0 <= b <= b')%Q -> (0 <= r <= r')%Q -> (0 <= s <= s')%Q ->
  (weighted_sum b r s detected <= weighted_sum b' r' s' detected)%Q.
Proof.
  intros [Hb0 Hb] [Hr0 Hr] [Hs0 Hs]. unfold weighted_sum.
  apply float_add_mono; [| lra].
  apply float_add_mono; [apply float_add_mono |].
  - apply float_mul_mono; [lra |].
    split; [by apply float_div_100_nonneg | by apply float_div_100_mono].
  - apply float_mul_mono; [lra |].
    split; [by apply float_div_100_nonneg | by apply float_div_100_mono].
  - apply float_mul_mono; [lra | done].
Qed.

(** Rounding a value of [[0, bound]], for a few bounds. *)
Lemma fl_close_below (k : Z) (x bound : Q) :
  (-1022 <= k)%Z -> (bound < 2 ^ (k + 1))%Q -> (0 <= x <= bound)%Q ->
  (x - 2 ^ (k - 53) <= fl x <= x + 2 ^ (k - 53))%Q /\ (0 <= fl x <= fl bound)%Q.
Proof.
  intros Hk Hb [Hx0 Hx]. split.
  - apply fl_close; [done | done |]. set (p := (2 ^ (k + 1))%Q) in *. lra.
  - split; [by apply fl_nonneg | by apply fl_mono].
Qed.

(** The double of the literal 0.3. *)
Ltac fl_0_3 := constr:((5404319552844595 # 18014398509481984)%Q).

(** One rounding of a value [x] of [[0, bound]], below [2 ^ (k + 1)]: the
    error bound [C] and the range [R] of the result [n], with the
    constants computed. *)
Ltac round_step k x bound n C R :=
  let Hx := fresh "Hx" in
  assert (Hx : (0 <= x <= bound)%Q) by (split; lra);
  destruct (fl_close_below k x bound ltac:(lia) ltac:(reflexivity) Hx) as [C R];
  clear Hx;
  let v := eval vm_compute in (2 ^ (k - 53))%Q in
  change (2 ^ (k - 53))%Q with v in C;
  let w := eval vm_compute in (fl bound) in
  replace (fl bound) with w in R by (vm_compute; reflexivity);
  set (n := fl x) in *; clearbody n.

(** The float sum is within 8 units of [2 ^ -53] of the weighted sum of
    the exact values, when the scores are in their ranges. *)
Lemma weighted_sum_close (b r s : Q) (detected : bool) :
  (0 <= b <= 100)%Q -> (0 <= r <= 100)%Q -> (0 <= s <= 1)%Q ->
  let exact := (0.3 * (b / 100) + 0.3 * (r / 100) + 0.3 * s
                + (if detected then 0.0 else 0.1))%Q in
  (exact - 8 * unit_roundoff <= weighted_sum b r s detected <= exact + 8 * unit_roundoff)%Q.
Proof.
  intros Hb Hr Hs exact. subst exact. unfold weighted_sum, float_add, float_mul, float_div.
  rewrite fl_100.
  assert (E : forall z, (z / 100 == z * (1 # 100))%Q) by (intros; reflexivity).
  rewrite !E. clear E.
  let c := fl_0_3 in replace (fl 0.3) with c by (vm_compute; reflexivity).
  set (pen := fl (if detected then 0.0%Q else 0.1%Q)).
  assert (Hpen : (0 <= pen <= 0.1 + (1 # 16) * unit_roundoff)%Q
                 /\ ((if detected then 0.0 else 0.1) - (1 # 16) * unit_roundoff <= pen)%Q
                 /\ (pen <= (if detected then 0.0 else 0.1) + (1 # 16) * unit_roundoff)%Q).
  { subst pen. destruct detected; vm_compute; repeat split; discriminate. }
  clearbody pen. destruct Hpen as (Rp & Lp & Up).
  unfold unit_roundoff in *.
  change (fl b / 100)%Q with (fl b * (1 # 100))%Q.
  change (fl r / 100)%Q with (fl r * (1 # 100))%Q.
  (* the BLEU term *)
  round_step 6%Z b 100%Q xb Cb Rb.
  round_step 0%Z (xb * (1 # 100))%Q 1%Q qb Cqb Rqb.
  round_step 0%Z qb 1%Q fb Cfb Rfb.
  let c := fl_0_3 in round_step (-2)%Z (c * fb)%Q c tb Ctb Rtb.
  let c := fl_0_3 in round_step (-2)%Z tb c gb Cgb Rgb.
  (* the ROUGE-L term *)
  round_step 6%Z r 100%Q xr Cr Rr.
  round_step 0%Z (xr * (1 # 100))%Q 1%Q qr Cqr Rqr.
  round_step 0%Z qr 1%Q fr Cfr Rfr.
  let c := fl_0_3 in round_step (-2)%Z (c * fr)%Q c tr Ctr Rtr.
  let c := fl_0_3 in round_step (-2)%Z tr c gr Cgr Rgr.
  (* the semantic term *)
  round_step 0%Z s 1%Q xs Cs Rs.
  let c := fl_0_3 in round_step (-2)%Z (c * xs)%Q c ts Cts Rts.
  let c := fl_0_3 in round_step (-2)%Z ts c gs Cgs Rgs.
  (* the three additions *)
  let c := fl_0_3 in round_step (-1)%Z (gb + gr)%Q (c + c)%Q s1 C1 R1.
  match type of R1 with
  | (_ <= _ <= ?w)%Q => round_step (-1)%Z s1 w h1 Ch1 Rh1
  end.
  match type of Rh1 with
  | (_ <= _ <= ?w)%Q =>
      let c := fl_0_3 in round_step (-1)%Z (h1 + gs)%Q (w + c)%Q s2 C2 R2
  end.
  match type of R2 with
  | (_ <= _ <= ?w)%Q => round_step (-1)%Z s2 w h2 Ch2 Rh2
  end.
  match type of Rh2 with
  | (_ <= _ <= ?w)%Q =>
      round_step 0%Z (h2 + pen)%Q (w + (0.1 + (1 # 16) * (1 # 9007199254740992)))%Q
        s3 C3 R3
  end.
  destruct detected; lra.
Qed.

(** The score of a result whose scores are in their ranges. *)
Lemma quality_range (b r s : Q) (detected : bool) :
  (0 <= b <= 100)%Q -> (0 <= r <= 100)%Q -> (0 <= s <= 1)%Q ->
  (0 <= py_round (weighted_sum b r s detected) 4 <= 1)%Q.
Proof.
  intros Hb Hr Hs. split.
  - apply py_round_nonneg.
    apply Qle_trans with (weighted_sum 0 0 0 detected);
      [destruct detected; vm_compute; discriminate | apply weighted_sum_mono; lra].
  - apply Qle_trans with (py_round (weighted_sum 100 100 1 detected) 4);
      [| destruct detected; vm_compute; discriminate].
    apply py_round_mono, weighted_sum_mono; lra.
Qed.

(** C8, as the code has it.  For a result holding a BLEU score [bleu], a
    ROUGE-L score [rougeL], a semantic overlap [semantic] and a detection
    flag, the quality score is the sum
    [0.3*(bleu/100) + 0.3*(rougeL/100) + 0.3*semantic], plus 0.1 exactly
    when nothing was detected, computed in double arithmetic from left to
    right and then rounded to 4 decimals (so within 0.00005 of the float
    sum).  It is not clamped.  When the scores are in their ranges the
    float sum is within [8 * 2^-53] of the sum of the exact values, and the
    score lies in [0, 1.1].  The semantic overlap is 0 when either
    filtered word set is empty and otherwise the Jaccard similarity of the
    two sets, a float quotient, rounded to 4 decimals, a value in [0, 1]. *)
Theorem quality_score_formula (results rouge hallucination : list (string * pyval))
    (bleu rougeL semantic : Q) (detected : bool) (generated reference : string) :
  dict_lookup results "bleu" = Some (VFloat bleu) ->
  dict_lookup results "rouge" = Some (VDict rouge) ->
  dict_lookup rouge "rougeL" = Some (VFloat rougeL) ->
  dict_lookup results "semantic_similarity" = Some (VFloat semantic) ->
  dict_lookup results "hallucination" = Some (VDict hallucination) ->
  dict_lookup hallucination "detected" = Some (VBool detected) ->
  let sum := weighted_sum bleu rougeL semantic detected in
  let exact := (0.3 * (bleu / 100) + 0.3 * (rougeL / 100) + 0.3 * semantic
                + (if detected then 0.0 else 0.1))%Q in
  let A := content_words generated in
  let B := content_words reference in
  _compute_quality_score results = Ok (py_round sum 4)
  /\ (sum - 0.00005 <= py_round sum 4 <= sum + 0.00005)%Q
  /\ sum = float_add
             (float_add (float_add (float_mul 0.3 (float_div bleu 100))
                                   (float_mul 0.3 (float_div rougeL 100)))
                        (float_mul 0.3 semantic))
             (if detected then 0.0%Q else 0.1%Q)
  /\ ((0 <= bleu <= 100)%Q -> (0 <= rougeL <= 100)%Q -> (0 <= semantic <= 1)%Q ->
      (exact - 8 * unit_roundoff <= sum <= exact + 8 * unit_roundoff)%Q
      /\ (0 <= py_round sum 4 <= 1.1)%Q)
  /\ (size A = 0 \/ size B = 0 -> compute_word_overlap generated reference = 0%Q)
  /\ (0 < size A -> 0 < size B ->
      compute_word_overlap generated reference = py_round (jaccard A B) 4
      /\ jaccard A B = fl (Qnat (size (A ∩ B)) / Qnat (size (A ∪ B))))
  /\ (0 <= compute_word_overlap generated reference <= 1)%Q.
Proof.
  intros Hb Hr HrL Hs Hh Hd sum exact A B.
  split; [| split; [| split; [| split; [| split; [| split]]]]].
  - unfold _compute_quality_score, dict_item. rewrite Hb. cbn [mbind result_bind py_truediv].
    rewrite Hr. cbn [mbind result_bind py_dict]. rewrite HrL.
    cbn [mbind result_bind py_truediv]. rewrite Hs, Hh. cbn [mbind result_bind py_dict].
    rewrite Hd. cbn [mbind result_bind py_number py_truth].
    change (inject_Z 100) with 100%Q. subst sum. unfold weighted_sum. reflexivity.
  - pose proof (py_round_close sum 4) as Hc. cbv zeta in Hc.
    change (1 / (2 * inject_Z (10 ^ Z.of_nat 4)))%Q with (1 # 20000)%Q in Hc. lra.
  - reflexivity.
  - intros Hbr Hrr Hsr. split.
    + by apply weighted_sum_close.
    + destruct (quality_range bleu rougeL semantic detected Hbr Hrr Hsr) as [Hlo Hhi].
      fold sum in Hlo, Hhi. lra.
  - intros Hz. rewrite word_overlap_eq. fold A B.
    destruct Hz as [-> | ->]; [done | by rewrite orb_true_r].
  - intros HA HB. split; [| reflexivity]. rewrite word_overlap_eq. fold A B.
    destruct (size A =? 0) eqn:EA; [apply Nat.eqb_eq in EA; lia |].
    destruct (size B =? 0) eqn:EB; [apply Nat.eqb_eq in EB; lia |]. done.
  - rewrite word_overlap_eq. fold A B.
    destruct (size A =? 0) eqn:EA; [simpl; lra |].
    destruct (size B =? 0) eqn:EB; [simpl; lra |]. cbn [orb].
    apply Nat.eqb_neq in EA.
    destruct (jaccard_range A B) as [Hlo Hhi]; [lia |].
    split; [by apply py_round_nonneg | by apply py_round_le_one].
Qed.

End QualityProps.

Section QualityExamples.
Import PyStr EvaluateSimple Sample.

(** What [evaluate_message("add parser", "add lexer", "+parser")] holds
    before the quality score is added. *)
Definition sample_results : list (string * pyval) :=
  [ ("bleu", VFloat 0);
    ("rouge", VDict [("rouge1", VFloat 50); ("rouge2", VFloat 0); ("rougeL", VFloat 50)]);
    ("semantic_similarity", VFloat 0.3333);
    ("hallucination",
     VDict [ ("detected", VBool false); ("hallucination_rate", VFloat 0);
             ("ungrounded_tokens", VList []); ("total_tokens_checked", VInt 1) ]) ].

Lemma quality_score_formula_witness :
  let H := sample_externals in
  _compute_quality_score sample_results = Ok (7 # 20)%Q
  /\ (0 <= py_round (weighted_sum 0 50 0.3333 false) 4 <= 1.1)%Q
  /\ compute_word_overlap "the" "add lexer" = 0%Q
  /\ compute_word_overlap "add parser" "add lexer" = 0.3333%Q.
Proof.
  intros H.
  pose proof (quality_score_formula sample_results
                [("rouge1", VFloat 50); ("rouge2", VFloat 0); ("rougeL", VFloat 50)]
                [ ("detected", VBool false); ("hallucination_rate", VFloat 0);
                  ("ungrounded_tokens", VList []); ("total_tokens_checked", VInt 1) ]
                0 50 0.3333 false "add parser" "add lexer"
                eq_refl eq_refl eq_refl eq_refl eq_refl eq_refl) as T.
  cbv zeta in T. destruct T as (T1 & _ & _ & T2 & _ & T3 & _).
  pose proof (quality_score_formula sample_results
                [("rouge1", VFloat 50); ("rouge2", VFloat 0); ("rougeL", VFloat 50)]
                [ ("detected", VBool false); ("hallucination_rate", VFloat 0);
                  ("ungrounded_tokens", VList []); ("total_tokens_checked", VInt 1) ]
                0 50 0.3333 false "the" "add lexer"
                eq_refl eq_refl eq_refl eq_refl eq_refl eq_refl) as T.
  cbv zeta in T. destruct T as (_ & _ & _ & _ & T4 & _).
  split; [| split; [| split]].
  - rewrite T1. vm_compute. reflexivity.
  - apply T2; vm_compute; split; discriminate.
  - apply T4. left. vm_compute. reflexivity.
  - destruct T3 as [T3 _]; [vm_compute; lia | vm_compute; lia |].
    rewrite T3. vm_compute. reflexivity.
Defined.

(** C8 as stated fails on the evaluation of the candidate "add parser"
    against the reference "add lexer" with the diff "+parser".  The word
    sets share 1 of 3 words, but the semantic overlap is 0.3333, not 1/3;
    and the quality score is 0.35, while the weighted sum of the reported
    scores, [0.3*(0/100) + 0.3*(50/100) + 0.3*0.3333 + 0.1], is 0.34999. *)
Lemma quality_score_is_rounded :
  let H := sample_externals in
  evaluate_message "add parser" "add lexer" "+parser"
  = Ok (sample_results ++ [("quality_score", VFloat (7 # 20))])
  /\ size (content_words "add parser" ∩ content_words "add lexer") = 1
  /\ size (content_words "add parser" ∪ content_words "add lexer") = 3
  /\ compute_word_overlap "add parser" "add lexer" = 0.3333%Q
  /\ ~ (0.3333 == 1 / 3)%Q
  /\ (0.3 * (0 / 100) + 0.3 * (50 / 100) + 0.3 * 0.3333 + 0.1 == 0.34999)%Q
  /\ ~ ((7 # 20) == 0.34999)%Q.
Proof.
  intros H.
  repeat (split; [vm_compute; first [reflexivity | discriminate] |]).
  vm_compute; discriminate.
Qed.

(** The score rounds the float sum, not the sum of the exact values: for
    a BLEU score of 0.0, a ROUGE-L score of 57.14, a semantic overlap of
    0.8571 and a detection, the exact sum is 0.42855, the float sum lies
    below it, and the score is 0.4285. *)
Example quality_of_a_tie :
  let results :=
    [ ("bleu", VFloat 0.0);
      ("rouge", VDict [("rouge1", VFloat 57.14); ("rouge2", VFloat 0.0);
                       ("rougeL", VFloat 57.14)]);
      ("semantic_similarity", VFloat 0.8571);
      ("hallucination", VDict [("detected", VBool true)]) ] in
  _compute_quality_score results = Ok (857 # 2000)%Q
  /\ (857 # 2000 == 0.4285)%Q
  /\ (0.3 * (0.0 / 100) + 0.3 * (57.14 / 100) + 0.3 * 0.8571 + 0.0 == 0.42855)%Q
  /\ (weighted_sum 0.0 57.14 0.8571 true < 0.42855)%Q.
Proof.
  intros results. subst results.
  repeat (split; [vm_compute; reflexivity |]). vm_compute; reflexivity.
Qed.

(** The rounding function and the float operations agree with the
    machine's binary64 arithmetic on the values above. *)
#[warnings="-inexact-float"]
Example fl_agrees_with_binary64 :
  Q_of_float (1 / 160)%float = Some (int_truediv 1 160)
  /\ Q_of_float (3 / 160)%float = Some (int_truediv 3 160)
  /\ Q_of_float 0.1%float = Some (fl 0.1)
  /\ Q_of_float 0.15%float = Some (fl 0.15)
  /\ Q_of_float (0.3 * (57.14 / 100))%float = Some (float_mul 0.3 (float_div 57.14 100))
  /\ Q_of_float (0.3 * (0.0 / 100) + 0.3 * (57.14 / 100) + 0.3 * 0.8571 + 0.0)%float
     = Some (weighted_sum 0.0 57.14 0.8571 true)
  /\ Q_of_float (0.3 * (0.0 / 100) + 0.3 * (50 / 100) + 0.3 * 0.3333 + 0.1)%float
     = Some (weighted_sum 0 50 0.3333 false).
Proof. repeat (split; [vm_compute; reflexivity |]). vm_compute; reflexivity. Qed.

End QualityExamples.

(** ** The validator's severity *)

Section ValidatorProps.
Import PyStr Safety EvaluateSimple MultiAgent.
Context `{Externals}.

(** The keys of the dict that [evaluate_message] returns: it always
    returns, and with exactly these five keys. *)
Lemma evaluate_message_keys (generated reference diff : string) :
  exists bleu rouge semantic hallucination quality,
    evaluate_message generated reference diff =
    Ok [ ("bleu", VFloat bleu); ("rouge", VDict rouge);
         ("semantic_similarity", VFloat semantic);
         ("hallucination", VDict hallucination);
         ("quality_score", VFloat quality) ].
Proof.
  unfold evaluate_message, _compute_quality_score, dict_item,
    EvaluateSimple.detect_hallucination, compute_rouge.
  rewrite hallucination_report_eq. cbv zeta.
  generalize (compute_bleu generated reference) as bleu.
  generalize (compute_word_overlap generated reference) as semantic.
  generalize (py_round (_rouge_n (word_tokenize (lower generated))
                                 (word_tokenize (lower reference)) 1 * 100) 2) as r1.
  generalize (py_round (_rouge_n (word_tokenize (lower generated))
                                 (word_tokenize (lower reference)) 2 * 100) 2) as r2.
  generalize (py_round (_rouge_l (word_tokenize (lower generated))
                                 (word_tokenize (lower reference)) * 100) 2) as rL.
  generalize (scanned generated diff) as sc.
  intros sc rL r2 r1 semantic bleu. simpl. eauto 10.
Qed.

(** What [validator_assess] yields, for every input. *)
Lemma validator_assess_none (message diff reference_message : string) :
  exists a,
    validator_assess message diff reference_message = Ok a
    /\ (py_truth (VStr reference_message) = true ->
        evaluate_message diff message reference_message = Ok (a_metrics a)
        /\ dict_lookup (a_metrics a) "hallucination_detected" = None
        /\ dict_lookup (a_metrics a) "ungrounded_ratio" = None)
    /\ (py_truth (VStr reference_message) = false -> a_metrics a = NO_REFERENCE_METRICS)
    /\ a_hallucination_detected a = VBool false
    /\ a_ungrounded_ratio a = VFloat 0.0
    /\ a_severity a = "NONE"
    /\ a_confidence a = get_confidence_level (a_quality_score a) "NONE"
    /\ a_is_valid a = (string_in (a_confidence a) ["MEDIUM"; "HIGH"]
                       && Qgeb (a_quality_score a) 0.3).
Proof.
  unfold validator_assess.
  destruct (py_truth (VStr reference_message)) eqn:Eref.
  - destruct (evaluate_message_keys diff message reference_message)
      as (b & r & s & h & q & ->).
    eexists. split; [reflexivity |]. simpl. by repeat split.
  - eexists. split; [reflexivity |]. simpl. by repeat split.
Qed.

(** C5. Whatever the message, the diff and the reference,
    [ValidatorAgent.execute] computes its verdict from the severity "NONE".
    With a reference it evaluates [evaluate_message(diff, message,
    reference)], whose dict has neither the key "hallucination_detected"
    nor "ungrounded_ratio"; so the defaults [False] and [0.0] are read (as
    they are from the dict used without a reference), and
    [assess_hallucination_severity] is called with the flag in its rate
    position and the ratio 0.0 in its flag position.  The verdict is then
    [confidence in {MEDIUM, HIGH} and quality_score >= 0.3], and a call
    that returns reports that verdict and that severity. *)
Theorem validator_severity_is_none (message diff reference_message : string) :
  exists a,
    validator_assess message diff reference_message = Ok a
    /\ (py_truth (VStr reference_message) = true ->
        evaluate_message diff message reference_message = Ok (a_metrics a)
        /\ dict_lookup (a_metrics a) "hallucination_detected" = None
        /\ dict_lookup (a_metrics a) "ungrounded_ratio" = None)
    /\ (py_truth (VStr reference_message) = false -> a_metrics a = NO_REFERENCE_METRICS)
    /\ a_hallucination_detected a = VBool false
    /\ a_ungrounded_ratio a = VFloat 0.0
    /\ assess_hallucination_severity (a_hallucination_detected a) (a_ungrounded_ratio a)
       = Ok (a_severity a)
    /\ a_severity a = severity_name NONE
    /\ a_confidence a = get_confidence_level (a_quality_score a) (severity_name NONE)
    /\ a_is_valid a = (string_in (a_confidence a) ["MEDIUM"; "HIGH"]
                       && Qgeb (a_quality_score a) 0.3)
    /\ (forall g output g',
          validator_execute message diff reference_message g = (Ok output, g') ->
          dict_lookup output "is_valid" = Some (VBool (a_is_valid a))
          /\ exists feedback,
               dict_lookup output "feedback" = Some (VDict feedback)
               /\ dict_lookup feedback "severity" = Some (VStr (severity_name NONE))).
Proof.
  destruct (validator_assess_none message diff reference_message)
    as (a & Ha & Hk & Hn & Hd & Hr & Hs & Hc & Hv).
  exists a. repeat (split; [done |]).
  split; [by rewrite Hd, Hr, Hs |].
  repeat (split; [done |]).
  intros g output g' Hexec. unfold validator_execute, bind, lift in Hexec.
  rewrite Ha in Hexec.
  repeat match type of Hexec with
         | context [match ?m ?g0 with (_, _) => _ end] =>
             destruct (m g0) as [[?|?] ?]; try discriminate
         | (match ?r with Ok _ => _ | Raise _ => _ end) = _ =>
             destruct r; try discriminate
         end.
  unfold ret in Hexec. injection Hexec as <- _. simpl. rewrite Hs.
  split; [done |]. eexists. split; reflexivity.
Qed.

End ValidatorProps.

Section ValidatorExamples.
Import PyStr Safety EvaluateSimple MultiAgent Sample.

Lemma validator_severity_is_none_witness :
  let H := sample_externals in
  (exists metrics,
     evaluate_message sample_diff "Update parser input" "Update parser" = Ok metrics
     /\ dict_lookup metrics "hallucination_detected" = None
     /\ dict_lookup metrics "ungrounded_ratio" = None)
  /\ (exists output g',
        validator_execute "Update parser input" sample_diff "Update parser" fresh_governance
        = (Ok output, g')
        /\ exists feedback,
             dict_lookup output "feedback" = Some (VDict feedback)
             /\ dict_lookup feedback "severity" = Some (VStr "NONE")).
Proof.
  intros H.
  destruct (validator_severity_is_none "Update parser input" sample_diff "Update parser")
    as (a & _ & Hkeys & _ & _ & _ & _ & _ & _ & _ & Hexec).
  split.
  - exists (a_metrics a). apply Hkeys. vm_compute. reflexivity.
  - destruct (validator_execute "Update parser input" sample_diff "Update parser"
                fresh_governance) as [[output|e] g'] eqn:E.
    + exists output, g'. split; [reflexivity |]. exact (proj2 (Hexec _ _ _ E)).
    + exfalso. clear -E. vm_compute in E. discriminate E.
Defined.

End ValidatorExamples.

(** ** The agent loop *)

Section AgentLoopProps.
Import PyStr Safety EvaluateSimple MultiAgent.
Context `{Externals}.

Definition is_value_error (e : exn) : Prop := exists msg, e = ValueError msg.

Lemma require_passed_input agent phase name input g :
  require_passed agent phase (validate_agent_input name input) g = (Ok tt, g)
  \/ exists msg,
       require_passed agent phase (validate_agent_input name input) g
       = (Raise (ValueError msg), g).
Proof.
  unfold require_passed, bind, lift, validate_agent_input, dict_item.
  cbn [dict_lookup String.eqb Ascii.eqb Bool.eqb].
  destruct (negb _); [right; eauto | left; done].
Qed.



(** The state after one more decision has been logged. *)
Definition logged (g : governance) (d : AgentDecision) : governance :=
  {| audit_trail := audit_trail g ++ [d]; validations_started := validations_started g |}.



(** The state once a call of [ValidatorAgent.execute] has begun. *)
Definition counted (g : governance) : governance :=
  {| audit_trail := audit_trail g; validations_started := S (validations_started g) |}.

Lemma validator_issues_ok (a : assessment) (message : string) :
  a_hallucination_detected a = VBool false ->
  exists issues, validator_issues a message = Ok issues.
Proof. intros Hd. unfold validator_issues. rewrite Hd. simpl. eauto. Qed.








Lemma bind_eq {A B} (m : M A) (k : A -> M B) (g : governance) :
  bind m k g = match m g with
               | (Ok a, g') => k a g'
               | (Raise e, g') => (Raise e, g')
               end.
Proof. reflexivity. Qed.

Lemma bind_lift_ok {A B} (a : A) (k : A -> M B) (g : governance) :
  bind (lift (Ok a)) k g = k a g.
Proof. reflexivity. Qed.



End AgentLoopProps.

Section AgentLoopExamples.
Import PyStr Safety EvaluateSimple MultiAgent Sample.



End AgentLoopExamples.

(** ** The repository's own tests, run on the model

    Cases of [tests/test_phase3.py] (tests 1.1, 1.2, 1.5 and 7.1 to 7.3). *)

Section SuiteChecks.
Import PyStr Safety Sample.

Definition valid_diff : string :=
  "diff --git a/file.py b/file.py" +:+ String nl
    ("@@ -1,1 +1,1 @@" +:+ String nl ("-old line" +:+ String nl "+new line")).

Example test_1_1_empty_diff :
  let H := sample_externals in
  is_valid_of (validate_input "t" 0 ∅ EmptyString "test_ip") = false
  /\ contains (lower (message_of (validate_input "t" 0 ∅ EmptyString "test_ip"))) "empty"
     = true.
Proof. intros H. split; vm_compute; reflexivity. Qed.

Example test_1_2_valid_diff :
  let H := sample_externals in
  is_valid_of (validate_input "t" 0 ∅ valid_diff "test_ip_2") = true
  /\ checks_performed (metadata_of (validate_input "t" 0 ∅ valid_diff "test_ip_2"))
     = ["rate_limit"; "size_limit"; "line_count"; "format_validation";
        "sensitive_data"; "all_passed"].
Proof. intros H. split; vm_compute; reflexivity. Qed.

Example test_1_5_invalid_format :
  let H := sample_externals in
  let r := validate_input "t" 0 ∅ "This is not a diff at all, just plain text" "test_ip_5" in
  is_valid_of r = false /\ contains (lower (message_of r)) "diff" = true.
Proof. intros H r. split; vm_compute; reflexivity. Qed.

Example test_7_1_backticks :
  sanitize_output "Fix bug in `calculate_total` function"
  = "Fix bug in 'calculate_total' function".
Proof. vm_compute. reflexivity. Qed.

Example test_7_2_newlines :
  sanitize_output ("Line 1" +:+ str (replicate 5 nl) +:+ "Line 2")
  = "Line 1" +:+ str [nl; nl] +:+ "Line 2".
Proof. vm_compute. reflexivity. Qed.

Example test_7_3_truncation :
  let sanitized := sanitize_output (str (replicate 600 "x"%char)) in
  len sanitized = 515 /\ contains sanitized "(truncated)" = true.
Proof. intros sanitized. split; vm_compute; reflexivity. Qed.

End SuiteChecks.

(** * Further properties of the code *)

(** ** Usage recommendations and confidence *)

Section RecommendationProps.
Import Safety.

(** The rank of a confidence label; any other string counts as "HIGH", as
    the last branch of [get_usage_recommendations] treats it. *)
Definition confidence_rank (c : string) : nat :=
  if String.eqb c "VERY_LOW" then 0
  else if String.eqb c "LOW" then 1
  else if String.eqb c "MEDIUM" then 2
  else 3.

(** [get_usage_recommendations] returns two recommendations chosen by the
    confidence label, followed by the hallucination note exactly when the
    severity is "HIGH" or "CRITICAL".  A confidence label other than
    "VERY_LOW", "LOW" and "MEDIUM" (a misspelt one included) gets the
    "GOOD QUALITY" pair. *)
Theorem usage_recommendations_shape (confidence severity : string) :
  let recs := get_usage_recommendations confidence severity in
  let noted := String.eqb severity "HIGH" || String.eqb severity "CRITICAL" in
  length recs = (if noted then 3 else 2)
  /\ (In HALLUCINATION_RECOMMENDATION recs <-> noted = true)
  /\ (noted = true -> last recs = Some HALLUCINATION_RECOMMENDATION)
  /\ (head recs = Some "❌ NOT RECOMMENDED FOR USE: Consider writing commit message manually"
      <-> confidence = "VERY_LOW")
  /\ (head recs = Some "✅ GOOD QUALITY: Minor review recommended"
      <-> confidence_rank confidence = 3).
Proof.
  intros recs noted. subst recs. unfold get_usage_recommendations, confidence_rank.
  fold noted.
  destruct (String.eqb_spec confidence "VERY_LOW") as [->|H0];
    [| destruct (String.eqb_spec confidence "LOW") as [->|H1];
       [| destruct (String.eqb_spec confidence "MEDIUM") as [->|H2]]];
    destruct noted; cbn [app length In last head];
    (split; [reflexivity |]);
    (split; [split; [intros Hin; repeat destruct Hin as [Hin|Hin]; done
                    | intros; done || (vm_compute; tauto)] |]);
    (split; [done |]); split; split; intros E; done.
Qed.

(** [get_confidence_level] never lowers the confidence when the quality
    score rises or the severity falls. *)
Theorem confidence_level_monotone (q1 q2 : Q) (s1 s2 : SeverityLevel) :
  (q1 <= q2)%Q ->
  severity_rank s2 <= severity_rank s1 ->
  confidence_rank (get_confidence_level q1 (severity_name s1))
  <= confidence_rank (get_confidence_level q2 (severity_name s2)).
Proof.
  intros Hq Hs. unfold get_confidence_level.
  destruct s1, s2; simpl in Hs; try lia; simpl; qcases;
    first [exfalso; lra | vm_compute; lia].
Qed.

Lemma confidence_level_monotone_witness :
  (0.32 <= 0.47)%Q
  /\ severity_rank LOW <= severity_rank MEDIUM
  /\ confidence_rank (get_confidence_level 0.32 "MEDIUM")
     <= confidence_rank (get_confidence_level 0.47 "LOW").
Proof.
  split; [by vm_compute |]. split; [simpl; lia |].
  apply (confidence_level_monotone 0.32 0.47 MEDIUM LOW); [by vm_compute | simpl; lia].
Defined.

Lemma usage_recommendations_shape_witness :
  length (get_usage_recommendations "LOW" "CRITICAL") = 3
  /\ last (get_usage_recommendations "LOW" "CRITICAL") = Some HALLUCINATION_RECOMMENDATION
  /\ head (get_usage_recommendations "high" "NONE")
     = Some "✅ GOOD QUALITY: Minor review recommended".
Proof.
  destruct (usage_recommendations_shape "LOW" "CRITICAL") as (Hlen & _ & Hlast & _).
  destruct (usage_recommendations_shape "high" "NONE") as (_ & _ & _ & _ & Hgood).
  split; [exact Hlen |]. split; [exact (Hlast eq_refl) |]. exact (proj2 Hgood eq_refl).
Defined.

End RecommendationProps.

(** ** The closing directive of the warnings *)

Section DirectiveProps.
Import Safety.

(** The directive that closes the warning list. *)
Definition closing_directive (severity : string) (q : Q) : string :=
  if (String.eqb severity "HIGH" || String.eqb severity "CRITICAL") || Qltb q 0.25
  then HUMAN_OVERSIGHT_REQUIRED
  else HUMAN_REVIEW_RECOMMENDED.

Lemma safety_warnings_closing (severity : string) (tokens : option (list string)) (q : Q) :
  last (generate_safety_warnings severity tokens q) = Some (closing_directive severity q)
  /\ 1 <= length (generate_safety_warnings severity tokens q) <= 4.
Proof.
  unfold generate_safety_warnings, closing_directive.
  destruct (String.eqb severity "CRITICAL"), (String.eqb severity "HIGH"),
    (String.eqb severity "MEDIUM"), (String.eqb severity "LOW"),
    (Qltb q 0.20), (Qltb q 0.35), (Qltb q 0.25), tokens as [[|t ts]|];
    cbn [app orb last length]; (split; [reflexivity | lia]).
Qed.

(** [generate_safety_warnings] returns between one and four warnings, and
    the last one is always one of the two directives.  The directive agrees
    with the confidence label that [get_confidence_level] gives for the same
    severity and quality score: "HUMAN OVERSIGHT REQUIRED" only comes with
    confidence "LOW" or "VERY_LOW", and confidence "MEDIUM" or "HIGH" always
    comes with "Human review recommended". *)
Theorem directive_agrees_with_confidence (s : SeverityLevel) (tokens : option (list string))
    (q : Q) :
  let warnings := generate_safety_warnings (severity_name s) tokens q in
  let confidence := get_confidence_level q (severity_name s) in
  1 <= length warnings <= 4
  /\ (last warnings = Some HUMAN_OVERSIGHT_REQUIRED
      \/ last warnings = Some HUMAN_REVIEW_RECOMMENDED)
  /\ (last warnings = Some HUMAN_OVERSIGHT_REQUIRED -> confidence_rank confidence <= 1)
  /\ (2 <= confidence_rank confidence -> last warnings = Some HUMAN_REVIEW_RECOMMENDED).
Proof.
  intros warnings confidence.
  destruct (safety_warnings_closing (severity_name s) tokens q) as [Hlast Hlen].
  fold warnings in Hlast, Hlen. split; [exact Hlen |]. rewrite Hlast.
  subst confidence. unfold closing_directive, get_confidence_level.
  destruct s; simpl; qcases; simpl;
    (split; [auto |]); split; intros Hc;
    first [ reflexivity | exfalso; lra | vm_compute; lia
          | exfalso; vm_compute in Hc; first [lia | congruence] ].
Qed.

Lemma directive_agrees_with_confidence_witness :
  2 <= confidence_rank (get_confidence_level 0.47 (severity_name MEDIUM))
  /\ last (generate_safety_warnings (severity_name MEDIUM) (Some ["parse_args"]) 0.47)
     = Some HUMAN_REVIEW_RECOMMENDED.
Proof.
  assert (Hc : 2 <= confidence_rank (get_confidence_level 0.47 (severity_name MEDIUM)))
    by (vm_compute; lia).
  split; [exact Hc |].
  destruct (directive_agrees_with_confidence MEDIUM (Some ["parse_args"]) 0.47)
    as (_ & _ & _ & Hreview).
  exact (Hreview Hc).
Defined.

End DirectiveProps.

(** ** The grounding check as a filter *)

Section GroundingProps.
Import PyStr EvaluateSimple.
Context `{Externals}.

(** A message token is checked unless it is one of the allowed technical
    terms; it is grounded when it occurs inside some token of the diff. *)
Definition is_checked (token : string) : bool :=
  negb (bool_decide (lower token ∈ allowed_technical_terms)).

Definition is_grounded (diff_tokens : list string) (token : string) : bool :=
  existsb (fun diff_token => contains (lower diff_token) (lower token)) diff_tokens.

Definition is_ungrounded (diff_tokens : list string) (token : string) : bool :=
  is_checked token && negb (is_grounded diff_tokens token).

Lemma fold_check_token diff_tokens message_tokens (st : list string * nat) :
  fold_left (check_token diff_tokens) message_tokens st
  = (st.1 ++ List.filter (is_ungrounded diff_tokens) message_tokens,
     st.2 + length (List.filter is_checked message_tokens)).
Proof.
  revert st. induction message_tokens as [|t ts IH]; intros [u n]; simpl.
  - by rewrite app_nil_r, Nat.add_0_r.
  - rewrite IH. unfold check_token, is_ungrounded, is_checked, is_grounded.
    destruct (bool_decide _); simpl; [done |].
    destruct (existsb _ diff_tokens); simpl.
    + f_equal. lia.
    + rewrite <- app_assoc. simpl. f_equal. lia.
Qed.

Lemma scan_tokens_filter message_tokens diff_tokens :
  scan_tokens message_tokens diff_tokens
  = (List.filter (is_ungrounded diff_tokens) message_tokens,
     length (List.filter is_checked message_tokens)).
Proof. unfold scan_tokens. by rewrite fold_check_token. Qed.

Lemma filter_length_le {A} (f g : A -> bool) (l : list A) :
  (forall x, f x = true -> g x = true) ->
  length (List.filter f l) <= length (List.filter g l).
Proof.
  intros Hfg. induction l as [|x l IH]; simpl; [done |].
  destruct (f x) eqn:Ef.
  - rewrite (Hfg x Ef). simpl. lia.
  - destruct (g x); simpl; lia.
Qed.

(** The loop of [detect_hallucination] is a filter.  The reported
    ungrounded tokens are, in the order of the message and with their
    repetitions, the meaningful tokens of the message that are not allowed
    technical terms and occur inside no token of the diff; the number of
    tokens checked is the number of meaningful tokens that are not allowed
    terms.  So every reported token is alphanumeric, longer than two
    characters, no stopword and no allowed term, and is a substring of no
    diff token. *)
Theorem ungrounded_tokens_are_filtered (message diff : string) :
  let report := detect_hallucination message diff in
  let message_tokens := _extract_meaningful_tokens message in
  let diff_tokens := _extract_diff_tokens diff in
  dict_lookup report "ungrounded_tokens"
  = Some (VList (map VStr (List.filter (is_ungrounded diff_tokens) message_tokens)))
  /\ dict_lookup report "total_tokens_checked"
     = Some (VInt (Z.of_nat (length (List.filter is_checked message_tokens))))
  /\ (forall token, In token (List.filter (is_ungrounded diff_tokens) message_tokens) ->
      In token (word_tokenize (lower message))
      /\ isalnum token = true
      /\ 2 < len token
      /\ (token ∉ stopword_set)
      /\ (lower token ∉ allowed_technical_terms)
      /\ forall diff_token, In diff_token diff_tokens ->
           contains (lower diff_token) (lower token) = false).
Proof.
  intros report message_tokens diff_tokens. subst report.
  unfold detect_hallucination. rewrite hallucination_report_eq. cbv zeta.
  unfold scanned. fold message_tokens diff_tokens. rewrite scan_tokens_filter.
  split; [reflexivity |]. split; [reflexivity |].
  intros token Hin. apply filter_In in Hin as [Hmsg Hun].
  subst message_tokens. unfold _extract_meaningful_tokens in Hmsg.
  apply filter_In in Hmsg as [Htok Hmean].
  apply andb_prop in Hmean as [Hmean Hlen]. apply andb_prop in Hmean as [Halnum Hstop].
  apply andb_prop in Hun as [Hchk Hgr].
  split; [done |]. split; [done |]. split; [by apply Nat.ltb_lt |].
  split; [by apply negb_true_iff, bool_decide_eq_false in Hstop |].
  split; [by apply negb_true_iff, bool_decide_eq_false in Hchk |].
  intros diff_token Hd. apply negb_true_iff in Hgr. unfold is_grounded in Hgr.
  destruct (contains (lower diff_token) (lower token)) eqn:E; [| done].
  assert (existsb (fun d => contains (lower d) (lower token)) diff_tokens = true)
    by (apply existsb_exists; eauto).
  congruence.
Qed.

(** A message all of whose meaningful tokens are allowed technical terms
    ("fix bug", "update tests") is never flagged, whatever the diff: no
    token is checked and the rate is 0. *)
Theorem generic_message_is_never_flagged (message diff : string) :
  Forall (fun token => lower token ∈ allowed_technical_terms)
         (_extract_meaningful_tokens message) ->
  detect_hallucination message diff
  = [ ("detected", VBool false);
      ("hallucination_rate", VFloat 0);
      ("ungrounded_tokens", VList []);
      ("total_tokens_checked", VInt 0) ].
Proof.
  intros Hall. unfold detect_hallucination. rewrite hallucination_report_eq. cbv zeta.
  unfold scanned. rewrite scan_tokens_filter. cbn [fst snd].
  assert (Hc : List.filter is_checked (_extract_meaningful_tokens message) = []).
  { induction Hall as [|t ts Ht _ IH]; simpl; [done |].
    unfold is_checked at 1. by rewrite bool_decide_eq_true_2. }
  assert (Hu : List.filter (is_ungrounded (_extract_diff_tokens diff))
                 (_extract_meaningful_tokens message) = []).
  { pose proof (filter_length_le (is_ungrounded (_extract_diff_tokens diff)) is_checked
                  (_extract_meaningful_tokens message)) as Hle.
    rewrite Hc in Hle. simpl in Hle.
    destruct (List.filter (is_ungrounded _) _); [done |].
    simpl in Hle. exfalso.
    assert (S (length l) <= 0); [| lia].
    apply Hle. intros x Hx. by apply andb_prop in Hx as [? _]. }
  rewrite Hc, Hu. reflexivity.
Qed.

(** Against a diff in which the tokenizer finds no token, every checked
    token is ungrounded: a message with at least one checked token is
    flagged. *)
Theorem tokenless_diff_grounds_nothing (message diff : string) :
  _extract_diff_tokens diff = [] ->
  let checked := List.filter is_checked (_extract_meaningful_tokens message) in
  dict_lookup (detect_hallucination message diff) "ungrounded_tokens"
  = Some (VList (map VStr checked))
  /\ dict_lookup (detect_hallucination message diff) "detected"
     = Some (VBool (0 <? length checked)).
Proof.
  intros Hd checked. unfold detect_hallucination. rewrite hallucination_report_eq. cbv zeta.
  unfold scanned. rewrite scan_tokens_filter, Hd. cbn [fst snd dict_lookup String.eqb
    Ascii.eqb Bool.eqb].
  assert (Hf : List.filter (is_ungrounded []) (_extract_meaningful_tokens message) = checked).
  { subst checked. apply filter_ext. intros t. unfold is_ungrounded, is_grounded. simpl.
    apply andb_true_r. }
  rewrite Hf. split; [reflexivity |]. do 2 f_equal.
  unfold hallucination_rate_of. fold checked.
  destruct (length checked) as [|n].
  - by vm_compute.
  - cbn [Nat.eqb]. rewrite len_truediv_self by lia. by vm_compute.
Qed.

End GroundingProps.

Section GroundingExamples.
Import PyStr EvaluateSimple Sample.

Lemma ungrounded_tokens_are_filtered_witness :
  let H := sample_externals in
  In "tokenizer" (List.filter (is_ungrounded (_extract_diff_tokens sample_diff))
                    (_extract_meaningful_tokens "Rewrite the tokenizer"))
  /\ isalnum "tokenizer" = true
  /\ ("tokenizer" ∉ stopword_set).
Proof.
  intros H.
  destruct (ungrounded_tokens_are_filtered "Rewrite the tokenizer" sample_diff)
    as (_ & _ & Hall).
  assert (Hin : In "tokenizer"
                  (List.filter (is_ungrounded (_extract_diff_tokens sample_diff))
                     (_extract_meaningful_tokens "Rewrite the tokenizer")))
    by (vm_compute; tauto).
  destruct (Hall "tokenizer" Hin) as (_ & Ha & _ & Hs & _).
  split; [exact Hin |]. split; [exact Ha | exact Hs].
Defined.

Lemma generic_message_is_never_flagged_witness :
  let H := sample_externals in
  Forall (fun token => lower token ∈ allowed_technical_terms)
         (_extract_meaningful_tokens "Fix the bug")
  /\ dict_lookup (detect_hallucination "Fix the bug" sample_diff) "detected"
     = Some (VBool false).
Proof.
  intros H.
  assert (Hall : Forall (fun token => lower token ∈ allowed_technical_terms)
                   (_extract_meaningful_tokens "Fix the bug")).
  { change (_extract_meaningful_tokens "Fix the bug") with ["fix"; "bug"].
    repeat constructor; by vm_compute. }
  split; [exact Hall |].
  by rewrite (generic_message_is_never_flagged "Fix the bug" sample_diff Hall).
Defined.

Lemma tokenless_diff_grounds_nothing_witness :
  let H := sample_externals in
  _extract_diff_tokens EmptyString = []
  /\ dict_lookup (detect_hallucination "Rewrite the tokenizer" EmptyString) "detected"
     = Some (VBool true).
Proof.
  intros H.
  assert (Hnone : _extract_diff_tokens EmptyString = []) by (vm_compute; reflexivity).
  split; [exact Hnone |].
  destruct (tokenless_diff_grounds_nothing "Rewrite the tokenizer" EmptyString Hnone)
    as [_ Hd].
  rewrite Hd. vm_compute. reflexivity.
Defined.

End GroundingExamples.

(** ** [_lcs] computes the length of a longest common subsequence *)

Section LcsProps.
Import PyStr EvaluateSimple.

(** The recurrence that the table of [_lcs] implements, on the lengths
    [i] and [j] of the prefixes compared. *)
Fixpoint lcs_prefix (seq1 seq2 : list string) (i j : nat) {struct i} : nat :=
  match i with
  | 0 => 0
  | S i' =>
      (fix row (j : nat) : nat :=
         match j with
         | 0 => 0
         | S j' =>
             if bool_decide (seq1 !! i' = seq2 !! j')
             then lcs_prefix seq1 seq2 i' j' + 1
             else Nat.max (lcs_prefix seq1 seq2 i' (S j')) (row j')
         end) j
  end.

Lemma lcs_prefix_0_r seq1 seq2 i : lcs_prefix seq1 seq2 i 0 = 0.
Proof. by destruct i. Qed.

Lemma lcs_prefix_S seq1 seq2 i j :
  lcs_prefix seq1 seq2 (S i) (S j)
  = if bool_decide (seq1 !! i = seq2 !! j)
    then lcs_prefix seq1 seq2 i j + 1
    else Nat.max (lcs_prefix seq1 seq2 i (S j)) (lcs_prefix seq1 seq2 (S i) j).
Proof. reflexivity. Qed.

(** One row of the table. *)
Lemma lcs_row_prefix (seq1 seq2 : list string) (dp : list (list nat)) (i : nat) :
  let m := length seq1 in
  let n := length seq2 in
  i < m -> dp_shape m n dp ->
  (forall i', dp_get dp i' 0 = 0) ->
  (forall i' j', i' <= i -> j' <= n -> dp_get dp i' j' = lcs_prefix seq1 seq2 i' j') ->
  dp_shape m n (lcs_row seq1 seq2 dp (S i))
  /\ (forall i', dp_get (lcs_row seq1 seq2 dp (S i)) i' 0 = 0)
  /\ (forall i' j', i' <= S i -> j' <= n ->
        dp_get (lcs_row seq1 seq2 dp (S i)) i' j' = lcs_prefix seq1 seq2 i' j').
Proof.
  intros m n Hi Hshape Hcol Hdone. unfold lcs_row.
  pose (P := fun (j : nat) (d : list (list nat)) =>
    dp_shape m n d
    /\ (forall i', dp_get d i' 0 = 0)
    /\ (forall i' j', i' <= i -> j' <= n -> dp_get d i' j' = lcs_prefix seq1 seq2 i' j')
    /\ (forall j', j' <= j -> dp_get d (S i) j' = lcs_prefix seq1 seq2 (S i) j')).
  assert (HP : P n (fold_left (lcs_cell seq1 seq2 (S i)) (seq 1 (length seq2)) dp)).
  { apply (fold_left_seq_invariant (lcs_cell seq1 seq2 (S i)) P dp n); unfold P.
    - split; [done |]. split; [done |]. split; [done |].
      intros j' Hj'. assert (j' = 0) as -> by lia. by rewrite Hcol, lcs_prefix_0_r.
    - intros j d Hj (Hs & Hc & Hd & Hr).
      assert (Hcell : lcs_cell seq1 seq2 (S i) d (S j)
                      = dp_set d (S i) (S j) (lcs_prefix seq1 seq2 (S i) (S j))).
      { unfold lcs_cell. rewrite lcs_prefix_S.
        replace (S i - 1) with i by lia. replace (S j - 1) with j by lia.
        destruct (bool_decide _).
        - by rewrite Hd by lia.
        - by rewrite Hd, Hr by lia. }
      rewrite Hcell.
      split; [by apply dp_set_shape |]. split; [| split].
      + intros i'. rewrite dp_get_set_other by lia. apply Hc.
      + intros i' j' Hi' Hj'. rewrite dp_get_set_other by lia. by apply Hd.
      + intros j' Hj'. destruct (decide (j' = S j)) as [->|Hne].
        * by rewrite (dp_get_set_same m n) by (done || lia).
        * rewrite dp_get_set_other by lia. apply Hr. lia. }
  destruct HP as (Hs & Hc & Hd & Hr). split; [done |]. split; [done |].
  intros i' j' Hi' Hj'.
  destruct (decide (i' = S i)) as [->|Hne]; [by apply Hr | apply Hd; lia].
Qed.

(** The table as a whole: [_lcs] returns the value of the recurrence. *)
Lemma lcs_prefix_correct (seq1 seq2 : list string) :
  _lcs seq1 seq2 = lcs_prefix seq1 seq2 (length seq1) (length seq2).
Proof.
  unfold _lcs. set (m := length seq1). set (n := length seq2).
  pose (P := fun (i : nat) (d : list (list nat)) =>
    dp_shape m n d
    /\ (forall i', dp_get d i' 0 = 0)
    /\ (forall i' j', i' <= i -> j' <= n -> dp_get d i' j' = lcs_prefix seq1 seq2 i' j')).
  assert (Hzero : forall i' j', dp_get (replicate (m + 1) (replicate (n + 1) 0)) i' j' = 0).
  { intros i' j'. unfold dp_get.
    destruct (replicate (m + 1) (replicate (n + 1) 0) !! i') as [row|] eqn:E; [| done].
    apply lookup_replicate in E as [-> _]. simpl.
    destruct (replicate (n + 1) 0 !! j') as [v|] eqn:E'; [| done].
    by apply lookup_replicate in E' as [-> _]. }
  assert (HP : P m (fold_left (lcs_row seq1 seq2) (seq 1 m)
                      (replicate (m + 1) (replicate (n + 1) 0)))).
  { apply (fold_left_seq_invariant (lcs_row seq1 seq2) P _ m); unfold P.
    - split.
      + split; [rewrite length_replicate; lia |].
        apply Forall_replicate. rewrite length_replicate. lia.
      + split; [intros; apply Hzero |].
        intros i' j' Hi' _. assert (i' = 0) as -> by lia. by rewrite Hzero.
    - intros i d Hi (Hs & Hc & Hd). by apply lcs_row_prefix. }
  destruct HP as (_ & _ & Hd). by apply Hd.
Qed.

(** Subsequences of a sequence extended by one element at its end. *)
Lemma sublist_snoc_r {A} (l k : list A) (x : A) :
  l `sublist_of` k ++ [x]
  <-> l `sublist_of` k \/ exists l', l = l' ++ [x] /\ l' `sublist_of` k.
Proof.
  rewrite sublist_app_r. split.
  - intros (k1 & k2 & -> & H1 & H2).
    apply sublist_cons_r in H2 as [H2 | (k2' & -> & H2)];
      apply sublist_nil_r in H2 as ->.
    + left. by rewrite app_nil_r.
    + right. eauto.
  - intros [Hl | (l' & -> & Hl)].
    + exists l, []. rewrite app_nil_r. split; [done |]. split; [done |].
      apply sublist_nil_l.
    + exists l', [x]. by repeat split.
Qed.

Lemma sublist_snoc_l {A} (l k : list A) (x : A) :
  l ++ [x] `sublist_of` k -> l `sublist_of` k.
Proof. intros Hs. etrans; [| exact Hs]. by apply sublist_inserts_r. Qed.

(** The recurrence gives the length of a longest common subsequence of
    the two prefixes. *)
Lemma lcs_prefix_longest (seq1 seq2 : list string) (i j : nat) :
  i <= length seq1 -> j <= length seq2 ->
  (exists l, l `sublist_of` take i seq1 /\ l `sublist_of` take j seq2
             /\ length l = lcs_prefix seq1 seq2 i j)
  /\ (forall l, l `sublist_of` take i seq1 -> l `sublist_of` take j seq2 ->
        length l <= lcs_prefix seq1 seq2 i j).
Proof.
  revert j. induction i as [|i IHi]; intros j Hi Hj.
  { split.
    - exists []. simpl. split; [done |]. split; [apply sublist_nil_l | done].
    - intros l Hl _. simpl in Hl. by apply sublist_nil_r in Hl as ->. }
  induction j as [|j IHj].
  { rewrite lcs_prefix_0_r. split.
    - exists []. simpl. split; [apply sublist_nil_l |]. by split.
    - intros l _ Hl. simpl in Hl. by apply sublist_nil_r in Hl as ->. }
  destruct (lookup_lt_is_Some_2 seq1 i) as [x Hx]; [lia |].
  destruct (lookup_lt_is_Some_2 seq2 j) as [y Hy]; [lia |].
  rewrite (take_S_r _ _ _ Hx), (take_S_r _ _ _ Hy), lcs_prefix_S, Hx, Hy.
  destruct (IHi j) as [(l0 & Hl01 & Hl02 & Hlen0) Hup0]; [lia | lia |].
  destruct (IHi (S j)) as [(l1 & Hl11 & Hl12 & Hlen1) Hup1]; [lia | lia |].
  destruct IHj as [(l2 & Hl21 & Hl22 & Hlen2) Hup2]; [lia |].
  rewrite (take_S_r _ _ _ Hy) in Hl12, Hup1.
  rewrite (take_S_r _ _ _ Hx) in Hl21, Hup2.
  destruct (bool_decide (Some x = Some y)) eqn:Exy.
  - apply bool_decide_eq_true in Exy. injection Exy as <-. split.
    + exists (l0 ++ [x]). split; [by apply sublist_app |]. split; [by apply sublist_app |].
      rewrite length_app. simpl. lia.
    + intros l H1 H2.
      apply sublist_snoc_r in H1 as [H1 | (l' & -> & H1)].
      * apply sublist_snoc_r in H2 as [H2 | (l'' & -> & H2)].
        -- specialize (Hup0 l H1 H2). lia.
        -- apply sublist_snoc_l in H1. specialize (Hup0 l'' H1 H2).
           rewrite length_app. simpl. lia.
      * assert (H2' : l' `sublist_of` take j seq2).
        { apply sublist_snoc_r in H2 as [H2 | (l'' & E & H2)].
          - by apply sublist_snoc_l in H2.
          - by apply app_inj_tail in E as [-> _]. }
        specialize (Hup0 l' H1 H2'). rewrite length_app. simpl. lia.
  - apply bool_decide_eq_false in Exy. split.
    + destruct (Nat.max_spec (lcs_prefix seq1 seq2 i (S j)) (lcs_prefix seq1 seq2 (S i) j))
        as [[_ ->] | [_ ->]].
      * exists l2. split; [done |]. split; [by apply sublist_inserts_r | done].
      * exists l1. split; [by apply sublist_inserts_r | by split].
    + intros l H1 H2.
      apply sublist_snoc_r in H1 as [H1 | (l' & -> & H1)].
      * specialize (Hup1 l H1 H2). lia.
      * assert (H1' : l' ++ [x] `sublist_of` take i seq1 ++ [x]) by by apply sublist_app.
        apply sublist_snoc_r in H2 as [H2 | (l'' & E & H2)].
        -- specialize (Hup2 _ H1' H2). lia.
        -- apply app_inj_tail in E as [_ E]. congruence.
Qed.

Lemma lcs_upper_bound (seq1 seq2 : list string) :
  _lcs seq1 seq2 <= Nat.min (length seq1) (length seq2).
Proof.
  rewrite lcs_prefix_correct.
  destruct (lcs_prefix_longest seq1 seq2 (length seq1) (length seq2))
    as [(l & H1 & H2 & <-) _]; [done | done |].
  rewrite firstn_all in H1, H2. apply sublist_length in H1, H2. lia.
Qed.

(** [_lcs] returns the length of a longest common subsequence of its two
    arguments: some list that can be obtained from either by deleting
    elements has that length, and none is longer.  So the result is at most
    the length of the shorter argument. *)
Theorem lcs_is_longest_common_subsequence (seq1 seq2 : list string) :
  (exists l, l `sublist_of` seq1 /\ l `sublist_of` seq2 /\ length l = _lcs seq1 seq2)
  /\ (forall l, l `sublist_of` seq1 -> l `sublist_of` seq2 -> length l <= _lcs seq1 seq2)
  /\ _lcs seq1 seq2 <= Nat.min (length seq1) (length seq2).
Proof.
  split; [| split; [| apply lcs_upper_bound]]; rewrite lcs_prefix_correct;
    destruct (lcs_prefix_longest seq1 seq2 (length seq1) (length seq2)) as [Hex Hup];
    try done; by rewrite !firstn_all in Hex, Hup.
Qed.

Lemma lcs_is_longest_common_subsequence_witness :
  ["fix"; "bug"] `sublist_of` ["fix"; "login"; "bug"]
  /\ ["fix"; "bug"] `sublist_of` ["fix"; "the"; "bug"; "now"]
  /\ 2 <= _lcs ["fix"; "login"; "bug"] ["fix"; "the"; "bug"; "now"].
Proof.
  assert (H1 : ["fix"; "bug"] `sublist_of` ["fix"; "login"; "bug"])
    by (apply sublist_skip, sublist_cons, sublist_skip, sublist_nil).
  assert (H2 : ["fix"; "bug"] `sublist_of` ["fix"; "the"; "bug"; "now"])
    by (apply sublist_skip, sublist_cons, sublist_skip, sublist_cons, sublist_nil).
  split; [exact H1 |]. split; [exact H2 |].
  destruct (lcs_is_longest_common_subsequence ["fix"; "login"; "bug"]
              ["fix"; "the"; "bug"; "now"]) as (_ & Hup & _).
  exact (Hup ["fix"; "bug"] H1 H2).
Defined.

End LcsProps.

(** ** Ranges and edge cases of the metrics *)

Section MetricProps.
Import PyStr EvaluateSimple.
Context `{Externals}.

Lemma py_round_le_Z (x : Q) (n : nat) (k : Z) :
  (x <= inject_Z k)%Q -> (py_round x n <= inject_Z k)%Q.
Proof.
  intros Hx. unfold py_round. rewrite Qred_correct.
  pose proof (scale_pos n) as Hs. set (s := (10 ^ Z.of_nat n)%Z) in *.
  apply Qle_shift_div_r; [done |]. rewrite <- inject_Z_mult, <- Zle_Qle.
  apply round_half_even_le. rewrite inject_Z_mult. nra.
Qed.

Lemma rouge_n_range (gen_tokens ref_tokens : list string) (n : nat) :
  (0 <= _rouge_n gen_tokens ref_tokens n <= 1)%Q.
Proof.
  unfold _rouge_n. destruct (_ =? 0); [lra |].
  destruct (0 <? _) eqn:E; [| lra]. apply Nat.ltb_lt in E.
  apply len_truediv_range; [| done].
  apply gmultiset_subseteq_size. multiset_solver.
Qed.

Lemma rouge_l_range (gen_tokens ref_tokens : list string) :
  (0 <= _rouge_l gen_tokens ref_tokens <= 1)%Q.
Proof.
  unfold _rouge_l. destruct (_ =? 0) eqn:E; [lra |]. apply Nat.eqb_neq in E.
  apply len_truediv_range; [| lia].
  pose proof (lcs_upper_bound gen_tokens ref_tokens). lia.
Qed.

Lemma percent_range (x : Q) :
  (0 <= x <= 1)%Q -> (0 <= py_round (float_mul x 100) 2 <= 100)%Q.
Proof.
  intros [H0 H1]. split.
  - apply py_round_nonneg. apply float_mul_nonneg; lra.
  - apply (py_round_le_Z _ 2 100). change (inject_Z 100) with 100%Q.
    apply Qle_trans with (float_mul 1 100); [| by vm_compute].
    apply float_mul_mono; lra.
Qed.

Lemma compute_rouge_shape (generated reference : string) :
  exists rouge1 rouge2 rougeL,
    compute_rouge generated reference
    = [ ("rouge1", VFloat rouge1); ("rouge2", VFloat rouge2); ("rougeL", VFloat rougeL) ].
Proof. unfold compute_rouge. cbv zeta. by eexists _, _, _. Qed.

(** [compute_rouge] always returns the three scores "rouge1", "rouge2" and
    "rougeL", each between 0 and 100. *)
Theorem rouge_scores_in_range (generated reference : string) :
  exists rouge1 rouge2 rougeL,
    compute_rouge generated reference
    = [ ("rouge1", VFloat rouge1); ("rouge2", VFloat rouge2); ("rougeL", VFloat rougeL) ]
    /\ (0 <= rouge1 <= 100)%Q /\ (0 <= rouge2 <= 100)%Q /\ (0 <= rougeL <= 100)%Q.
Proof.
  unfold compute_rouge. cbv zeta. eexists _, _, _. split; [reflexivity |].
  split; [| split].
  - apply percent_range, rouge_n_range.
  - apply percent_range, rouge_n_range.
  - apply percent_range, rouge_l_range.
Qed.

(** A message of fewer than four tokens has no 4-gram, so its BLEU score is
    0 against every reference, itself included. *)
Theorem bleu_of_short_message (generated reference : string) :
  length (word_tokenize (lower generated)) < 4 ->
  compute_bleu generated reference = 0%Q.
Proof.
  intros Hshort. unfold compute_bleu. cbv zeta.
  destruct (_ =? 0); [done |].
  assert (H4 : bleu_precision (word_tokenize (lower generated))
                 (word_tokenize (lower reference)) 4 = 0%Q).
  { unfold bleu_precision, _get_ngrams.
    replace (length (word_tokenize (lower generated)) + 1 - 4) with 0 by lia.
    reflexivity. }
  cbn [map forallb]. rewrite H4.
  replace (Qgtb 0 0) with false by reflexivity. rewrite !andb_false_r.
  rewrite float_mul_0_r, float_mul_0_l. by vm_compute.
Qed.

(** [compute_word_overlap] is symmetric in its two arguments and lies
    between 0 and 1. *)
Theorem word_overlap_symmetric (generated reference : string) :
  compute_word_overlap generated reference = compute_word_overlap reference generated
  /\ (0 <= compute_word_overlap generated reference <= 1)%Q.
Proof.
  split.
  - rewrite !word_overlap_eq. cbv zeta. rewrite orb_comm. unfold jaccard.
    by rewrite (comm_L (∩) (content_words generated)),
               (comm_L (∪) (content_words generated)).
  - rewrite word_overlap_eq. cbv zeta.
    destruct (Nat.eqb_spec (size (content_words generated)) 0) as [E|E]; [simpl; lra |].
    destruct (_ =? 0); [simpl; lra |]. cbn [orb].
    destruct (jaccard_range (content_words generated) (content_words reference)) as [H0 H1];
      [lia |].
    split; [by apply py_round_nonneg | by apply py_round_le_one].
Qed.

(** The two evaluators differ only in the cut-off: whatever [evaluate.py]
    flags (ratio above 0.15) is flagged by [evaluate_simple.py] (ratio above
    0.10), and all other fields of the two reports are equal. *)
Theorem strict_evaluator_flags_more (message diff : string) :
  let strict := EvaluateSimple.detect_hallucination message diff in
  let lenient := Evaluate.detect_hallucination message diff in
  (dict_lookup lenient "detected" = Some (VBool true) ->
   dict_lookup strict "detected" = Some (VBool true))
  /\ (forall key, key <> "detected" -> dict_lookup lenient key = dict_lookup strict key).
Proof.
  intros strict lenient. subst strict lenient.
  unfold EvaluateSimple.detect_hallucination, Evaluate.detect_hallucination.
  rewrite !hallucination_report_eq. cbv zeta. split.
  - cbn [dict_lookup String.eqb Ascii.eqb Bool.eqb]. intros [= E]. do 2 f_equal.
    apply Qgtb_true in E. apply Qgtb_true.
    assert (Hthr : (fl 0.10 <= fl 0.15)%Q) by (vm_compute; discriminate).
    lra.
  - intros key Hkey. cbn [dict_lookup].
    destruct (String.eqb_spec "detected" key) as [<-|_]; [done | reflexivity].
Qed.

(** [batch_evaluate] never raises.  It returns one result per position
    that all three lists have, so as many as the shortest list (the
    surplus of the longer lists is silently ignored), and the result at a
    position is the one [evaluate_message] returns for the entries there. *)
Theorem batch_evaluate_zips (predictions references diffs : list string) :
  exists results,
    batch_evaluate predictions references diffs = Ok results
    /\ length results
       = Nat.min (length predictions) (Nat.min (length references) (length diffs))
    /\ (forall i pred ref diff,
          predictions !! i = Some pred -> references !! i = Some ref ->
          diffs !! i = Some diff ->
          exists result,
            results !! i = Some result /\ evaluate_message pred ref diff = Ok result).
Proof.
  unfold batch_evaluate.
  revert references diffs. induction predictions as [|p ps IH]; intros rs ds.
  { exists []. simpl. split; [reflexivity |]. split; [done |]. intros i ? ? ? Hp. done. }
  destruct rs as [|r rs].
  { exists []. simpl. split; [reflexivity |]. split; [done |]. intros i ? ? ? _ Hr. done. }
  destruct ds as [|d ds].
  { exists []. simpl. split; [reflexivity |]. split; [lia |]. intros i ? ? ? _ _ Hd. done. }
  destruct (IH rs ds) as (results & Hres & Hlen & Hat).
  destruct (evaluate_message_keys p r d) as (b & ro & s & h & q & Hev).
  eexists (_ :: results). cbn [zip zip_with mapM]. rewrite Hev.
  cbn [mbind result_bind]. 
  change (zip_with pair (zip_with pair ps rs) ds) with (zip (zip ps rs) ds).
  rewrite Hres. cbn [mbind result_bind mret result_ret].
  split; [reflexivity |]. split; [simpl; lia |].
  intros [|i] pred ref diff Hp Hr Hd; simpl in *.
  - injection Hp as <-. injection Hr as <-. injection Hd as <-. eauto.
  - by apply Hat.
Qed.

End MetricProps.

Section MetricExamples.
Import PyStr EvaluateSimple Sample.

Lemma bleu_of_short_message_witness :
  let H := sample_externals in
  length (word_tokenize (lower "Fix login bug")) < 4
  /\ compute_bleu "Fix login bug" "Fix login bug" = 0%Q.
Proof.
  intros H.
  assert (Hshort : length (word_tokenize (lower "Fix login bug")) < 4) by (vm_compute; lia).
  split; [exact Hshort |]. exact (bleu_of_short_message _ _ Hshort).
Defined.

Lemma strict_evaluator_flags_more_witness :
  let H := sample_externals in
  dict_lookup (Evaluate.detect_hallucination "Rewrite the tokenizer" sample_diff) "detected"
  = Some (VBool true)
  /\ dict_lookup (EvaluateSimple.detect_hallucination "Rewrite the tokenizer" sample_diff)
       "detected" = Some (VBool true).
Proof.
  intros H.
  assert (Hl : dict_lookup (Evaluate.detect_hallucination "Rewrite the tokenizer" sample_diff)
                 "detected" = Some (VBool true)) by (vm_compute; reflexivity).
  split; [exact Hl |].
  exact (proj1 (strict_evaluator_flags_more "Rewrite the tokenizer" sample_diff) Hl).
Defined.

Lemma batch_evaluate_zips_witness :
  let H := sample_externals in
  exists results,
    batch_evaluate ["Fix login bug"; "Update parser"] ["Fix bug"] [sample_diff; sample_diff]
    = Ok results
    /\ length results = 1.
Proof.
  intros H.
  destruct (batch_evaluate_zips ["Fix login bug"; "Update parser"] ["Fix bug"]
              [sample_diff; sample_diff]) as (results & Hres & Hlen & _).
  exists results. split; [exact Hres | exact Hlen].
Defined.

End MetricExamples.

(** ** Diff statistics *)

Section DiffStatsProps.
Import PyStr GitInterface.

(** Field-wise sum of two statistics. *)
Definition stats_add (a b : diff_stats) : diff_stats :=
  {| files_changed := files_changed a + files_changed b;
     insertions := insertions a + insertions b;
     deletions := deletions a + deletions b;
     total_changes := total_changes a + total_changes b |}.

Definition no_stats : diff_stats :=
  {| files_changed := 0; insertions := 0; deletions := 0; total_changes := 0 |}.

Lemma stats_eq (a b : diff_stats) :
  files_changed a = files_changed b -> insertions a = insertions b ->
  deletions a = deletions b -> total_changes a = total_changes b -> a = b.
Proof. destruct a, b. simpl. by intros -> -> -> ->. Qed.

Lemma count_line_add (stats : diff_stats) (line : string) :
  count_line stats line = stats_add stats (count_line no_stats line).
Proof.
  unfold count_line.
  destruct (startswith line "diff --git"); [apply stats_eq; simpl; lia |].
  destruct (startswith line "+" && _); [apply stats_eq; simpl; lia |].
  destruct (startswith line "-" && _); apply stats_eq; simpl; lia.
Qed.

Lemma fold_count_line_add (lines : list string) (stats : diff_stats) :
  fold_left count_line lines stats = stats_add stats (fold_left count_line lines no_stats).
Proof.
  revert stats. induction lines as [|line lines IH]; intros stats; simpl.
  - apply stats_eq; simpl; lia.
  - rewrite IH, (IH (count_line no_stats line)), (count_line_add stats).
    apply stats_eq; simpl; lia.
Qed.

Lemma count_line_bounds (line : string) :
  total_changes (count_line no_stats line)
  = insertions (count_line no_stats line) + deletions (count_line no_stats line)
  /\ files_changed (count_line no_stats line) + total_changes (count_line no_stats line) <= 1.
Proof.
  unfold count_line.
  destruct (startswith line "diff --git"); [simpl; lia |].
  destruct (startswith line "+" && _); [simpl; lia |].
  destruct (startswith line "-" && _); simpl; lia.
Qed.

Lemma fold_count_line_bounds (lines : list string) :
  let stats := fold_left count_line lines no_stats in
  total_changes stats = insertions stats + deletions stats
  /\ files_changed stats + total_changes stats <= length lines.
Proof.
  induction lines as [|line lines IH]; cbv zeta; [simpl; lia |].
  cbn [fold_left length]. rewrite fold_count_line_add.
  cbv zeta in IH. destruct IH as [IH1 IH2].
  destruct (count_line_bounds line) as [H1 H2].
  unfold stats_add. cbn [files_changed insertions deletions total_changes]. lia.
Qed.

Lemma split_chars_app (sep : ascii) (cur l1 l2 : list ascii) :
  split_chars sep cur (l1 ++ sep :: l2)
  = split_chars sep cur l1 ++ split_chars sep [] l2.
Proof.
  revert cur. induction l1 as [|c l1 IH]; intros cur; simpl.
  - by rewrite Ascii.eqb_refl.
  - destruct (Ascii.eqb c sep); [by rewrite IH | apply IH].
Qed.

(** [parse_diff_stats] counts every line at most once: the total is the
    number of insertions plus the number of deletions, and files and
    changes together never exceed the number of lines.  The statistics of
    two diffs joined by a newline are the sums of their statistics. *)
Theorem diff_stats_are_additive (diff1 diff2 : string) :
  let stats := parse_diff_stats diff1 in
  total_changes stats = insertions stats + deletions stats
  /\ files_changed stats + total_changes stats <= length (split nl diff1)
  /\ parse_diff_stats (diff1 +:+ String nl diff2)
     = stats_add (parse_diff_stats diff1) (parse_diff_stats diff2).
Proof.
  intros stats. subst stats. unfold parse_diff_stats. cbv zeta. fold no_stats.
  split; [apply fold_count_line_bounds |]. split; [apply fold_count_line_bounds |].
  unfold split. rewrite chars_app.
  change (chars (String nl diff2)) with (nl :: chars diff2).
  rewrite split_chars_app, map_app, fold_left_app.
  apply fold_count_line_add.
Qed.

End DiffStatsProps.

(** ** The endpoints of [main.py] *)

Section EndpointProps.
Import PyStr Safety EvaluateSimple Main.
Context `{Externals}.

Lemma detect_hallucination_shape (message diff : string) :
  exists (detected : bool) rate tokens total,
    detect_hallucination message diff
    = [ ("detected", VBool detected);
        ("hallucination_rate", VFloat rate);
        ("ungrounded_tokens", VList (map VStr tokens));
        ("total_tokens_checked", VInt total) ].
Proof.
  unfold detect_hallucination. rewrite hallucination_report_eq. cbv zeta.
  by eexists _, _, _, _.
Qed.

(** The dict of [evaluate_message], field by field. *)
Lemma evaluate_message_shape (generated reference diff : string) :
  exists quality,
    evaluate_message generated reference diff
    = Ok [ ("bleu", VFloat (compute_bleu generated reference));
           ("rouge", VDict (compute_rouge generated reference));
           ("semantic_similarity", VFloat (compute_word_overlap generated reference));
           ("hallucination", VDict (detect_hallucination generated diff));
           ("quality_score", VFloat quality) ].
Proof.
  unfold evaluate_message, _compute_quality_score, dict_item.
  destruct (detect_hallucination_shape generated diff) as (b & rate & tokens & total & ->).
  destruct (compute_rouge_shape generated reference) as (r1 & r2 & rL & ->).
  generalize (compute_bleu generated reference) as bleu.
  generalize (compute_word_overlap generated reference) as semantic.
  intros semantic bleu. simpl. eauto.
Qed.

Lemma join_items_strings (tokens : list string) :
  join_items (VList (map VStr tokens)) = Ok tokens.
Proof.
  unfold join_items. induction tokens as [|t ts IH]; [reflexivity |].
  cbn [map mapM]. cbn [mbind result_bind]. rewrite IH. reflexivity.
Qed.

(** The severity that the handlers derive from an evaluation. *)
Definition api_severity (detected : bool) : string := if detected then "LOW" else "NONE".

(** The safety assessment that both handlers compute from the result of
    [evaluate_message]. *)
Lemma assess_safety_of_evaluation (generated reference diff : string) :
  exists results quality (detected : bool) rate tokens total,
    evaluate_message generated reference diff = Ok results
    /\ results
       = [ ("bleu", VFloat (compute_bleu generated reference));
           ("rouge", VDict (compute_rouge generated reference));
           ("semantic_similarity", VFloat (compute_word_overlap generated reference));
           ("hallucination", VDict (detect_hallucination generated diff));
           ("quality_score", VFloat quality) ]
    /\ detect_hallucination generated diff
       = [ ("detected", VBool detected);
           ("hallucination_rate", VFloat rate);
           ("ungrounded_tokens", VList (map VStr tokens));
           ("total_tokens_checked", VInt total) ]
    /\ assess_safety results
       = Ok {| hallucination_rate := VFloat 0.0;
               hallucination_detected := VBool detected;
               hallucination_severity := api_severity detected;
               safety_warnings :=
                 generate_safety_warnings (api_severity detected) (Some tokens) quality;
               confidence_level := get_confidence_level quality (api_severity detected);
               usage_recommendations :=
                 get_usage_recommendations
                   (get_confidence_level quality (api_severity detected))
                   (api_severity detected) |}.
Proof.
  destruct (evaluate_message_shape generated reference diff) as (quality & Hev).
  destruct (detect_hallucination_shape generated diff) as (b & rate & tokens & total & Hd).
  eexists _, quality, b, rate, tokens, total.
  split; [exact Hev |]. split; [reflexivity |]. split; [exact Hd |].
  unfold assess_safety. rewrite Hd.
  cbn [dict_item dict_lookup dict_get String.eqb Ascii.eqb Bool.eqb mbind result_bind
       py_dict py_number fmap option_fmap option_map].
  assert (Hs : MultiAgent.str_items (VList (map VStr tokens)) = tokens).
  { unfold MultiAgent.str_items. clear. induction tokens as [|t ts IH]; [done |].
    cbn [map omap list_omap]. cbn [omap list_omap] in IH. by rewrite IH. }
  rewrite Hs. destruct b; reflexivity.
Qed.

(** The line of [_generate_feedback] on hallucination. *)
Definition hallucination_feedback (detected : bool) (tokens : list string) : string :=
  if detected
  then "⚠ Potential hallucination detected: " +:+ join ", " (take 5 tokens)
  else "✓ No hallucinations detected".

Lemma generate_feedback_of_evaluation (bleu semantic quality rate : Q) (rouge : pyval)
    (detected : bool) (tokens : list string) (total : Z) (warnings : list string) :
  exists bleu_line semantic_line quality_line,
    _generate_feedback
      [ ("bleu", VFloat bleu); ("rouge", rouge); ("semantic_similarity", VFloat semantic);
        ("hallucination",
         VDict [ ("detected", VBool detected);
                 ("hallucination_rate", VFloat rate);
                 ("ungrounded_tokens", VList (map VStr tokens));
                 ("total_tokens_checked", VInt total) ]);
        ("quality_score", VFloat quality) ]
      warnings
    = Ok (match warnings with [] => [] | _ :: _ => warnings ++ [EmptyString] end
          ++ [bleu_line; semantic_line; hallucination_feedback detected tokens;
              quality_line]).
Proof.
  unfold _generate_feedback.
  cbn [dict_item dict_lookup dict_get String.eqb Ascii.eqb Bool.eqb mbind result_bind
       py_dict py_number py_truth py_slice].
  rewrite firstn_map, join_items_strings. cbn [mbind result_bind].
  set (prefix := match warnings with [] => [] | _ :: _ => [] ++ warnings ++ [EmptyString] end).
  assert (Hp : prefix = match warnings with [] => [] | _ :: _ => warnings ++ [EmptyString] end)
    by (subst prefix; by destruct warnings).
  rewrite <- Hp. clear Hp. unfold hallucination_feedback.
  destruct (Qgtb bleu 15), (Qgtb semantic 0.7), (Qgtb semantic 0.5), detected,
    (Qgtb quality 0.7), (Qgtb quality 0.5);
    cbn [mbind result_bind]; rewrite <- ?app_assoc; cbn [app];
    eexists _, _, _; reflexivity.
Qed.

(** The reference that [check_commit] evaluates against. *)
Definition reference_of (commit_message : string) (reference_message : option string)
    : string :=
  match reference_message with
  | Some r => if py_truth (VStr r) then r else commit_message
  | None => commit_message
  end.

Definition is_blank (commit_message : string) : bool :=
  negb (py_truth (VStr commit_message)) || (len (strip commit_message) =? 0).

Lemma check_commit_body_ok (diff commit_message : string) (reference_message : option string) :
  let reference := reference_of commit_message reference_message in
  exists r quality (detected : bool) tokens bleu_line semantic_line quality_line,
    check_commit_body diff commit_message reference_message = Ok r
    /\ dict_lookup (detect_hallucination commit_message diff) "detected"
       = Some (VBool detected)
    /\ dict_lookup (detect_hallucination commit_message diff) "ungrounded_tokens"
       = Some (VList (map VStr tokens))
    /\ check_quality_score r = VFloat quality
    /\ check_bleu r = VFloat (compute_bleu commit_message reference)
    /\ check_rouge r = VDict (compute_rouge commit_message reference)
    /\ check_semantic_similarity r = VFloat (compute_word_overlap commit_message reference)
    /\ check_hallucination r = VDict (detect_hallucination commit_message diff)
    /\ check_assessment r
       = {| hallucination_rate := VFloat 0.0;
            hallucination_detected := VBool detected;
            hallucination_severity := api_severity detected;
            safety_warnings :=
              generate_safety_warnings (api_severity detected) (Some tokens) quality;
            confidence_level := get_confidence_level quality (api_severity detected);
            usage_recommendations :=
              get_usage_recommendations
                (get_confidence_level quality (api_severity detected))
                (api_severity detected) |}
    /\ check_feedback r
       = safety_warnings (check_assessment r) ++ [EmptyString]
         ++ [bleu_line; semantic_line; hallucination_feedback detected tokens; quality_line].
Proof.
  intros reference.
  destruct (assess_safety_of_evaluation commit_message reference diff)
    as (results & quality & detected & rate & tokens & total & Hev & Hres & Hd & Ha).
  destruct (generate_feedback_of_evaluation (compute_bleu commit_message reference)
              (compute_word_overlap commit_message reference) quality rate
              (VDict (compute_rouge commit_message reference)) detected tokens total
              (generate_safety_warnings (api_severity detected) (Some tokens) quality))
    as (l1 & l2 & l4 & Hfb).
  unfold check_commit_body. fold (reference_of commit_message reference_message).
  fold reference. rewrite Hev. cbn [mbind result_bind]. rewrite Ha. cbn [mbind result_bind].
  cbn [safety_warnings]. rewrite Hres, Hd, Hfb.
  cbn [dict_item dict_lookup String.eqb Ascii.eqb Bool.eqb mbind result_bind].
  eexists _, quality, detected, tokens, l1, l2, l4.
  split; [reflexivity |]. split; [reflexivity |]. split; [reflexivity |].
  cbn [check_quality_score check_bleu check_rouge check_semantic_similarity
       check_hallucination check_assessment check_feedback safety_warnings].
  repeat (split; [reflexivity |]).
  destruct (safety_warnings_closing (api_severity detected) (Some tokens) quality)
    as [_ [Hlen _]].
  destruct (generate_safety_warnings _ _ _); [simpl in Hlen; lia |].
  by rewrite <- app_assoc.
Qed.

(** [/checkCommit] answers every request with 400 or with a response,
    never with 500.  It answers 400 exactly when [validate_input] rejects
    the diff (with that check's message) or, for an accepted diff, when the
    commit message is empty or blank; whatever the answer, the rate-limit
    store is left as [validate_input] leaves it, so a request that is
    answered 400 for its content has used up one of the minute's slots. *)
Theorem check_commit_outcomes (now_iso : string) (now : Q) (store : gmap string (list Q))
    (diff commit_message : string) (reference_message : option string) :
  let validation := validate_input now_iso now store diff "unknown" in
  let answer := check_commit now_iso now store diff commit_message reference_message in
  answer.2 = store_of validation
  /\ (is_valid_of validation = false ->
      answer.1 = HTTPException (BadRequest (message_of validation)))
  /\ (is_valid_of validation = true -> is_blank commit_message = true ->
      answer.1 = HTTPException (BadRequest "Commit message cannot be empty"))
  /\ (is_valid_of validation = true -> is_blank commit_message = false ->
      exists r, answer.1 = Response r
                /\ check_commit_body diff commit_message reference_message = Ok r)
  /\ (forall e, answer.1 = HTTPException e -> status_code e = 400).
Proof.
  intros validation answer. subst answer. unfold check_commit. fold validation.
  destruct validation as [[[valid msg] md] st] eqn:Ev.
  unfold is_valid_of, message_of, store_of. cbn [fst snd].
  fold (is_blank commit_message).
  destruct (check_commit_body_ok diff commit_message reference_message)
    as (r & _ & _ & _ & _ & _ & _ & Hbody & _).
  rewrite Hbody.
  destruct valid; cbn [negb]; [destruct (is_blank commit_message) |]; cbn [fst snd];
    (split; [reflexivity |]); repeat split; intros; try done; eauto;
    match goal with
    | E : _ = HTTPException _ |- _ => by injection E as <-
    end.
Qed.

(** Every answer of [/checkCommit] that is a response carries as feedback
    the safety warnings, an empty separator line and then exactly four
    lines, on BLEU, on semantic similarity, on hallucination and on the
    quality score: between 6 and 9 lines in all.  The hallucination line
    names at most five ungrounded tokens, and says that there is no
    hallucination when the evaluator has not flagged the message. *)
Theorem check_commit_feedback_shape (now_iso : string) (now : Q)
    (store : gmap string (list Q)) (diff commit_message : string)
    (reference_message : option string) (r : check_response)
    (store' : gmap string (list Q)) :
  check_commit now_iso now store diff commit_message reference_message = (Response r, store') ->
  exists (detected : bool) tokens bleu_line semantic_line quality_line,
    dict_lookup (detect_hallucination commit_message diff) "detected" = Some (VBool detected)
    /\ dict_lookup (detect_hallucination commit_message diff) "ungrounded_tokens"
       = Some (VList (map VStr tokens))
    /\ check_feedback r
       = safety_warnings (check_assessment r) ++ [EmptyString]
         ++ [bleu_line; semantic_line; hallucination_feedback detected tokens; quality_line]
    /\ 6 <= length (check_feedback r) <= 9.
Proof.
  intros Hanswer. unfold check_commit in Hanswer.
  destruct (validate_input now_iso now store diff "unknown") as [[[valid msg] md] st].
  destruct valid; cbn [negb] in Hanswer; [| discriminate].
  destruct (negb _ || _); [discriminate |].
  destruct (check_commit_body_ok diff commit_message reference_message)
    as (r0 & quality & detected & tokens & l1 & l2 & l4
        & Hbody & Hd & Ht & _ & _ & _ & _ & _ & Ha & Hfb).
  rewrite Hbody in Hanswer. injection Hanswer as <- _.
  exists detected, tokens, l1, l2, l4.
  split; [exact Hd |]. split; [exact Ht |]. split; [exact Hfb |].
  rewrite Hfb, Ha. cbn [safety_warnings].
  destruct (safety_warnings_closing (api_severity detected) (Some tokens) quality)
    as [_ Hlen].
  rewrite !length_app. simpl. lia.
Qed.

Lemma generate_commit_body_ok (diff generated : string) :
  exists r quality (detected : bool) tokens rouge1 rouge2 rougeL,
    generate_commit_body diff generated = Ok r
    /\ compute_rouge generated generated
       = [ ("rouge1", VFloat rouge1); ("rouge2", VFloat rouge2); ("rougeL", VFloat rougeL) ]
    /\ dict_lookup (detect_hallucination generated diff) "detected" = Some (VBool detected)
    /\ evaluate_message generated generated diff
       = Ok [ ("bleu", VFloat (compute_bleu generated generated));
              ("rouge", VDict (compute_rouge generated generated));
              ("semantic_similarity", VFloat (compute_word_overlap generated generated));
              ("hallucination", VDict (detect_hallucination generated diff));
              ("quality_score", VFloat quality) ]
    /\ resp_message r = sanitize_output generated
    /\ resp_assessment r
       = {| hallucination_rate := VFloat 0.0;
            hallucination_detected := VBool detected;
            hallucination_severity := api_severity detected;
            safety_warnings :=
              generate_safety_warnings (api_severity detected) (Some tokens) quality;
            confidence_level := get_confidence_level quality (api_severity detected);
            usage_recommendations :=
              get_usage_recommendations
                (get_confidence_level quality (api_severity detected))
                (api_severity detected) |}
    /\ resp_metrics r
       = {| metric_bleu := VFloat (compute_bleu generated generated);
            metric_rouge_l := VFloat rougeL;
            metric_semantic_similarity :=
              VFloat (compute_word_overlap generated generated);
            metric_quality_score := VFloat quality;
            metric_hallucination_rate := VFloat 0.0;
            metric_ungrounded_tokens := VList (map VStr (take 10 tokens)) |}.
Proof.
  destruct (assess_safety_of_evaluation generated generated diff)
    as (results & quality & detected & rate & tokens & total & Hev & Hres & Hd & Ha).
  destruct (compute_rouge_shape generated generated) as (r1 & r2 & rL & Hr).
  subst results.
  unfold generate_commit_body. rewrite Hev. cbn [mbind result_bind].
  rewrite Ha. cbn [mbind result_bind]. rewrite Hr, Hd.
  cbn [dict_item dict_lookup dict_get dict_has String.eqb Ascii.eqb Bool.eqb mbind
       result_bind py_dict py_slice hallucination_rate].
  rewrite firstn_map.
  eexists _, quality, detected, tokens, r1, r2, rL.
  split; [reflexivity |]. split; [reflexivity |]. split; [reflexivity |].
  split; [reflexivity |].
  cbn [resp_message resp_assessment resp_metrics]. by repeat split.
Qed.

(** Neither endpoint ever reports a severity above "LOW".  Both read the
    rate under the key "rate", which the evaluator's report does not have
    (its key is "hallucination_rate"), so the rate given to the classifier
    is always 0.0: the severity is "LOW" when the evaluator has flagged the
    message and "NONE" otherwise, whatever the share of ungrounded tokens.
    The rate reported back is 0.0, and the usage recommendations, which
    gain a third entry only for "HIGH" and "CRITICAL", always number two. *)
Theorem api_severity_never_above_low (now_iso : string) (now : Q)
    (store : gmap string (list Q)) (diff commit_message : string)
    (reference_message : option string) :
  let low_only (message : string) (a : safety_assessment) :=
    (exists detected : bool,
       dict_lookup (detect_hallucination message diff) "detected" = Some (VBool detected)
       /\ hallucination_severity a = (if detected then "LOW" else "NONE"))
    /\ hallucination_rate a = VFloat 0.0
    /\ length (usage_recommendations a) = 2 in
  (forall r store',
     check_commit now_iso now store diff commit_message reference_message
     = (Response r, store') ->
     low_only commit_message (check_assessment r))
  /\ (forall r store',
        generate_commit now_iso now store diff = (Response r, store') ->
        low_only (gen_message (generate_commit_message diff)) (resp_assessment r)
        /\ metric_hallucination_rate (resp_metrics r) = VFloat 0.0).
Proof.
  intros low_only.
  assert (Hrecs : forall q (detected : bool),
            length (get_usage_recommendations (get_confidence_level q (api_severity detected))
                      (api_severity detected)) = 2).
  { intros q detected.
    generalize (get_confidence_level q (api_severity detected)) as c. intros c.
    unfold get_usage_recommendations.
    destruct (String.eqb c "VERY_LOW"), (String.eqb c "LOW"), (String.eqb c "MEDIUM");
      by destruct detected. }
  split.
  - intros r store' Hanswer. unfold check_commit in Hanswer.
    destruct (validate_input now_iso now store diff "unknown") as [[[valid msg] md] st].
    destruct valid; cbn [negb] in Hanswer; [| discriminate].
    destruct (negb _ || _); [discriminate |].
    destruct (check_commit_body_ok diff commit_message reference_message)
      as (r0 & quality & detected & tokens & l1 & l2 & l4
          & Hbody & Hd & _ & _ & _ & _ & _ & _ & Ha & _).
    rewrite Hbody in Hanswer. injection Hanswer as <- _.
    subst low_only. cbv beta. rewrite Ha. cbn [hallucination_severity hallucination_rate
      usage_recommendations].
    split; [by exists detected |]. split; [reflexivity | apply Hrecs].
  - intros r store' Hanswer. unfold generate_commit in Hanswer.
    destruct (validate_input now_iso now store diff "unknown") as [[[valid msg] md] st].
    destruct valid; cbn [negb] in Hanswer; [| discriminate].
    destruct (negb (gen_success _)); [discriminate |].
    destruct (generate_commit_body_ok diff (gen_message (generate_commit_message diff)))
      as (r0 & quality & detected & tokens & r1 & r2 & rL
          & Hbody & _ & Hd & _ & _ & Ha & Hm).
    rewrite Hbody in Hanswer. injection Hanswer as <- _.
    subst low_only. cbv beta. rewrite Ha, Hm. cbn [hallucination_severity hallucination_rate
      usage_recommendations metric_hallucination_rate].
    split; [| reflexivity].
    split; [by exists detected |]. split; [reflexivity | apply Hrecs].
Qed.

(** The quality score inside the dict of [evaluate_message]. *)
Lemma evaluate_message_quality (generated reference diff : string) :
  exists rouge1 rouge2 rougeL (detected : bool) quality,
    compute_rouge generated reference
    = [ ("rouge1", VFloat rouge1); ("rouge2", VFloat rouge2); ("rougeL", VFloat rougeL) ]
    /\ dict_lookup (detect_hallucination generated diff) "detected" = Some (VBool detected)
    /\ evaluate_message generated reference diff
       = Ok [ ("bleu", VFloat (compute_bleu generated reference));
              ("rouge", VDict (compute_rouge generated reference));
              ("semantic_similarity", VFloat (compute_word_overlap generated reference));
              ("hallucination", VDict (detect_hallucination generated diff));
              ("quality_score", VFloat quality) ]
    /\ quality
       = py_round (weighted_sum (compute_bleu generated reference) rougeL
                     (compute_word_overlap generated reference) detected) 4.
Proof.
  destruct (detect_hallucination_shape generated diff) as (b & rate & tokens & total & Hd).
  destruct (compute_rouge_shape generated reference) as (r1 & r2 & rL & Hr).
  exists r1, r2, rL, b. eexists. split; [exact Hr |].
  split; [by rewrite Hd |].
  unfold evaluate_message, _compute_quality_score. rewrite Hd, Hr.
  cbn [app dict_item dict_lookup String.eqb Ascii.eqb Bool.eqb mbind result_bind py_dict
       py_number py_truth py_truediv].
  change (inject_Z 100) with 100%Q. unfold weighted_sum.
  split; reflexivity.
Qed.

Lemma bleu_nonneg (generated reference : string) :
  (forall x, (0 <= math_exp x)%Q) -> (0 <= compute_bleu generated reference)%Q.
Proof.
  intros Hexp. unfold compute_bleu. cbv zeta. destruct (_ =? 0); [lra |].
  apply py_round_nonneg.
  set (geo := if forallb _ _ then _ else _).
  set (bp := if _ <=? _ then _ else _).
  assert (Hgeo : (0 <= geo)%Q) by (subst geo; destruct (forallb _ _); [apply Hexp | lra]).
  assert (Hbp : (0 <= bp)%Q) by (subst bp; destruct (_ <=? _); [lra | apply Hexp]).
  apply float_mul_nonneg; [by apply float_mul_nonneg | lra].
Qed.

Lemma word_overlap_self (text : string) :
  0 < size (content_words text) -> compute_word_overlap text text = 1%Q.
Proof.
  intros Hpos. rewrite word_overlap_eq. cbv zeta.
  destruct (Nat.eqb_spec (size (content_words text)) 0) as [E|_]; [lia |]. cbn [orb].
  unfold jaccard. rewrite (idemp_L (∩)), (idemp_L (∪)), len_truediv_self by done.
  by vm_compute.
Qed.

Lemma content_words_tokens (text : string) :
  0 < size (content_words text) -> 0 < length (word_tokenize (lower text)).
Proof.
  unfold content_words. destruct (word_tokenize (lower text)); simpl; [| lia].
  rewrite difference_disjoint_L by set_solver. rewrite size_empty. lia.
Qed.

(** [/generateCommit] compares the generated message with itself.  So for
    every message with at least one token that is no stopword, ROUGE-L is
    100 and the semantic similarity is 1, the quality score is at least
    0.5999, and the confidence level is "HIGH" with the "GOOD QUALITY"
    recommendation, whatever the diff and however many tokens of the
    message are ungrounded.  ([math.exp] is assumed non-negative.) *)
Theorem generate_commit_confidence_is_high (now_iso : string) (now : Q)
    (store : gmap string (list Q)) (diff : string) (r : generate_response)
    (store' : gmap string (list Q)) :
  (forall x, (0 <= math_exp x)%Q) ->
  0 < size (content_words (gen_message (generate_commit_message diff))) ->
  generate_commit now_iso now store diff = (Response r, store') ->
  metric_rouge_l (resp_metrics r) = VFloat 100
  /\ metric_semantic_similarity (resp_metrics r) = VFloat 1
  /\ (exists quality,
        metric_quality_score (resp_metrics r) = VFloat quality /\ (0.5999 <= quality)%Q)
  /\ confidence_level (resp_assessment r) = "HIGH"
  /\ head (usage_recommendations (resp_assessment r))
     = Some "✅ GOOD QUALITY: Minor review recommended".
Proof.
  intros Hexp Hwords Hanswer. unfold generate_commit in Hanswer.
  destruct (validate_input now_iso now store diff "unknown") as [[[valid msg] md] st].
  destruct valid; cbn [negb] in Hanswer; [| discriminate].
  destruct (negb (gen_success _)); [discriminate |].
  set (message := gen_message (generate_commit_message diff)) in *.
  destruct (generate_commit_body_ok diff message)
    as (r0 & quality & detected & tokens & r1 & r2 & rL
        & Hbody & Hr & Hd & Hev & _ & Ha & Hm).
  rewrite Hbody in Hanswer. injection Hanswer as <- _.
  destruct (evaluate_message_quality message message diff)
    as (r1' & r2' & rL' & detected' & quality' & Hr' & Hd' & Hev' & Hq).
  rewrite Hr in Hr'. injection Hr' as <- <- <-.
  rewrite Hd in Hd'. injection Hd' as <-.
  rewrite Hev in Hev'. injection Hev' as <-.
  assert (HrL : rL = 100%Q).
  { unfold compute_rouge in Hr. cbv zeta in Hr. injection Hr as _ _ <-.
    rewrite rouge_l_self by (by apply content_words_tokens).
    apply py_round_percent_one. }
  assert (Hsem : compute_word_overlap message message = 1%Q) by by apply word_overlap_self.
  assert (Hquality : (0.5999 <= quality)%Q).
  { rewrite Hq, HrL, Hsem.
    pose proof (bleu_nonneg message message Hexp) as Hb.
    apply Qle_trans with (py_round (weighted_sum 0 100 1 detected) 4);
      [destruct detected; vm_compute; discriminate |].
    apply py_round_mono, weighted_sum_mono; lra. }
  assert (Hconf : get_confidence_level quality (api_severity detected) = "HIGH").
  { unfold get_confidence_level.
    replace (Qgeb quality 0.50) with true by (symmetry; apply Qgeb_true; lra).
    by destruct detected. }
  rewrite Hm, Ha, HrL, Hsem. cbn [metric_rouge_l metric_semantic_similarity
    metric_quality_score confidence_level usage_recommendations resp_metrics].
  split; [reflexivity |]. split; [reflexivity |]. split; [by exists quality |].
  rewrite Hconf. split; [reflexivity |]. by destruct detected.
Qed.

(** *** The rate limit across requests *)

(** The requests that the server handles one after the other, on the one
    guardrails object. *)
Inductive request :=
| GenerateCommit (diff : string)
| CheckCommit (diff commit_message : string) (reference_message : option string).

Definition answer_status {A} (answer : http A) : nat :=
  match answer with
  | Response _ => 200
  | HTTPException e => status_code e
  end.

(** One request, received when the clock reads [now]: its status code and
    the store afterwards. *)
Definition handle (now_iso : string) (now : Q) (store : gmap string (list Q)) (req : request)
    : nat * gmap string (list Q) :=
  match req with
  | GenerateCommit diff =>
      let answer := generate_commit now_iso now store diff in
      (answer_status answer.1, answer.2)
  | CheckCommit diff commit_message reference_message =>
      let answer := check_commit now_iso now store diff commit_message reference_message in
      (answer_status answer.1, answer.2)
  end.

Fixpoint serve (now_iso : string) (store : gmap string (list Q))
    (requests : list (Q * request)) : list nat :=
  match requests with
  | [] => []
  | (now, req) :: rest =>
      let answer := handle now_iso now store req in
      answer.1 :: serve now_iso answer.2 rest
  end.

Lemma validate_input_store now_iso now store diff ip :
  store_of (validate_input now_iso now store diff ip) = (_check_rate_limit now store ip).2
  /\ (rate_limited now store ip = true ->
      is_valid_of (validate_input now_iso now store diff ip) = false).
Proof.
  rewrite validate_input_unfold. cbv zeta. split.
  - repeat match goal with |- context [if ?b then _ else _] => destruct b end; reflexivity.
  - by intros ->.
Qed.

Lemma handle_rate_limit now_iso now store req :
  (handle now_iso now store req).2 = (_check_rate_limit now store "unknown").2
  /\ (rate_limited now store "unknown" = true -> (handle now_iso now store req).1 = 400).
Proof.
  destruct req as [diff | diff commit_message reference_message]; cbn [handle fst snd].
  - destruct (validate_input_store now_iso now store diff "unknown") as [Hst Hrl].
    unfold generate_commit, store_of, is_valid_of in *.
    destruct (validate_input now_iso now store diff "unknown") as [[[valid msg] md] st].
    cbn [fst snd] in *. subst st. split.
    + destruct valid; cbn [negb]; [| done]. by destruct (negb (gen_success _)).
    + intros Erl. by rewrite (Hrl Erl).
  - destruct (validate_input_store now_iso now store diff "unknown") as [Hst Hrl].
    unfold check_commit, store_of, is_valid_of in *.
    destruct (validate_input now_iso now store diff "unknown") as [[[valid msg] md] st].
    cbn [fst snd] in *. subst st. split.
    + destruct valid; cbn [negb]; [| done]. by destruct (negb _ || _).
    + intros Erl. by rewrite (Hrl Erl).
Qed.

Lemma filter_all {A} (f : A -> bool) (l : list A) :
  (forall x, In x l -> f x = true) -> List.filter f l = l.
Proof.
  induction l as [|x l IH]; intros Hall; simpl; [done |].
  rewrite (Hall x) by by left. f_equal. apply IH. intros y Hy. apply Hall. by right.
Qed.

Lemma serve_beyond_limit now_iso (requests : list (Q * request))
    (store : gmap string (list Q)) (k : nat) :
  (forall t t', In t (rate_limit_entries store "unknown") -> In t' (map fst requests) ->
                (t' - t < 60)%Q) ->
  (forall t t', In t (map fst requests) -> In t' (map fst requests) -> (t' - t < 60)%Q) ->
  RATE_LIMIT_RPM <= k + length (rate_limit_entries store "unknown") ->
  k < length requests ->
  serve now_iso store requests !! k = Some 400.
Proof.
  revert store k. induction requests as [|[now req] rest IH]; intros store k Hold Hnew Hk Hlen;
    [simpl in Hlen; lia |].
  cbn [serve].
  destruct (handle_rate_limit now_iso now store req) as [Hst Hrl].
  assert (Hkept : kept_requests now store "unknown" = rate_limit_entries store "unknown").
  { unfold kept_requests. apply filter_all. intros t Ht. apply Qltb_true.
    apply Hold; [done | by left]. }
  destruct (rate_limited now store "unknown") eqn:Erl.
  - pose proof Erl as Efull. unfold rate_limited in Efull. rewrite Hkept in Efull.
    apply Nat.leb_le in Efull.
    assert (Hentries : rate_limit_entries (handle now_iso now store req).2 "unknown"
                       = rate_limit_entries store "unknown").
    { rewrite Hst, (proj2 (check_rate_limit_rejects _ _ _ Erl)), Hkept.
      unfold rate_limit_entries at 1. by rewrite lookup_insert_eq. }
    destruct k as [|k]; [by rewrite (Hrl eq_refl) |].
    cbn [lookup list_lookup]. apply IH.
    + rewrite Hentries. intros t t' Ht Ht'. apply Hold; [done | by right].
    + intros t t' Ht Ht'. apply Hnew; by right.
    + rewrite Hentries. lia.
    + simpl in Hlen. lia.
  - pose proof Erl as Eroom. unfold rate_limited in Eroom. rewrite Hkept in Eroom.
    apply Nat.leb_gt in Eroom.
    assert (Hentries : rate_limit_entries (handle now_iso now store req).2 "unknown"
                       = rate_limit_entries store "unknown" ++ [now]).
    { rewrite Hst, (proj2 (check_rate_limit_admits _ _ _ Erl)), Hkept.
      unfold rate_limit_entries at 1. by rewrite lookup_insert_eq. }
    destruct k as [|k]; [lia |].
    cbn [lookup list_lookup]. apply IH.
    + rewrite Hentries. intros t t' Ht Ht'. apply in_app_iff in Ht as [Ht | [<- | []]].
      * apply Hold; [done | by right].
      * apply Hnew; [by left | by right].
    + intros t t' Ht Ht'. apply Hnew; by right.
    + rewrite Hentries, length_app. simpl. lia.
    + simpl in Hlen. lia.
Qed.

(** The rate limit is one budget for the whole server: both handlers name
    every client "unknown".  When the requests received, of either kind and
    from whatever clients, all fall within a span shorter than 60 seconds,
    every request after the first 60 is answered 400, whatever it
    contains. *)
Theorem rate_limit_is_shared (now_iso : string) (requests : list (Q * request))
    (store : gmap string (list Q)) (k : nat) :
  rate_limit_entries store "unknown" = [] ->
  (forall t t', In t (map fst requests) -> In t' (map fst requests) -> (t' - t < 60)%Q) ->
  RATE_LIMIT_RPM <= k -> k < length requests ->
  serve now_iso store requests !! k = Some 400.
Proof.
  intros Hempty Hspan Hk Hlen. apply serve_beyond_limit; [| done | | done].
  - rewrite Hempty. intros t t' [].
  - rewrite Hempty. simpl. lia.
Qed.

End EndpointProps.

Section EndpointExamples.
Import PyStr Safety EvaluateSimple Main Sample.

Lemma check_commit_outcomes_witness :
  let H := sample_externals in
  is_valid_of (validate_input "t" 0 ∅ sample_diff "unknown") = true
  /\ is_blank "   " = true
  /\ (check_commit "t" 0 ∅ sample_diff "   " None).1
     = HTTPException (BadRequest "Commit message cannot be empty")
  /\ is_valid_of (validate_input "t" 0 ∅ "no diff here" "unknown") = false
  /\ exists detail,
       (check_commit "t" 0 ∅ "no diff here" "Fix bug" None).1
       = HTTPException (BadRequest detail).
Proof.
  intros H.
  assert (Hv : is_valid_of (validate_input "t" 0 ∅ sample_diff "unknown") = true)
    by (vm_compute; reflexivity).
  assert (Hb : is_blank "   " = true) by (vm_compute; reflexivity).
  assert (Hn : is_valid_of (validate_input "t" 0 ∅ "no diff here" "unknown") = false)
    by (vm_compute; reflexivity).
  split; [exact Hv |]. split; [exact Hb |]. split.
  - destruct (check_commit_outcomes "t" 0 ∅ sample_diff "   " None) as (_ & _ & T & _).
    exact (T Hv Hb).
  - split; [exact Hn |].
    destruct (check_commit_outcomes "t" 0 ∅ "no diff here" "Fix bug" None) as (_ & T & _).
    eexists. exact (T Hn).
Defined.

(** A message none of whose checked tokens occurs in the diff: the
    evaluator's rate is 1.0, the severity reported is "LOW". *)
Lemma api_severity_never_above_low_witness :
  let H := sample_externals in
  dict_lookup (detect_hallucination "Rewrite the tokenizer" sample_diff) "hallucination_rate"
  = Some (VFloat 1)
  /\ exists r store',
       check_commit "t" 0 ∅ sample_diff "Rewrite the tokenizer" None = (Response r, store')
       /\ hallucination_severity (check_assessment r) = "LOW"
       /\ hallucination_rate (check_assessment r) = VFloat 0.0
       /\ length (usage_recommendations (check_assessment r)) = 2.
Proof.
  intros H. split; [vm_compute; reflexivity |].
  destruct (check_commit "t" 0 ∅ sample_diff "Rewrite the tokenizer" None)
    as [[r|e] store'] eqn:E.
  - exists r, store'. split; [reflexivity |].
    destruct (api_severity_never_above_low "t" 0 ∅ sample_diff "Rewrite the tokenizer" None)
      as [T _].
    destruct (T r store' E) as ((detected & Hd & Hs) & Hr & Hl).
    split; [| by split].
    rewrite Hs. clear -Hd. vm_compute in Hd. by injection Hd as <-.
  - exfalso. clear -E. vm_compute in E. discriminate E.
Defined.

Lemma check_commit_feedback_shape_witness :
  let H := sample_externals in
  exists r store',
    check_commit "t" 0 ∅ sample_diff "Rewrite the tokenizer" None = (Response r, store')
    /\ 6 <= length (check_feedback r) <= 9.
Proof.
  intros H.
  destruct (check_commit "t" 0 ∅ sample_diff "Rewrite the tokenizer" None)
    as [[r|e] store'] eqn:E.
  - exists r, store'. split; [reflexivity |].
    destruct (check_commit_feedback_shape "t" 0 ∅ sample_diff "Rewrite the tokenizer" None
                r store' E) as (_ & _ & _ & _ & _ & _ & _ & _ & Hlen).
    exact Hlen.
  - exfalso. clear -E. vm_compute in E. discriminate E.
Defined.

Lemma sample_exp_nonneg (x : Q) : (0 <= sample_exp x)%Q.
Proof.
  unfold sample_exp.
  assert (E : (x * x / 2 == x * x * (1 # 2))%Q) by reflexivity.
  rewrite E. nra.
Qed.

Lemma generate_commit_confidence_is_high_witness :
  let H := sample_externals in
  (forall x, (0 <= math_exp x)%Q)
  /\ 0 < size (content_words (gen_message (generate_commit_message sample_diff)))
  /\ exists r store',
       generate_commit "t" 0 ∅ sample_diff = (Response r, store')
       /\ confidence_level (resp_assessment r) = "HIGH"
       /\ metric_rouge_l (resp_metrics r) = VFloat 100.
Proof.
  intros H.
  assert (Hexp : forall x, (0 <= math_exp x)%Q) by exact sample_exp_nonneg.
  assert (Hwords : 0 < size (content_words (gen_message (generate_commit_message sample_diff))))
    by (vm_compute; lia).
  split; [exact Hexp |]. split; [exact Hwords |].
  destruct (generate_commit "t" 0 ∅ sample_diff) as [[r|e] store'] eqn:E.
  - exists r, store'. split; [reflexivity |].
    destruct (generate_commit_confidence_is_high "t" 0 ∅ sample_diff r store' Hexp Hwords E)
      as (Hr & _ & _ & Hc & _).
    by split.
  - exfalso. clear -E. vm_compute in E. discriminate E.
Defined.

Lemma rate_limit_is_shared_witness :
  let H := sample_externals in
  let requests := replicate 30 (0%Q, GenerateCommit sample_diff)
                  ++ replicate 31 (0%Q, CheckCommit sample_diff "Fix bug" None) in
  rate_limit_entries ∅ "unknown" = []
  /\ RATE_LIMIT_RPM <= 60 < length requests
  /\ serve "t" ∅ requests !! 60 = Some 400.
Proof.
  intros H requests.
  assert (Hempty : rate_limit_entries ∅ "unknown" = []) by reflexivity.
  assert (Hlen : RATE_LIMIT_RPM <= 60 < length requests) by (vm_compute; lia).
  split; [exact Hempty |]. split; [exact Hlen |].
  apply (rate_limit_is_shared "t" requests ∅ 60 Hempty); [| apply Hlen | apply Hlen].
  assert (Hzero : forall t, In t (map fst requests) -> t = 0%Q).
  { intros t Ht. apply in_map_iff in Ht as ([q rq] & <- & Hin). subst requests.
    apply in_app_iff in Hin as [Hin|Hin]; apply list_elem_of_In in Hin;
      apply elem_of_replicate in Hin as [[= <- _] _]; reflexivity. }
  intros t t' Ht Ht'. rewrite (Hzero t Ht), (Hzero t' Ht'). by vm_compute.
Defined.

End EndpointExamples.

(** ** The agents, record by record *)

Section AgentRecordProps.
Import PyStr Safety EvaluateSimple MultiAgent.
Context `{Externals}.

(** What every record that an agent logs has: one of the three agent
    names, a non-empty reasoning, and a [safety_check] dict with the keys
    "input" and "output" only. *)
Definition agent_record (d : AgentDecision) : Prop :=
  In (agent_name d) ["GeneratorAgent"; "ValidatorAgent"; "RefinerAgent"]
  /\ py_truth (VStr (reasoning d)) = true
  /\ dict_lookup (safety_check d) "passed" = None.

(** The message that [GeneratorAgent.execute] hands on. *)
Definition generated_text (diff : string) : string :=
  if gen_success (generate_commit_message diff)
  then gen_message (generate_commit_message diff)
  else "Error generating message".

Lemma require_input_inv agent phase name input g r g' :
  require_passed agent phase (validate_agent_input name input) g = (r, g') ->
  g' = g /\ match r with Ok _ => True | Raise e => is_value_error e end.
Proof.
  destruct (require_passed_input agent phase name input g) as [E | [msg E]];
    rewrite E; intros [= <- <-]; split; try done. by exists msg.
Qed.

Lemma require_output_inv agent phase name output g r g' :
  require_passed agent phase (validate_agent_output name output) g = (r, g') ->
  g' = g /\ match r with
            | Ok _ => _check_quality name output = true
            | Raise e => is_value_error e
            end.
Proof.
  unfold require_passed, bind, lift, validate_agent_output, dict_item.
  cbn [dict_lookup String.eqb Ascii.eqb Bool.eqb forallb py_truth].
  destruct (_check_output_format name output), (_check_unsafe_output output),
    (_check_quality name output); cbn [andb negb]; unfold ret, raise;
    intros [= <- <-]; split; try done; by eexists.
Qed.

Lemma generator_execute_inv (diff : string) (g : governance) r g' :
  generator_execute diff g = (r, g') ->
  match r with
  | Ok output =>
      (exists d, g' = logged g d /\ agent_name d = "GeneratorAgent" /\ agent_record d)
      /\ dict_lookup output "message" = Some (VStr (generated_text diff))
      /\ 10 <= len (generated_text diff) <= 500
  | Raise e => g' = g /\ is_value_error e
  end.
Proof.
  unfold generator_execute. cbv beta zeta. fold (generated_text diff).
  rewrite bind_eq.
  destruct (require_passed _ "input" _ g) as [r1 g1] eqn:E1.
  apply require_input_inv in E1 as [-> H1].
  destruct r1 as [[]|e]; [| by intros [= <- <-]].
  rewrite bind_eq.
  destruct (require_passed _ "output" _ g) as [r2 g2] eqn:E2.
  apply require_output_inv in E2 as [-> H2].
  destruct r2 as [[]|e]; [| by intros [= <- <-]].
  unfold bind, log_agent_decision, ret. intros [= <- <-].
  split; [eexists; split; [reflexivity |]; split; [reflexivity |] |].
  - split; [simpl; tauto |]. by split.
  - split; [reflexivity |].
    unfold _check_quality in H2. cbn [String.eqb Ascii.eqb Bool.eqb dict_get dict_lookup
      py_len] in H2.
    apply andb_prop in H2 as [Hlo Hhi].
    apply Nat.leb_le in Hlo, Hhi. lia.
Qed.

(** The issue that the validator words with the quality score. *)
Definition low_quality_issue (q : Q) : string :=
  "Low quality score (" +:+ format_float ".2f" q +:+ ")".

Lemma validator_issues_in_range (a : assessment) (message : string) :
  a_hallucination_detected a = VBool false ->
  10 <= len message <= 500 ->
  validator_issues a message
  = Ok (if Qltb (a_quality_score a) 0.3 then [low_quality_issue (a_quality_score a)] else []).
Proof.
  intros Hd [Hlo Hhi]. unfold validator_issues. rewrite Hd.
  cbn [py_truth mbind result_bind app].
  replace (len message <? 10) with false by (symmetry; apply Nat.ltb_ge; lia).
  replace (500 <? len message) with false by (symmetry; apply Nat.ltb_ge; lia).
  by rewrite !app_nil_r.
Qed.

Lemma validator_execute_inv (message diff reference_message : string) (g : governance) r g' :
  validator_execute message diff reference_message g = (r, g') ->
  match r with
  | Ok output =>
      exists a issues d,
        validator_assess message diff reference_message = Ok a
        /\ validator_issues a message = Ok issues
        /\ g' = logged (counted g) d
        /\ agent_name d = "ValidatorAgent" /\ agent_record d
        /\ dict_lookup output "is_valid" = Some (VBool (a_is_valid a))
        /\ (exists feedback,
              dict_lookup output "feedback" = Some (VDict feedback)
              /\ dict_lookup feedback "is_valid" = Some (VBool (a_is_valid a))
              /\ dict_lookup feedback "issues" = Some (VList (map VStr issues))
              /\ dict_lookup feedback "suggestions"
                 = Some (VList (map VStr (_generate_suggestions issues))))
        /\ dict_lookup output "metrics" = Some (VDict (a_metrics a))
  | Raise e => g' = counted g /\ is_value_error e
  end.
Proof.
  unfold validator_execute. cbv beta zeta. rewrite bind_eq.
  unfold count_validation at 1. fold (counted g). cbv beta iota.
  rewrite bind_eq.
  destruct (require_passed _ "input" _ (counted g)) as [r1 g1] eqn:E1.
  apply require_input_inv in E1 as [-> H1].
  destruct r1 as [[]|e]; [| by intros [= <- <-]].
  destruct (validator_assess_none message diff reference_message)
    as (a & Ha & _ & _ & Hd & _).
  destruct (validator_issues_ok a message Hd) as [issues Hi].
  rewrite Ha, bind_lift_ok, Hi, bind_lift_ok, bind_eq.
  destruct (require_passed _ "output" _ (counted g)) as [r2 g2] eqn:E2.
  apply require_output_inv in E2 as [-> H2].
  destruct r2 as [[]|e]; [| by intros [= <- <-]].
  unfold bind, log_agent_decision, ret. intros [= <- <-].
  exists a, issues. eexists. split; [done |]. split; [done |].
  split; [reflexivity |]. split; [reflexivity |]. split.
  { split; [simpl; tauto |]. by split. }
  split; [reflexivity |]. split; [| reflexivity].
  eexists. split; [reflexivity |]. by repeat split.
Qed.

Lemma str_items_strings (l : list string) : str_items (VList (map VStr l)) = l.
Proof.
  unfold str_items. induction l as [|s l IH]; [done |].
  cbn [map omap list_omap]. cbn [omap list_omap] in IH. by rewrite IH.
Qed.

(** [_apply_refinements] leaves a message of 10 to 500 characters as it
    is unless some issue mentions "Hallucination". *)
Lemma apply_refinements_keeps (message : string) (suggestions issues : list string)
    (diff : string) :
  10 <= len message <= 500 ->
  Forall (fun issue => contains issue "Hallucination" = false) issues ->
  (_apply_refinements message suggestions issues diff).1 = message.
Proof.
  intros [Hlo Hhi] Hissues. unfold _apply_refinements.
  assert (Hfold : forall changes,
            exists changes',
              fold_left (refine_for_issue diff) issues (message, changes)
              = (message, changes')).
  { induction Hissues as [|issue issues Hi _ IH]; intros changes; cbn [fold_left];
      [by eexists |].
    assert (Hstep : refine_for_issue diff (message, changes) issue = (message, changes)).
    { unfold refine_for_issue. cbv beta iota.
      replace (len message <? 10) with false by (symmetry; apply Nat.ltb_ge; lia).
      rewrite andb_false_r. cbv beta iota.
      replace (500 <? len message) with false by (symmetry; apply Nat.ltb_ge; lia).
      rewrite andb_false_r. cbv beta iota. by rewrite Hi. }
    rewrite Hstep. apply IH. }
  destruct (Hfold []) as [changes' ->]. by destruct changes', suggestions.
Qed.

Lemma refiner_execute_inv (message : string) (feedback : list (string * pyval))
    (diff : string) (g : governance) r g' :
  refiner_execute message feedback diff g = (r, g') ->
  match r with
  | Ok output =>
      (exists d, g' = logged g d /\ agent_name d = "RefinerAgent" /\ agent_record d)
      /\ dict_lookup output "refined_message"
         = Some (VStr (if py_truth (dict_get feedback "is_valid" (VBool false))
                       then message
                       else (_apply_refinements message
                               (str_items (dict_get feedback "suggestions" (VList [])))
                               (str_items (dict_get feedback "issues" (VList [])))
                               diff).1))
  | Raise e => g' = g /\ is_value_error e
  end.
Proof.
  unfold refiner_execute. cbv beta zeta. rewrite bind_eq.
  destruct (require_passed _ "input" _ g) as [r1 g1] eqn:E1.
  apply require_input_inv in E1 as [-> H1].
  destruct r1 as [[]|e]; [| by intros [= <- <-]].
  destruct (py_truth (dict_get feedback "is_valid" (VBool false))).
  - rewrite bind_eq.
    destruct (require_passed _ "output" _ g) as [r2 g2] eqn:E2.
    apply require_output_inv in E2 as [-> H2].
    destruct r2 as [[]|e]; [| by intros [= <- <-]].
    unfold bind, log_agent_decision, ret. intros [= <- <-].
    split; [| reflexivity]. eexists. split; [reflexivity |]. split; [reflexivity |].
    split; [simpl; tauto |]. by split.
  - destruct (_apply_refinements _ _ _ _) as [refined changes].
    rewrite bind_eq.
    destruct (require_passed _ "output" _ g) as [r2 g2] eqn:E2.
    apply require_output_inv in E2 as [-> H2].
    destruct r2 as [[]|e]; [| by intros [= <- <-]].
    unfold bind, log_agent_decision, ret. intros [= <- <-].
    split; [| reflexivity]. eexists. split; [reflexivity |]. split; [reflexivity |].
    split; [simpl; tauto |]. by split.
Qed.

Lemma logged_records g d :
  Forall agent_record (audit_trail g) -> agent_record d ->
  Forall agent_record (audit_trail (logged g d)).
Proof. intros Hg Hd. simpl. apply Forall_app. split; [done | by constructor]. Qed.

(** The loop logs nothing but such records. *)
Lemma refine_loop_records (fuel : nat) (max_iterations : Z) (diff reference_message : string)
    (iteration : Z) (message : string) (g : governance) r g' :
  Forall agent_record (audit_trail g) ->
  refine_loop fuel max_iterations diff reference_message iteration message g = (r, g') ->
  Forall agent_record (audit_trail g').
Proof.
  revert iteration message g.
  induction fuel as [|fuel IH]; intros iteration message g Hg E; cbn [refine_loop] in E.
  { by injection E as <- <-. }
  destruct (iteration <? max_iterations)%Z; [| by injection E as <- <-].
  rewrite bind_eq in E.
  destruct (validator_execute message diff reference_message g) as [[output|e] g1] eqn:Ev;
    apply validator_execute_inv in Ev.
  2: { destruct Ev as [-> _]. by injection E as <- <-. }
  destruct Ev as (a & issues & d & _ & _ & -> & _ & Hd & Hvalid & (fb & Hfb & _) & _).
  assert (Hg1 : Forall agent_record (audit_trail (logged (counted g) d)))
    by by apply logged_records.
  unfold dict_item at 1 in E. rewrite Hvalid, bind_lift_ok in E. cbn [py_truth] in E.
  destruct (a_is_valid a); [by injection E as <- <- |].
  unfold dict_item at 1 in E. rewrite Hfb in E. cbn [mbind result_bind py_dict] in E.
  rewrite bind_lift_ok, bind_eq in E.
  destruct (refiner_execute message fb diff (logged (counted g) d)) as [[out|e] g2] eqn:Er;
    apply refiner_execute_inv in Er.
  2: { destruct Er as [-> _]. by injection E as <- <-. }
  destruct Er as ((d2 & -> & _ & Hd2) & Hout).
  unfold dict_item at 1 in E. rewrite Hout, bind_lift_ok in E.
  eapply IH; [| exact E]. by apply logged_records.
Qed.

(** The verdict of the validator on a message; it does not depend on the
    state of the controller. *)
Definition verdict (message diff reference_message : string) : bool :=
  match validator_assess message diff reference_message with
  | Ok a => a_is_valid a
  | Raise _ => false
  end.

(** The text of the only issue that can reach the refiner in the loop
    does not mention "Hallucination". *)
Definition plain_issue (message diff reference_message : string) : Prop :=
  forall a, validator_assess message diff reference_message = Ok a ->
            Qltb (a_quality_score a) 0.3 = true ->
            contains (low_quality_issue (a_quality_score a)) "Hallucination" = false.

(** The loop on a message of 10 to 500 characters: the refiner hands the
    message back as it is, so the verdict is the same in every iteration. *)
Lemma refine_loop_keeps (fuel : nat) (max_iterations : Z) (diff reference_message : string)
    (iteration : Z) (message : string) (g : governance) left g' :
  10 <= len message <= 500 ->
  plain_issue message diff reference_message ->
  refine_loop fuel max_iterations diff reference_message iteration message g
  = (Ok (Some left), g') ->
  left.2 = message
  /\ if (iteration <? max_iterations)%Z then
       if verdict message diff reference_message then
         left.1 = iteration
         /\ exists d, audit_trail g' = audit_trail g ++ [d] /\ agent_name d = "ValidatorAgent"
       else left.1 = max_iterations
     else left.1 = iteration /\ g' = g.
Proof.
  intros Hlen Hplain. revert iteration g.
  induction fuel as [|fuel IH]; intros iteration g E; cbn [refine_loop] in E; [done |].
  destruct (iteration <? max_iterations)%Z eqn:Ei; [| by injection E as <- <-].
  apply Z.ltb_lt in Ei. rewrite bind_eq in E.
  destruct (validator_execute message diff reference_message g) as [[output|e] g1] eqn:Ev;
    apply validator_execute_inv in Ev; [| done].
  destruct Ev as (a & issues & d & Ha & Hi & -> & Hname & _ & Hvalid
                  & (fb & Hfb & Hfv & Hfi & Hfs) & _).
  unfold verdict. rewrite Ha.
  unfold dict_item at 1 in E. rewrite Hvalid, bind_lift_ok in E. cbn [py_truth] in E.
  destruct (a_is_valid a) eqn:Eva.
  { injection E as <- <-. split; [done |]. split; [done |]. by exists d. }
  unfold dict_item at 1 in E. rewrite Hfb in E. cbn [mbind result_bind py_dict] in E.
  rewrite bind_lift_ok, bind_eq in E.
  destruct (refiner_execute message fb diff (logged (counted g) d)) as [[out|e] g2] eqn:Er;
    apply refiner_execute_inv in Er; [| done].
  destruct Er as (_ & Hout).
  unfold dict_get in Hout. rewrite Hfv, Hfi, Hfs in Hout. cbn [py_truth] in Hout.
  rewrite !str_items_strings in Hout.
  destruct (validator_assess_none message diff reference_message)
    as (a' & Ha' & _ & _ & Hd & _).
  rewrite Ha in Ha'. injection Ha' as <-.
  rewrite (validator_issues_in_range a message Hd Hlen) in Hi. injection Hi as <-.
  rewrite apply_refinements_keeps in Hout.
  2: done.
  2: { destruct (Qltb (a_quality_score a) 0.3) eqn:Eq; [| constructor].
       constructor; [| constructor]. by apply Hplain. }
  unfold dict_item at 1 in E. rewrite Hout, bind_lift_ok in E.
  apply IH in E as [Hmsg Hit]. split; [done |].
  unfold verdict in Hit. rewrite Ha, Eva in Hit.
  destruct (iteration + 1 <? max_iterations)%Z eqn:Ei'; [done |].
  apply Z.ltb_ge in Ei'. destruct Hit as [-> _]. lia.
Qed.

(** The refiner never changes the message of a run: the message that a
    run returns is the generator's, as it was.  So the validator's verdict
    is the same in every iteration, and a run takes either one iteration or
    all of them.  (The issue text that quotes the quality score is assumed
    not to contain the word "Hallucination".) *)
Theorem refinement_never_changes_the_message (max_iterations : Z)
    (diff reference_message : string) (g : governance) (result : MultiAgentResult)
    (g' : governance) :
  plain_issue (generated_text diff) diff reference_message ->
  generate_commit_message_multi_agent max_iterations diff reference_message g
  = (Ok (Some result), g') ->
  final_message result = generated_text diff
  /\ 10 <= len (final_message result) <= 500
  /\ total_iterations (summary result)
     = (if (0 <? max_iterations)%Z && negb (verdict (generated_text diff) diff reference_message)
        then max_iterations + 1 else 1)%Z.
Proof.
  intros Hplain E. unfold generate_commit_message_multi_agent in E. rewrite bind_eq in E.
  destruct (generator_execute diff g) as [[gen_result|e] g1] eqn:Eg;
    apply generator_execute_inv in Eg; [| done].
  destruct Eg as (_ & Hmsg & Hlen).
  unfold dict_item at 1 in E. rewrite Hmsg, bind_lift_ok, bind_eq in E.
  destruct (refine_loop _ _ _ _ _ _ g1) as [[[left|]|e] g2] eqn:El; [| done | done].
  apply (refine_loop_keeps _ _ _ _ _ _ _ _ _ Hlen Hplain) in El as [Hkept Hit].
  destruct left as [iteration message]. cbn [fst snd] in *. subst message.
  rewrite bind_eq in E.
  destruct (validator_execute _ _ _ g2) as [[final_metrics|e] g3]; [| done].
  destruct (dict_item final_metrics "metrics") as [metrics|e]; [| done].
  rewrite bind_lift_ok in E. injection E as <- _.
  cbn [final_message summary total_iterations]. split; [reflexivity |]. split; [exact Hlen |].
  destruct (0 <? max_iterations)%Z; [| destruct Hit as [-> _]; reflexivity].
  destruct (verdict _ _ _); [destruct Hit as [-> _]; reflexivity |].
  by rewrite Hit.
Qed.

(** The constructor's validator accepts every message when there is no
    reference message, which is the default: the metrics are then the
    fixed all-zero dict and the quality score is the default 0.5. *)
Lemma verdict_without_reference (message diff : string) :
  validator_assess message diff EmptyString
  = Ok {| a_metrics := NO_REFERENCE_METRICS;
          a_hallucination_detected := VBool false;
          a_ungrounded_ratio := VFloat 0.0;
          a_severity := "NONE";
          a_quality_score := 0.5;
          a_confidence := "HIGH";
          a_is_valid := true |}.
Proof. reflexivity. Qed.

(** A call of [generate_with_multi_agent] without a reference message
    never refines.  Whatever the diff and the generated message, a call
    that returns gives back the generator's message after one iteration,
    with the all-zero metrics, and its trail holds three records: the
    generator's and two of the validator. *)
Theorem multi_agent_without_reference (diff : string) (response : multi_agent_response) :
  generate_with_multi_agent diff EmptyString = Ok (Some response) ->
  response_message response = generated_text diff
  /\ response_quality_metrics response = VDict NO_REFERENCE_METRICS
  /\ total_iterations (response_governance response) = 1%Z
  /\ agents_involved (response_governance response) = ["GeneratorAgent"; "ValidatorAgent"]
  /\ map (fun entry => entry.1.1) (response_agent_trail response)
     = ["GeneratorAgent"; "ValidatorAgent"; "ValidatorAgent"].
Proof.
  unfold generate_with_multi_agent.
  destruct (generate_commit_message_multi_agent 3 diff EmptyString fresh_governance)
    as [[[result|]|e] g'] eqn:E; [| done | done].
  intros [= <-]. cbn [response_message response_quality_metrics response_governance
    response_agent_trail].
  unfold generate_commit_message_multi_agent in E. rewrite bind_eq in E.
  destruct (generator_execute diff fresh_governance) as [[gen_result|e] g1] eqn:Eg;
    apply generator_execute_inv in Eg; [| done].
  destruct Eg as ((d0 & -> & Hn0 & _) & Hmsg & Hlen).
  unfold dict_item at 1 in E. rewrite Hmsg, bind_lift_ok, bind_eq in E.
  destruct (refine_loop _ _ _ _ _ _ _) as [[[left|]|e] g2] eqn:El; [| done | done].
  apply refine_loop_keeps in El as [Hkept Hit]; [| done |].
  2: { intros a Ha Hq. rewrite verdict_without_reference in Ha. injection Ha as <-.
       discriminate Hq. }
  destruct left as [iteration message]. cbn [fst snd] in *. subst message.
  unfold verdict in Hit. rewrite verdict_without_reference in Hit. cbn in Hit.
  destruct Hit as (-> & d1 & Htrail & Hn1).
  rewrite bind_eq in E.
  destruct (validator_execute _ _ _ g2) as [[final_metrics|e] g3] eqn:Ev;
    apply validator_execute_inv in Ev; [| done].
  destruct Ev as (a & issues & d2 & Ha & _ & -> & Hn2 & _ & _ & _ & Hmetrics).
  rewrite verdict_without_reference in Ha. injection Ha as <-.
  unfold dict_item in E. rewrite Hmetrics, bind_lift_ok in E. injection E as <- _.
  cbn [final_message quality_metrics summary total_iterations agents_involved
       agent_decisions a_metrics audit_trail logged counted].
  rewrite Htrail. cbn [audit_trail logged fresh_governance app map fst].
  rewrite Hn0, Hn1, Hn2. by repeat split.
Qed.

(** The transparency report of a run marks every decision of its chain as
    not having passed its safety check: the report reads the key "passed"
    of a record's [safety_check], which holds the keys "input" and "output"
    only.  It does so although a record is logged only after both checks of
    its agent have passed.  The other compliance fields are as the summary
    claims: every record has a reasoning, and the trail is not empty. *)
Theorem transparency_report_marks_nothing_passed (max_iterations : Z)
    (diff reference_message : string) (result : MultiAgentResult) (g' : governance) :
  generate_commit_message_multi_agent max_iterations diff reference_message fresh_governance
  = (Ok (Some result), g') ->
  let chain := decision_chain (report (summary result)) in
  length chain = length (agent_decisions result)
  /\ Forall (fun entry => entry.2 = false) chain
  /\ Forall agent_record (agent_decisions result)
  /\ explainability_provided (report (summary result)) = true
  /\ accountability_traced (report (summary result)) = true
  /\ safety_checks_performed (report (summary result)) = 2 * length chain.
Proof.
  intros E chain.
  assert (Hrec : Forall agent_record (audit_trail g')
                 /\ agent_decisions result = audit_trail g'
                 /\ report (summary result) = generate_transparency_report g'
                 /\ 0 < length (audit_trail g')).
  { unfold generate_commit_message_multi_agent in E. rewrite bind_eq in E.
    destruct (generator_execute diff fresh_governance) as [[gen_result|e] g1] eqn:Eg;
      apply generator_execute_inv in Eg; [| done].
    destruct Eg as ((d0 & -> & _ & Hd0) & Hmsg & _).
    unfold dict_item at 1 in E. rewrite Hmsg, bind_lift_ok, bind_eq in E.
    destruct (refine_loop _ _ _ _ _ _ _) as [[[[iteration message]|]|e] g2] eqn:El;
      [| done | done].
    apply refine_loop_records in El; [| by apply logged_records].
    rewrite bind_eq in E.
    destruct (validator_execute _ _ _ g2) as [[final_metrics|e] g3] eqn:Ev;
      apply validator_execute_inv in Ev; [| done].
    destruct Ev as (a & issues & d2 & _ & _ & -> & _ & Hd2 & _ & _ & Hmetrics).
    unfold dict_item in E. rewrite Hmetrics, bind_lift_ok in E. injection E as <- <-.
    cbn [agent_decisions summary report].
    split; [by apply logged_records |]. split; [done |]. split; [done |].
    simpl. rewrite length_app. simpl. lia. }
  destruct Hrec as (Hall & Hdec & Hrep & Hpos).
  subst chain. rewrite Hrep, Hdec. unfold generate_transparency_report.
  cbn [decision_chain explainability_provided accountability_traced
       safety_checks_performed].
  split; [by rewrite length_map |]. split.
  { clear -Hall. induction Hall as [|d ds Hd _ IH]; simpl; constructor; [| done].
    destruct Hd as (_ & _ & Hp). unfold dict_get. by rewrite Hp. }
  split; [done |]. split.
  { clear -Hall. induction Hall as [|d ds Hd _ IH]; [done |].
    cbn [forallb]. destruct Hd as (_ & -> & _). done. }
  split; [by apply Nat.ltb_lt |]. rewrite length_map. lia.
Qed.

End AgentRecordProps.

Section AgentRecordExamples.
Import PyStr Safety EvaluateSimple MultiAgent Sample.

Lemma refinement_never_changes_the_message_witness :
  let H := sample_externals in
  plain_issue (generated_text sample_diff) sample_diff "Completely different reference words"
  /\ exists result g',
       generate_commit_message_multi_agent 3 sample_diff
         "Completely different reference words" fresh_governance = (Ok (Some result), g')
       /\ final_message result = "Update parser to handle empty input"
       /\ total_iterations (summary result) = 4%Z.
Proof.
  intros H.
  assert (Hplain : plain_issue (generated_text sample_diff) sample_diff
                     "Completely different reference words").
  { intros a Ha _. vm_compute in Ha. injection Ha as <-. vm_compute. reflexivity. }
  split; [exact Hplain |].
  destruct (generate_commit_message_multi_agent 3 sample_diff
              "Completely different reference words" fresh_governance)
    as [[[result|]|e] g'] eqn:E.
  - exists result, g'. split; [reflexivity |].
    destruct (refinement_never_changes_the_message 3 sample_diff
                "Completely different reference words" fresh_governance result g' Hplain E)
      as (Hm & _ & Hi).
    split; [exact Hm |]. rewrite Hi. clear. vm_compute. reflexivity.
  - exfalso. clear -E. vm_compute in E. discriminate E.
  - exfalso. clear -E. vm_compute in E. discriminate E.
Defined.

Lemma multi_agent_without_reference_witness :
  let H := sample_externals in
  exists response,
    generate_with_multi_agent sample_diff EmptyString = Ok (Some response)
    /\ response_message response = "Update parser to handle empty input"
    /\ total_iterations (response_governance response) = 1%Z.
Proof.
  intros H.
  destruct (generate_with_multi_agent sample_diff EmptyString) as [[response|]|e] eqn:E.
  - exists response. split; [reflexivity |].
    destruct (multi_agent_without_reference sample_diff response E) as (Hm & _ & Hi & _).
    split; [exact Hm | exact Hi].
  - exfalso. clear -E. vm_compute in E. discriminate E.
  - exfalso. clear -E. vm_compute in E. discriminate E.
Defined.

Lemma transparency_report_marks_nothing_passed_witness :
  let H := sample_externals in
  exists result g',
    generate_commit_message_multi_agent 3 sample_diff EmptyString fresh_governance
    = (Ok (Some result), g')
    /\ Forall (fun entry => entry.2 = false) (decision_chain (report (summary result)))
    /\ length (decision_chain (report (summary result))) = length (agent_decisions result).
Proof.
  intros H.
  destruct (generate_commit_message_multi_agent 3 sample_diff EmptyString fresh_governance)
    as [[[result|]|e] g'] eqn:E.
  - exists result, g'. split; [reflexivity |].
    destruct (transparency_report_marks_nothing_passed 3 sample_diff EmptyString result g' E)
      as (Hl & Hf & _).
    split; [exact Hf | exact Hl].
  - exfalso. clear -E. vm_compute in E. discriminate E.
  - exfalso. clear -E. vm_compute in E. discriminate E.
Defined.

End AgentRecordExamples.

(** ** Messages that [sanitize_output] leaves alone *)

Section SanitizeFixedPoints.
Import PyStr Safety.

Lemma lstrip_blank (l : list ascii) :
  Forall (fun c => isspace c = true) l -> lstrip_chars l = [].
Proof. induction 1 as [|c l Hc _ IH]; simpl; [done |]. by rewrite Hc. Qed.

(** [sanitize_output] returns a message unchanged when it has at most 500
    characters, no white space at either end, no backtick and no run of
    three newlines; and it returns the empty string for a message made of
    white space only. *)
Theorem sanitize_output_fixed_points (x : string) :
  (tidy (chars x) -> len x <= MAX_MESSAGE_LENGTH -> sanitize_output x = x)
  /\ (Forall (fun c => isspace c = true) (chars x) -> sanitize_output x = EmptyString).
Proof.
  split.
  - intros Ht Hlen. rewrite <- (str_chars (sanitize_output x)), sanitize_output_chars.
    unfold sanitize_chars. rewrite (tidy_cleaned _ Ht).
    replace (MAX_MESSAGE_LENGTH <? length (chars x)) with false
      by (symmetry; apply Nat.ltb_ge; exact Hlen).
    apply str_chars.
  - intros Hblank. rewrite <- (str_chars (sanitize_output x)), sanitize_output_chars.
    unfold sanitize_chars, cleaned, strip_chars. rewrite (lstrip_blank _ Hblank).
    reflexivity.
Qed.

Lemma sanitize_output_fixed_points_witness :
  tidy (chars "Fix bug in parser")
  /\ len "Fix bug in parser" <= MAX_MESSAGE_LENGTH
  /\ sanitize_output "Fix bug in parser" = "Fix bug in parser"
  /\ Forall (fun c => isspace c = true) (chars "   ")
  /\ sanitize_output "   " = EmptyString.
Proof.
  assert (Ht : tidy (chars "Fix bug in parser")).
  { split; [split | split].
    - intros c l' [= <- _]. reflexivity.
    - intros c l' E. change (chars "Fix bug in parser") with (chars "Fix bug in parse" ++ ["r"%char]) in E.
      by apply app_inj_tail in E as [_ <-].
    - by repeat (constructor; [done |]).
    - reflexivity. }
  assert (Hl : len "Fix bug in parser" <= MAX_MESSAGE_LENGTH) by (vm_compute; lia).
  assert (Hb : Forall (fun c => isspace c = true) (chars "   "))
    by (repeat constructor).
  split; [exact Ht |]. split; [exact Hl |].
  split; [exact (proj1 (sanitize_output_fixed_points "Fix bug in parser") Ht Hl) |].
  split; [exact Hb |].
  exact (proj2 (sanitize_output_fixed_points "   ") Hb).
Defined.

End SanitizeFixedPoints.
